(** * Uranium fuel-cycle model: enrichment economics, supply panels, inventories

    A shallow embedding of the numeric core of [uranium_model]:

    - [config/constants.py] and [core/fuel_cycle.py]  (module [FuelCycle]),
    - [core/secondary_supply.py]                      (module [SecondarySupply]),
    - [core/primary_supply.py]                        (module [PrimarySupply]),
    - [core/demand.py]                                (module [Demand]),
    - [core/fuel_cycle_balances.py]                   (module [FuelCycleBalances]),
    - [core/balances.py]                              (module [Balances]);
      [build_secondary_supply] is in [SecondarySupplyPanel] and
      [compute_feed_and_swu_demand] in [FuelCycleDemand].

    Python floats are embedded in exact arithmetic.  The enrichment formulas
    use [np.log], so [FuelCycle] works over the reals [R]; the panel code only
    adds, subtracts, multiplies and divides, so the panel modules work
    over the rationals [Q], where every definition evaluates.

    Exceptions are values: a function that can raise returns a [result].
    Rounding has no counterpart in either model.  In [FuelCycle] the values
    computed through [np.log] are of type [float64], which has the two
    infinities and NaN.  In the panel modules a missing value (pandas NaN /
    NaT / None) is an [option], and where NumPy would produce a number that
    is not finite the place says what the model does instead. *)

From Stdlib Require Import List ZArith QArith Reals Lra Lia Bool String.
From Stdlib Require Import Permutation Qreals DecimalString.
Import ListNotations.

(** ** Exceptions raised by the embedded code *)

Inductive exn : Type :=
| ValueError (msg : string)
| TypeError (msg : string)
| IndexError (msg : string)
| KeyError (msg : string)
| ZeroDivisionError (msg : string).

(** The error monad: [inl e] is a raised exception, [inr v] a returned value. *)
Definition result (A : Type) : Type := (exn + A)%type.

Definition ret {A} (a : A) : result A := inr a.
Definition raise {A} (e : exn) : result A := inl e.
Definition bind {A B} (m : result A) (k : A -> result B) : result B :=
  match m with
  | inl e => inl e
  | inr a => k a
  end.

Declare Scope result_scope.
Delimit Scope result_scope with result.
Notation "x <- m ;; k" := (bind m (fun x => k))
  (at level 61, m at next level, right associativity) : result_scope.

(** ** [config/constants.py] and [core/fuel_cycle.py] *)

Module FuelCycle.
Local Open Scope R_scope.

Definition NATURAL_U235_ASSAY : R := 0.00711.
Definition DEFAULT_TAILS_ASSAY : R := 0.0025.

Record EnrichmentParams : Type := mkEnrichmentParams {
  feed_assay : R;
  product_assay : R;
  tails_assay : R
}.

Definition default_params : EnrichmentParams :=
  mkEnrichmentParams NATURAL_U235_ASSAY 0.045 DEFAULT_TAILS_ASSAY.

(** *** Floats that need not be finite

    The arguments of the functions below are finite floats, which the model
    takes as real numbers.  What [np.log] and NumPy's arithmetic compute from
    them need not be finite: a value of [float64] is a finite number, an
    infinity or NaN.  Finite numbers are the reals (no rounding, no
    overflow), and there is one zero, which stands for +0.0. *)
Inductive float64 : Type :=
| Fin (r : R)
| PInf
| NInf
| NaN.

(** The infinity with the sign of [r], and NaN for [r = 0]: the value of
    [r * inf] and of [r / 0.0]. *)
Definition signed_inf (r : R) : float64 :=
  if Rlt_dec 0 r then PInf else if Rlt_dec r 0 then NInf else NaN.

Definition fopp (a : float64) : float64 :=
  match a with
  | Fin x => Fin (- x)
  | PInf => NInf
  | NInf => PInf
  | NaN => NaN
  end.

(** [a + b]: NaN is absorbing and [inf - inf] is NaN. *)
Definition fadd (a b : float64) : float64 :=
  match a, b with
  | Fin x, Fin y => Fin (x + y)
  | NaN, _ => NaN
  | _, NaN => NaN
  | PInf, NInf => NaN
  | NInf, PInf => NaN
  | PInf, _ => PInf
  | _, PInf => PInf
  | NInf, _ => NInf
  | _, NInf => NInf
  end.

(** [a - b]. *)
Definition fsub (a b : float64) : float64 := fadd a (fopp b).

(** [a * b]: NaN is absorbing and [0 * inf] is NaN. *)
Definition fmul (a b : float64) : float64 :=
  match a, b with
  | Fin x, Fin y => Fin (x * y)
  | NaN, _ => NaN
  | _, NaN => NaN
  | Fin x, PInf => signed_inf x
  | PInf, Fin x => signed_inf x
  | Fin x, NInf => signed_inf (- x)
  | NInf, Fin x => signed_inf (- x)
  | PInf, PInf => PInf
  | NInf, NInf => PInf
  | PInf, NInf => NInf
  | NInf, PInf => NInf
  end.

(** [a < b]: false as soon as one side is NaN. *)
Definition flt (a b : float64) : bool :=
  match a, b with
  | Fin x, Fin y => if Rlt_dec x y then true else false
  | Fin _, PInf => true
  | NInf, Fin _ => true
  | NInf, PInf => true
  | _, _ => false
  end.

(** [np.log]: [-inf] at zero and NaN below it (NumPy warns, it does not
    raise). *)
Definition np_log (a : float64) : float64 :=
  match a with
  | Fin q => if Rlt_dec 0 q then Fin (ln q)
             else if Rlt_dec q 0 then NaN else NInf
  | PInf => PInf
  | NInf => NaN
  | NaN => NaN
  end.

(** [a / b] on Python floats: a zero divisor raises. *)
Definition truediv (a b : R) : result R :=
  if Req_dec_T b 0
  then raise (ZeroDivisionError "float division by zero")
  else ret (a / b).

(** [a / b] when an operand is a NumPy scalar: a zero divisor gives an
    infinity, or NaN for [0 / 0] (NumPy warns, it does not raise). *)
Definition np_truediv (a b : R) : float64 :=
  if Req_dec_T b 0 then signed_inf a else Fin (a / b).

(** [value_function] at a Python float: [(1 - 2 * x) * np.log((1 - x) / x)].
    The division raises at [x = 0]; [np.log] gives [-inf] at [x = 1], which
    makes the value [+inf], and NaN outside the interval from 0 to 1. *)
Definition value_function (x : R) : result float64 :=
  (q <- truediv (1 - x) x ;;
   ret (fmul (Fin (1 - 2 * x)) (np_log (Fin q))))%result.

(** [value_function] at a NumPy scalar, as the grid loop calls it for the
    tails assay: the same expression, where the division does not raise. *)
Definition value_function_np (x : R) : float64 :=
  fmul (Fin (1 - 2 * x)) (np_log (np_truediv (1 - x) x)).

(** [feed_and_swu_for_product] on Python floats: the first division raises
    on a zero divisor, as do the three calls of [value_function], in the
    order of evaluation.  The feed mass is a finite number; the separative
    work is computed from the values of [np.log] and need not be. *)
Definition feed_and_swu_for_product (product_tu : R) (params : EnrichmentParams)
  : result (R * float64) :=
  let xf := feed_assay params in
  let xp := product_assay params in
  let xt := tails_assay params in
  let p := product_tu in
  (feed_over_product <- truediv (xp - xt) (xf - xt) ;;
   let f_mass := feed_over_product * p in
   let w_mass := f_mass - p in
   vp <- value_function xp ;;
   vt <- value_function xt ;;
   vf <- value_function xf ;;
   let swu :=
     fsub (fadd (fmul (Fin p) vp) (fmul (Fin w_mass) vt)) (fmul (Fin f_mass) vf) in
   ret (f_mass, swu))%result.

(** [feed_and_swu_for_product] as the grid loop calls it: the feed and
    product assays are the caller's Python floats, [params.tails_assay] is a
    NumPy scalar.  Every operation that involves the tails assay is NumPy's
    and does not raise; [value_function] of the product and of the feed
    assay still raises at zero. *)
Definition feed_and_swu_for_product_np (product_tu : R) (params : EnrichmentParams)
  : result (float64 * float64) :=
  let xf := feed_assay params in
  let xp := product_assay params in
  let xt := tails_assay params in
  let p := product_tu in
  let feed_over_product := np_truediv (xp - xt) (xf - xt) in
  let f_mass := fmul feed_over_product (Fin p) in
  let w_mass := fsub f_mass (Fin p) in
  (vp <- value_function xp ;;
   let vt := value_function_np xt in
   vf <- value_function xf ;;
   let swu := fsub (fadd (fmul (Fin p) vp) (fmul w_mass vt)) (fmul f_mass vf) in
   ret (f_mass, swu))%result.

(** [range(0, num)] for a Python integer [num]. *)
Definition arange (num : Z) : list Z :=
  map Z.of_nat (seq 0 (Z.to_nat num)).

(** [str(num)] of a Python integer. *)
Definition str (num : Z) : string := NilZero.string_of_int (Z.to_int num).

(** [np.linspace(start, stop, num)] with [endpoint=True], after NumPy's
    implementation: [y = arange(0, num)], scaled by [step = delta / div]
    when [div = num - 1] is positive and by [delta] otherwise, shifted by
    [start], and the last sample overwritten with [stop] when [num > 1].
    A negative [num] is a [ValueError]. *)
Definition linspace (start stop : R) (num : Z) : result (list R) :=
  if (num <? 0)%Z
  then raise (ValueError
                ("Number of samples, " ++ str num ++ ", must be non-negative."))
  else
    let div := (num - 1)%Z in
    let delta := stop - start in
    let sample (i : Z) : R :=
      if ((1 <? num) && (i =? div))%Z then stop
      else if (0 <? div)%Z then IZR i * (delta / IZR div) + start
      else IZR i * delta + start in
    ret (map sample (arange num)).

(** One iteration of the grid loop on the state [(best_tails, best_cost)]:
    the cost of the candidate, and [if cost < best_cost].  The comparison is
    false for a cost that is NaN or [+inf], and true for a cost of [-inf]
    unless the best cost is [-inf] already. *)
Definition grid_step (u_price swu_price product_assay feed_assay : R)
    (st : R * float64) (tails : R) : result (R * float64) :=
  let params := mkEnrichmentParams feed_assay product_assay tails in
  (fs <- feed_and_swu_for_product_np 1 params ;;
   let (feed_tu, swu) := fs in
   let cost := fadd (fmul (Fin u_price) feed_tu) (fmul (Fin swu_price) swu) in
   if flt cost (snd st) then ret (tails, cost) else ret st)%result.

(** [for tails in tails_grid]. *)
Fixpoint grid_loop (u_price swu_price product_assay feed_assay : R)
    (tails_grid : list R) (st : R * float64) : result (R * float64) :=
  match tails_grid with
  | [] => ret st
  | tails :: rest =>
      (st' <- grid_step u_price swu_price product_assay feed_assay st tails ;;
       grid_loop u_price swu_price product_assay feed_assay rest st')%result
  end.

(** [optimize_tails_assay]; a price that is [None] in Python is [None].  The
    best cost starts as [float("inf")]. *)
Definition optimize_tails_assay
    (u_price_usd_per_lb swu_price_usd_per_swu : option R)
    (product_assay feed_assay : R) (bounds : R * R) (grid_points : Z)
  : result R :=
  match u_price_usd_per_lb, swu_price_usd_per_swu with
  | Some u_price, Some swu_price =>
      (tails_grid <- linspace (fst bounds) (snd bounds) grid_points ;;
       match tails_grid with
       | [] => raise (IndexError "index 0 is out of bounds for axis 0 with size 0")
       | t0 :: _ =>
           st <- grid_loop u_price swu_price product_assay feed_assay
                   tails_grid (t0, PInf) ;;
           ret (fst st)
       end)%result
  | _, _ => ret DEFAULT_TAILS_ASSAY
  end.

(** The defaults of the signature: [feed_assay=NATURAL_U235_ASSAY],
    [bounds=(0.001, 0.003)], [grid_points=40]. *)
Definition default_bounds : R * R := (0.001, 0.003).
Definition default_grid_points : Z := 40.

End FuelCycle.

(** ** Helpers shared by the panel modules *)

(** [range(start, stop)] over Python integers. *)
Definition range (start stop : Z) : list Z :=
  map (fun i => (start + Z.of_nat i)%Z) (seq 0 (Z.to_nat (stop - start))).

(** A pandas [Series] indexed by year: its (index, value) pairs in row order.
    The index may hold a year more than once. *)
Definition Series : Type := list (Z * Q).

(** [df.set_index("year")[col]]. *)
Definition set_index_year {A : Type} (year : A -> Z) (col : A -> Q)
    (df : list A) : Series :=
  map (fun r => (year r, col r)) df.

(** [float(series.get(year, default))]: the default when the label is absent,
    the value when it labels one row; a label that occurs several times
    selects a sub-series, which [float] refuses with a [TypeError]. *)
Definition float_get (s : Series) (year : Z) (default : Q) : result Q :=
  match filter (fun kv => (fst kv =? year)%Z) s with
  | [] => ret default
  | [kv] => ret (snd kv)
  | _ :: _ :: _ => raise (TypeError "cannot convert the series to <class 'float'>")
  end.

(** [series.max()] of an integer column: [None] is the NaN of an empty
    column. *)
Definition column_max (l : list Z) : option Z :=
  match l with
  | [] => None
  | y :: t => Some (fold_left Z.max t y)
  end.

(** [df.iloc[-1]]. *)
Fixpoint iloc_last {A : Type} (df : list A) : option A :=
  match df with
  | [] => None
  | [r] => Some r
  | _ :: t => iloc_last t
  end.

(** [int(x)] of a float that may be NaN. *)
Definition int_of_float (x : option Z) : result Z :=
  match x with
  | Some y => ret y
  | None => raise (ValueError "cannot convert float NaN to integer")
  end.

(** ** [core/secondary_supply.py] *)

Module SecondarySupply.
Local Open Scope Q_scope.

(** Rows of the frames read and written by [evolve_inventories], with the
    columns the function touches. *)
Record InventoryRow : Type := mkInventoryRow {
  year : Z;
  inventory_tu : Q
}.

Record PrimarySupplyYear : Type := mkPrimarySupplyYear {
  ps_year : Z;
  primary_supply_tu : Q
}.

Record SecondarySupplyYear : Type := mkSecondarySupplyYear {
  ss_year : Z;
  secondary_supply_tu : Q
}.

Record FeedDemandYear : Type := mkFeedDemandYear {
  fd_year : Z;
  feed_tu : Q
}.

Record InventoryScenario : Type := mkInventoryScenario {
  sc_year : Z;
  inventory_change_tu : Q
}.

(** [df.sort_values("year")], as an insertion sort that keeps rows of equal
    year in their input order.  (pandas' default sort promises no order among
    equal years; the properties below use only that the last row has the
    greatest year.) *)
Fixpoint insert_by_year (r : InventoryRow) (sorted : list InventoryRow)
  : list InventoryRow :=
  match sorted with
  | [] => [r]
  | h :: t =>
      if (year r <=? year h)%Z then r :: sorted
      else h :: insert_by_year r t
  end.

Definition sort_values_year (df : list InventoryRow) : list InventoryRow :=
  fold_right insert_by_year [] df.

Definition seed_missing : exn :=
  ValueError
    "initial_inventories must contain at least one row with 'year' and 'inventory_tu'".

(** The body of [for year in range(start_year, end_year + 1)], threading
    [stock] and collecting the appended rows. *)
Fixpoint evolve_loop (primary_series secondary_series demand_series scenario : Series)
    (stock : Q) (years : list Z) : result (list InventoryRow) :=
  match years with
  | [] => ret []
  | y :: rest =>
      (primary <- float_get primary_series y 0 ;;
       secondary <- float_get secondary_series y 0 ;;
       demand <- float_get demand_series y 0 ;;
       policy_flow <- float_get scenario y 0 ;;
       let stock := stock + primary + secondary - demand + policy_flow in
       series <- evolve_loop primary_series secondary_series demand_series
                   scenario stock rest ;;
       ret (mkInventoryRow y stock :: series))%result
  end.

(** [evolve_inventories].  [inventory_scenarios = None] is Python's [None];
    a scenario frame without rows, like a missing one, yields no policy
    flow. *)
Definition evolve_inventories
    (initial_inventories : list InventoryRow)
    (primary_supply_year : list PrimarySupplyYear)
    (secondary_supply_year : list SecondarySupplyYear)
    (feed_demand_year : list FeedDemandYear)
    (inventory_scenarios : option (list InventoryScenario))
  : result (list InventoryRow) :=
  match initial_inventories with
  | [] => raise seed_missing
  | _ :: _ =>
      (seed <- match iloc_last (sort_values_year initial_inventories) with
               | Some r => ret r
               | None => raise (IndexError "single positional indexer is out-of-bounds")
               end ;;
       let stock := inventory_tu seed in
       last_known <- int_of_float (column_max (map year initial_inventories)) ;;
       let start_year := (last_known + 1)%Z in
       end_year <- int_of_float (column_max (map fd_year feed_demand_year)) ;;
       let scenario :=
         match inventory_scenarios with
         | Some df => set_index_year sc_year inventory_change_tu df
         | None => []
         end in
       let primary_series :=
         set_index_year ps_year primary_supply_tu primary_supply_year in
       let secondary_series :=
         set_index_year ss_year secondary_supply_tu secondary_supply_year in
       let demand_series := set_index_year fd_year feed_tu feed_demand_year in
       evolve_loop primary_series secondary_series demand_series scenario
         stock (range start_year (end_year + 1)))%result
  end.

End SecondarySupply.

(** ** [core/primary_supply.py] *)

Module PrimarySupply.
Local Open Scope Q_scope.

(** The mine master table; [country = None] is a missing value or a frame
    without that column. *)
Record Mine : Type := mkMine {
  mine_id : Z;
  country : option string
}.

(** A row of [mine_production] and of [mine_scenarios]:
    the columns [mine_id], [year], [production_tu]. *)
Record MineProduction : Type := mkMineProduction {
  mp_mine_id : Z;
  mp_year : Z;
  mp_production_tu : Q
}.

(** A row of the mine-level output. *)
Record MineYear : Type := mkMineYear {
  my_mine_id : Z;
  my_year : Z;
  production_tu : Q;
  my_country : option string
}.

(** A row of the aggregated output. *)
Record PrimarySupplyRow : Type := mkPrimarySupplyRow {
  year : Z;
  primary_supply_tu : Q
}.

(** [series.unique()]: the distinct values in order of first appearance. *)
Fixpoint unique (l : list Z) : list Z :=
  match l with
  | [] => []
  | x :: t => x :: filter (fun y => negb (y =? x)%Z) (unique t)
  end.

(** [df[(df["year"] >= start_year) & (df["year"] <= end_year)]]. *)
Definition in_range (start_year end_year : Z) (r : MineProduction) : bool :=
  ((start_year <=? mp_year r) && (mp_year r <=? end_year))%Z.

(** [.sum()] of a float column, from the left. *)
Definition sum (l : list Q) : Q := fold_left Qplus l 0.

(** The rows of [base] under the key [(mine, y)]. *)
Definition at_key (mine y : Z) (r : MineProduction) : bool :=
  ((mp_mine_id r =? mine) && (mp_year r =? y))%Z.

(** [.groupby(level=[0, 1]).sum().reindex(template, fill_value=0)] read at
    one key of the template: the sum of the rows under the key, and the fill
    value when there is none. *)
Definition reindexed_sum (base : list MineProduction) (mine y : Z) : Q :=
  match filter (at_key mine y) base with
  | [] => 0
  | rows => sum (map mp_production_tu rows)
  end.

(** [mines[merge_cols].drop_duplicates("mine_id")] joined on [mine_id]:
    the country of the first master row of the mine. *)
Definition mine_meta (mines : list Mine) (mine : Z) : option string :=
  match find (fun m => (mine_id m =? mine)%Z) mines with
  | Some m => country m
  | None => None
  end.

(** [mine_year.groupby("year")["production_tu"].sum()]: one row per year
    present, in ascending order. *)
Fixpoint insert_year (y : Z) (sorted : list Z) : list Z :=
  match sorted with
  | [] => [y]
  | h :: t => if (y <=? h)%Z then y :: sorted else h :: insert_year y t
  end.

Definition group_keys (years : list Z) : list Z :=
  fold_right insert_year [] (unique years).

Definition groupby_year_sum (mine_year : list MineYear) : list PrimarySupplyRow :=
  map (fun y =>
         mkPrimarySupplyRow y
           (sum (map production_tu
                   (filter (fun r => (my_year r =? y)%Z) mine_year))))
      (group_keys (map my_year mine_year)).

Definition is_empty {A : Type} (df : list A) : bool :=
  match df with [] => true | _ :: _ => false end.

(** The frame [base] of [build_primary_supply] once the scenario rows are
    concatenated: historical rows of the range, then scenario rows of the
    range. *)
Definition base_rows
    (mine_production : list MineProduction)
    (mine_scenarios : option (list MineProduction))
    (start_year end_year : Z) : list MineProduction :=
  let base :=
    if negb (is_empty mine_production)
    then filter (in_range start_year end_year) mine_production
    else [] in
  let scenario := match mine_scenarios with Some df => df | None => [] end in
  let scenario :=
    if negb (is_empty scenario)
    then filter (in_range start_year end_year) scenario
    else scenario in
  if negb (is_empty scenario) then base ++ scenario else base.

(** [build_primary_supply]: the pair [(mine_year, primary_supply)]. *)
Definition build_primary_supply
    (mines : list Mine)
    (mine_production : list MineProduction)
    (mine_scenarios : option (list MineProduction))
    (start_year end_year : Z)
  : list MineYear * list PrimarySupplyRow :=
  let base := base_rows mine_production mine_scenarios start_year end_year in
  let mine_ids :=
    if negb (is_empty mines) then unique (map mine_id mines)
    else unique (map mp_mine_id base) in
  let all_years := range start_year (end_year + 1) in
  let template := list_prod mine_ids all_years in
  let mine_year :=
    map (fun key =>
           mkMineYear (fst key) (snd key)
             (reindexed_sum base (fst key) (snd key))
             (if negb (is_empty mines) then mine_meta mines (fst key) else None))
        template in
  let primary_supply := groupby_year_sum mine_year in
  (mine_year, primary_supply).

End PrimarySupply.

(** ** [core/demand.py] *)

Module Demand.
Local Open Scope Q_scope.

(** A row of the reactor frame.  Of the two dates only [.dt.year] is read, so
    a date is its year and [None] is NaT.  [shutdown_year_override] is the
    cell of that column, read only when the frame has the column. *)
Record Reactor : Type := mkReactor {
  reactor_id : Z;
  country : option string;
  reactor_type : option string;
  net_mwe : option Q;
  commercial_operation_date : option Z;
  permanent_shutdown_date : option Z;
  shutdown_year_override : option Z
}.

(** The reactor frame: its rows, and whether it has the column
    [shutdown_year_override] (the master table of [build_reactor_master] has
    no such column unless the export carried one). *)
Record ReactorFrame : Type := mkReactorFrame {
  frame_rows : list Reactor;
  has_shutdown_year_override : bool
}.

(** A row of [reactor_life_scenarios]. *)
Record LifeScenario : Type := mkLifeScenario {
  ls_scenario : string;
  ls_reactor_id : Z;
  ls_shutdown_year : option Z
}.

(** A row of [newbuild_projects], with the required columns the loop
    reads. *)
Record NewbuildProject : Type := mkNewbuildProject {
  nb_scenario : string;
  nb_reactor_id : Z;
  nb_country : option string;
  nb_reactor_type : option string;
  nb_net_mwe : option Q;
  nb_start_year : Z
}.

(** A row of [reactor_generation]. *)
Record Generation : Type := mkGeneration {
  g_reactor_id : Z;
  g_year : Z;
  net_generation_gwh : option Q
}.

(** A row of [reactor_fuel_params]; [None] is a NaN cell. *)
Record FuelParams : Type := mkFuelParams {
  fp_reactor_type : string;
  default_capacity_factor : option Q;
  first_core_tu_per_gwe : option Q;
  reload_tu_per_gwe_year : option Q;
  fp_product_assay : option Q;
  fp_tails_assay : option Q
}.

(** A row of the output. *)
Record ReactorDemand : Type := mkReactorDemand {
  rd_reactor_id : Z;
  year : Z;
  rd_country : option string;
  gw_years : option Q;
  first_core_tu : Q;
  reload_tu : Q;
  total_tu : Q;
  product_assay : Q;
  tails_assay : Q
}.

Definition type_matches (reactor_type : option string) (p : FuelParams) : bool :=
  match reactor_type with
  | Some t => String.eqb (fp_reactor_type p) t
  | None => false
  end.

(** [_lookup_params]; [column] is the projection of the named column. *)
Definition _lookup_params (fuel_params : list FuelParams)
    (reactor_type : option string) (column : FuelParams -> option Q)
    (default : Q) : Q :=
  match filter (type_matches reactor_type) fuel_params with
  | [] => default
  | row :: _ =>
      match column row with
      | Some value => value
      | None => default
      end
  end.

Definition scenario_is (scenario_name : string) (r : LifeScenario) : bool :=
  String.eqb (ls_scenario r) scenario_name.

(** [NoDup] on the index, as a test: [to_dict(orient="index")] needs a
    unique index. *)
Fixpoint is_unique (l : list Z) : bool :=
  match l with
  | [] => true
  | x :: t => negb (existsb (Z.eqb x) t) && is_unique t
  end.

(** [reactors["reactor_id"].map(shutdown_override)] at one reactor. *)
Definition map_override (scenario_life : list LifeScenario) (rid : Z) : option Z :=
  match find (fun r => (ls_reactor_id r =? rid)%Z) scenario_life with
  | Some r => ls_shutdown_year r
  | None => None
  end.

Definition set_override (scenario_life : list LifeScenario) (r : Reactor) : Reactor :=
  mkReactor (reactor_id r) (country r) (reactor_type r) (net_mwe r)
    (commercial_operation_date r) (permanent_shutdown_date r)
    (map_override scenario_life (reactor_id r)).

(** [_apply_life_overrides]. *)
Definition _apply_life_overrides (reactor_master : ReactorFrame)
    (reactor_life_scenarios : option (list LifeScenario))
    (scenario_name : string) : result ReactorFrame :=
  match reactor_life_scenarios with
  | None => ret reactor_master
  | Some [] => ret reactor_master
  | Some df =>
      match filter (scenario_is scenario_name) df with
      | [] => ret reactor_master
      | scenario_life =>
          if is_unique (map ls_reactor_id scenario_life)
          then ret (mkReactorFrame
                      (map (set_override scenario_life) (frame_rows reactor_master))
                      true)
          else raise (ValueError "DataFrame index must be unique for orient='index'.")
      end
  end.

(** A project as a reactor row: commercial operation on 1 January of
    [start_year], no shutdown date, no override cell. *)
Definition project_row (p : NewbuildProject) : Reactor :=
  mkReactor (nb_reactor_id p) (nb_country p) (nb_reactor_type p) (nb_net_mwe p)
    (Some (nb_start_year p)) None None.

(** [_append_newbuilds]. *)
Definition _append_newbuilds (base : ReactorFrame)
    (newbuild_projects : option (list NewbuildProject))
    (scenario_name : string) : ReactorFrame :=
  match newbuild_projects with
  | None => base
  | Some df =>
      match filter (fun p => String.eqb (nb_scenario p) scenario_name) df with
      | [] => base
      | projects =>
          mkReactorFrame (frame_rows base ++ map project_row projects)
            (has_shutdown_year_override base)
      end
  end.

(** [override.fillna(permanent_shutdown_date.dt.year).fillna(end_year)]. *)
Definition shutdown_year (end_year : Z) (r : Reactor) : Z :=
  match shutdown_year_override r with
  | Some y => y
  | None =>
      match permanent_shutdown_date r with
      | Some y => y
      | None => end_year
      end
  end.

Definition NaN : option Q := None.

(** The capacity factor of one reactor-year; [None] is NaN. *)
Definition capacity_factor (reactor_generation : list Generation)
    (rid : Z) (net_mwe : option Q) (cf_default : Q) (y : Z)
  : result (option Q) :=
  match filter (fun g => ((g_reactor_id g =? rid) && (g_year g =? y))%Z)
               reactor_generation with
  | [] => ret (Some cf_default)
  | [gen_row] =>
      let gen_gwh := net_generation_gwh gen_row in
      match net_mwe with
      | None => ret (Some cf_default)
      | Some mwe =>
          if Qeq_bool mwe 0 then ret (Some cf_default)
          else
            let denom := mwe * 8760 / 1000 in
            if Qeq_bool denom 0 then ret (Some 0)
            else ret (option_map (fun g => g / denom) gen_gwh)
      end
  | _ :: _ :: _ => raise (TypeError "cannot convert the series to <class 'float'>")
  end.

(** The row appended for reactor [r] in [year_]. *)
Definition demand_row (reactor_generation : list Generation)
    (reactor_fuel_params : list FuelParams) (r : Reactor) (start y : Z)
  : result ReactorDemand :=
  let rid := reactor_id r in
  let net_gwe := option_map (fun mwe => mwe / 1000) (net_mwe r) in
  let cf_default :=
    _lookup_params reactor_fuel_params (reactor_type r) default_capacity_factor 0.85 in
  (cf <- capacity_factor reactor_generation rid (net_mwe r) cf_default y ;;
   let gw_years :=
     match net_gwe, cf with
     | Some g, Some c => Some (g * c)
     | _, _ => NaN
     end in
   let first_core_factor :=
     _lookup_params reactor_fuel_params (reactor_type r) first_core_tu_per_gwe 0 in
   let reload_factor :=
     _lookup_params reactor_fuel_params (reactor_type r) reload_tu_per_gwe_year 0 in
   let product_assay :=
     _lookup_params reactor_fuel_params (reactor_type r) fp_product_assay 0.045 in
   let tails_assay :=
     _lookup_params reactor_fuel_params (reactor_type r) fp_tails_assay 0.0025 in
   let is_first_core := (y =? start)%Z in
   let first_core_tu :=
     if is_first_core
     then match net_gwe with
          | Some g => first_core_factor * g
          | None => 0
          end
     else 0 in
   let reload_tu :=
     match gw_years with
     | Some gy => reload_factor * gy
     | None => 0
     end in
   let total_tu := first_core_tu + reload_tu in
   ret (mkReactorDemand rid y (country r) gw_years first_core_tu reload_tu
          total_tu product_assay tails_assay))%result.

(** [for year in range(max(start, start_year), end_year + 1)] with its
    [break] at the first year after shutdown. *)
Fixpoint year_loop (reactor_generation : list Generation)
    (reactor_fuel_params : list FuelParams) (r : Reactor) (start shutdown : Z)
    (years : list Z) : result (list ReactorDemand) :=
  match years with
  | [] => ret []
  | y :: rest =>
      if (y >? shutdown)%Z then ret []
      else
        (row <- demand_row reactor_generation reactor_fuel_params r start y ;;
         rows <- year_loop reactor_generation reactor_fuel_params r start
                   shutdown rest ;;
         ret (row :: rows))%result
  end.

(** The rows of one reactor: one pass of [for _, r in reactors.iterrows()]. *)
Definition reactor_rows (reactor_generation : list Generation)
    (reactor_fuel_params : list FuelParams) (start_year end_year : Z)
    (r : Reactor) : result (list ReactorDemand) :=
  (start <- int_of_float (commercial_operation_date r) ;;
   let shutdown := shutdown_year end_year r in
   year_loop reactor_generation reactor_fuel_params r start shutdown
     (range (Z.max start start_year) (end_year + 1)))%result.

Fixpoint iterrows (reactor_generation : list Generation)
    (reactor_fuel_params : list FuelParams) (start_year end_year : Z)
    (reactors : list Reactor) : result (list ReactorDemand) :=
  match reactors with
  | [] => ret []
  | r :: rest =>
      (rows <- reactor_rows reactor_generation reactor_fuel_params
                 start_year end_year r ;;
       more <- iterrows reactor_generation reactor_fuel_params
                 start_year end_year rest ;;
       ret (rows ++ more))%result
  end.

(** The frame [reactors] after the two scenario steps. *)
Definition fleet (reactor_master : ReactorFrame)
    (reactor_life_scenarios : option (list LifeScenario))
    (newbuild_projects : option (list NewbuildProject))
    (scenario_name : string) : result ReactorFrame :=
  (reactors <- _apply_life_overrides reactor_master reactor_life_scenarios
                 scenario_name ;;
   ret (_append_newbuilds reactors newbuild_projects scenario_name))%result.

(** [compute_reactor_demand].  Reading [reactors["shutdown_year_override"]]
    is a [KeyError] when no step gave the frame that column. *)
Definition compute_reactor_demand
    (reactor_master : ReactorFrame)
    (reactor_generation : list Generation)
    (reactor_fuel_params : list FuelParams)
    (reactor_life_scenarios : option (list LifeScenario))
    (newbuild_projects : option (list NewbuildProject))
    (start_year end_year : Z)
    (scenario_name : string)
  : result (list ReactorDemand) :=
  (reactors <- fleet reactor_master reactor_life_scenarios newbuild_projects
                 scenario_name ;;
   if has_shutdown_year_override reactors
   then iterrows reactor_generation reactor_fuel_params start_year end_year
          (frame_rows reactors)
   else raise (KeyError "shutdown_year_override"))%result.

End Demand.

(** * Vocabulary of the statements *)

(** What a year-indexed source contributes in year [t]: the value of its row
    for [t], and zero when it has no such row. *)
Definition flow_at (s : Series) (t : Z) : Q :=
  match find (fun kv => (fst kv =? t)%Z) s with
  | Some kv => snd kv
  | None => 0%Q
  end.

Module InventoryVocabulary.
Import SecondarySupply.

(** The stock recorded for year [t] in a list of inventory rows. *)
Definition stock_at (rows : list InventoryRow) (t : Z) : option Q :=
  option_map inventory_tu (find (fun r => (year r =? t)%Z) rows).

Definition scenario_series (inventory_scenarios : option (list InventoryScenario))
  : Series :=
  match inventory_scenarios with
  | Some df => set_index_year sc_year inventory_change_tu df
  | None => []
  end.

(** [m] is a most recent row of [df]: a row of [df] whose year no row of
    [df] exceeds. *)
Definition latest (m : InventoryRow) (df : list InventoryRow) : Prop :=
  In m df /\ forall r, In r df -> (year r <= year m)%Z.

(** The stock after the flows of year [t]. *)
Definition advance (primary_series secondary_series demand_series scenario : Series)
    (stock : Q) (t : Z) : Q :=
  (stock + flow_at primary_series t + flow_at secondary_series t
   - flow_at demand_series t + flow_at scenario t)%Q.

(** The rows of the loop as a left-to-right scan. *)
Fixpoint scan (primary_series secondary_series demand_series scenario : Series)
    (stock : Q) (years : list Z) : list InventoryRow :=
  match years with
  | [] => []
  | t :: rest =>
      let stock := advance primary_series secondary_series demand_series
                     scenario stock t in
      mkInventoryRow t stock
      :: scan primary_series secondary_series demand_series scenario stock rest
  end.

(** The flows of the four sources in year [t]. *)
Definition primarySupply (df : list PrimarySupplyYear) (t : Z) : Q :=
  flow_at (set_index_year ps_year primary_supply_tu df) t.
Definition secondarySupply (df : list SecondarySupplyYear) (t : Z) : Q :=
  flow_at (set_index_year ss_year secondary_supply_tu df) t.
Definition feedDemand (df : list FeedDemandYear) (t : Z) : Q :=
  flow_at (set_index_year fd_year feed_tu df) t.
Definition policyFlow (inventory_scenarios : option (list InventoryScenario))
    (t : Z) : Q :=
  flow_at (scenario_series inventory_scenarios) t.

(** Every year labels at most one row of each source. *)
Definition keyed_by_year
    (primary_supply_year : list PrimarySupplyYear)
    (secondary_supply_year : list SecondarySupplyYear)
    (feed_demand_year : list FeedDemandYear)
    (inventory_scenarios : option (list InventoryScenario)) : Prop :=
  NoDup (map ps_year primary_supply_year) /\
  NoDup (map ss_year secondary_supply_year) /\
  NoDup (map fd_year feed_demand_year) /\
  NoDup (map fst (scenario_series inventory_scenarios)).

(** [y] is the greatest year of the feed-demand panel. *)
Definition max_feed_year (feed_demand_year : list FeedDemandYear) (y : Z) : Prop :=
  In y (map fd_year feed_demand_year) /\
  forall x, In x (map fd_year feed_demand_year) -> (x <= y)%Z.

(** The example of the specification: stock 100 at 2020, then two years of
    flows. *)
Definition example_initial : list InventoryRow := [mkInventoryRow 2020 100].
Definition example_primary : list PrimarySupplyYear :=
  [mkPrimarySupplyYear 2021 10; mkPrimarySupplyYear 2022 8].
Definition example_secondary : list SecondarySupplyYear :=
  [mkSecondarySupplyYear 2021 5; mkSecondarySupplyYear 2022 4].
Definition example_feed : list FeedDemandYear :=
  [mkFeedDemandYear 2021 12; mkFeedDemandYear 2022 15].
Definition example_policy : option (list InventoryScenario) :=
  Some [mkInventoryScenario 2021 0; mkInventoryScenario 2022 0].

End InventoryVocabulary.

Module MineGridVocabulary.
Import PrimarySupply.

(** The rows of the optional scenario table. *)
Definition scenario_rows (mine_scenarios : option (list MineProduction))
  : list MineProduction :=
  match mine_scenarios with Some df => df | None => [] end.

(** The table has a row for the pair (mine, y). *)
Definition has_row (table : list MineProduction) (mine y : Z) : Prop :=
  exists h, In h table /\ mp_mine_id h = mine /\ mp_year h = y.

(** The (mine_id, year) key of each row of the mine-level output. *)
Definition keys (mine_year : list MineYear) : list (Z * Z) :=
  map (fun r => (my_mine_id r, my_year r)) mine_year.

Definition example_mines : list Mine :=
  [mkMine 7 None; mkMine 3 (Some "CA"%string); mkMine 7 (Some "KZ"%string)].
Definition example_production : list MineProduction :=
  [mkMineProduction 7 2020 10; mkMineProduction 7 2021 11;
   mkMineProduction 9 2021 11; mkMineProduction 3 2019 5].
Definition example_scenarios : option (list MineProduction) :=
  Some [mkMineProduction 7 2021 1.5].

End MineGridVocabulary.

Module DemandVocabulary.
Import Demand.
Local Open Scope Q_scope.

(** The first-core charge of a reactor: its first-core factor times its net
    capacity in GWe, and zero when the capacity is missing. *)
Definition first_core_charge (reactor_fuel_params : list FuelParams)
    (r : Reactor) : Q :=
  match net_mwe r with
  | Some mwe =>
      _lookup_params reactor_fuel_params (reactor_type r) first_core_tu_per_gwe 0
      * (mwe / 1000)
  | None => 0
  end.

(** The output row belongs to reactor [r]. *)
Definition row_of (r : Reactor) (row : ReactorDemand) : bool :=
  (rd_reactor_id row =? reactor_id r)%Z.

(** The output row carries a first-core charge. *)
Definition charged (row : ReactorDemand) : bool :=
  negb (Qeq_bool (first_core_tu row) 0).

Definition example_master : ReactorFrame :=
  mkReactorFrame
    [mkReactor 1 None (Some "PWR"%string) (Some 1000) (Some 2021%Z) None None;
     mkReactor 2 None (Some "BWR"%string) (Some 900) (Some 2010%Z) (Some 2022%Z) None]
    false.
Definition example_fuel_params : list FuelParams :=
  [mkFuelParams "PWR" (Some 0.9) (Some 80) (Some 20) None None].
Definition example_life : option (list LifeScenario) :=
  Some [mkLifeScenario "base" 2 (Some 2021%Z)].
Definition example_newbuilds : option (list NewbuildProject) :=
  Some [mkNewbuildProject "base" 3 None (Some "PWR"%string) (Some 1200) 2022].
Definition example_reactor : Reactor :=
  mkReactor 1 None (Some "PWR"%string) (Some 1000) (Some 2021%Z) None None.

End DemandVocabulary.

Module GridVocabulary.
Import FuelCycle.
Local Open Scope R_scope.

(** [u_price * feed_tu + swu_price * swu] for one unit of product at the
    candidate [tails] of the grid; it need not be a finite number. *)
Definition unit_cost (u_price swu_price product_assay feed_assay tails : R)
  : float64 :=
  match feed_and_swu_for_product_np 1
          (mkEnrichmentParams feed_assay product_assay tails) with
  | inr (feed_tu, swu) => fadd (fmul (Fin u_price) feed_tu) (fmul (Fin swu_price) swu)
  | inl _ => NaN
  end.

(** The cost can win the comparison against the initial best cost
    [float("inf")]: it is a finite number or [-inf], not NaN or [+inf]. *)
Definition takeable (cost : float64) : bool := flt cost PInf.

(** [best] is the first cheapest candidate of [grid] among those whose cost
    is takeable. *)
Definition first_cheapest (u_price swu_price product_assay feed_assay : R)
    (grid : list R) (best : R) : Prop :=
  let cost := unit_cost u_price swu_price product_assay feed_assay in
  exists before after,
    grid = before ++ best :: after /\
    takeable (cost best) = true /\
    (forall t, In t before -> takeable (cost t) = true ->
               flt (cost best) (cost t) = true) /\
    (forall t, In t after -> flt (cost t) (cost best) = false).

(** Strictly between 0 and 1. *)
Definition in_unit_interval (x : R) : Prop := 0 < x < 1.

End GridVocabulary.

Module InventoryMoreVocabulary.
Import SecondarySupply InventoryVocabulary.
Local Open Scope Q_scope.

(** The net flow into the stock in year [t]. *)
Definition net_flow
    (primary_supply_year : list PrimarySupplyYear)
    (secondary_supply_year : list SecondarySupplyYear)
    (feed_demand_year : list FeedDemandYear)
    (inventory_scenarios : option (list InventoryScenario)) (t : Z) : Q :=
  primarySupply primary_supply_year t + secondarySupply secondary_supply_year t
  - feedDemand feed_demand_year t + policyFlow inventory_scenarios t.

Definition Qsum (l : list Q) : Q := fold_right Qplus 0 l.

(** The number of rows of a series labelled [y]. *)
Definition rows_at (s : Series) (y : Z) : nat :=
  List.length (filter (fun kv => (fst kv =? y)%Z) s).

Definition all_single (primary_series secondary_series demand_series scenario : Series)
    (y : Z) : Prop :=
  (rows_at primary_series y <= 1)%nat /\ (rows_at secondary_series y <= 1)%nat /\
  (rows_at demand_series y <= 1)%nat /\ (rows_at scenario y <= 1)%nat.

(** Year [y] labels at most one row in each of the four sources. *)
Definition readable
    (primary_supply_year : list PrimarySupplyYear)
    (secondary_supply_year : list SecondarySupplyYear)
    (feed_demand_year : list FeedDemandYear)
    (inventory_scenarios : option (list InventoryScenario)) (y : Z) : Prop :=
  (rows_at (set_index_year ps_year primary_supply_tu primary_supply_year) y <= 1)%nat /\
  (rows_at (set_index_year ss_year secondary_supply_tu secondary_supply_year) y <= 1)%nat /\
  (rows_at (set_index_year fd_year feed_tu feed_demand_year) y <= 1)%nat /\
  (rows_at (scenario_series inventory_scenarios) y <= 1)%nat.

End InventoryMoreVocabulary.

Module PanelVocabulary.

(** A list of years in strictly ascending order. *)
Fixpoint ascending (l : list Z) : Prop :=
  match l with
  | [] => True
  | x :: t => (forall y, In y t -> (x < y)%Z) /\ ascending t
  end.

End PanelVocabulary.

(** ** [core/secondary_supply.py]: [build_secondary_supply] *)

Module SecondarySupplyPanel.
Local Open Scope Q_scope.

(** A row of [secondary_supply_base] and of [secondary_scenarios]; [None] is
    a NaN cell (as in the rows of a frame that lacks the column, once
    concatenated with one that has it). *)
Record SecondarySource : Type := mkSecondarySource {
  src_year : Z;
  src_secondary_supply_tu : option Q;
  src_heu_tu : option Q;
  src_underfeeding_tu : option Q
}.

(** A row of the output. *)
Record SecondarySupplyRow : Type := mkSecondarySupplyRow {
  year : Z;
  secondary_supply_tu : Q;
  heu_tu : Q;
  underfeeding_tu : Q
}.

Definition in_range (start_year end_year : Z) (r : SecondarySource) : bool :=
  ((start_year <=? src_year r) && (src_year r <=? end_year))%Z.

(** The cells that are numbers. *)
Definition dropna (cells : list (option Q)) : list Q :=
  flat_map (fun c => match c with Some v => [v] | None => [] end) cells.

(** [("col", "sum")] of a group: NaN cells are skipped, and a group with no
    number sums to 0. *)
Definition nansum (cells : list (option Q)) : Q := PrimarySupply.sum (dropna cells).

(** [build_secondary_supply]. *)
Definition build_secondary_supply
    (secondary_supply_base : list SecondarySource)
    (secondary_scenarios : option (list SecondarySource))
    (start_year end_year : Z) : list SecondarySupplyRow :=
  let base := secondary_supply_base in
  let base :=
    if negb (PrimarySupply.is_empty base)
    then filter (in_range start_year end_year) base
    else base in
  let scenario := match secondary_scenarios with Some df => df | None => [] end in
  let base :=
    if negb (PrimarySupply.is_empty scenario)
    then base ++ filter (in_range start_year end_year) scenario
    else base in
  if PrimarySupply.is_empty base then []
  else
    map (fun y =>
           let group := filter (fun r => (src_year r =? y)%Z) base in
           mkSecondarySupplyRow y
             (nansum (map src_secondary_supply_tu group))
             (nansum (map src_heu_tu group))
             (nansum (map src_underfeeding_tu group)))
        (PrimarySupply.group_keys (map src_year base)).

End SecondarySupplyPanel.

Module SecondaryPanelVocabulary.
Import SecondarySupplyPanel.

Definition scenario_rows (secondary_scenarios : option (list SecondarySource))
  : list SecondarySource :=
  match secondary_scenarios with Some df => df | None => [] end.

(** The rows of a source frame for year [y]. *)
Definition of_year (y : Z) (df : list SecondarySource) : list SecondarySource :=
  filter (fun r => (src_year r =? y)%Z) df.

(** The panels as [evolve_inventories] reads them: the year and the one
    column it looks up. *)
Definition as_primary_supply_year (df : list PrimarySupply.PrimarySupplyRow)
  : list SecondarySupply.PrimarySupplyYear :=
  map (fun r => SecondarySupply.mkPrimarySupplyYear
                  (PrimarySupply.year r) (PrimarySupply.primary_supply_tu r)) df.

Definition as_secondary_supply_year (df : list SecondarySupplyRow)
  : list SecondarySupply.SecondarySupplyYear :=
  map (fun r => SecondarySupply.mkSecondarySupplyYear
                  (year r) (secondary_supply_tu r)) df.

Definition example_base : list SecondarySource :=
  [mkSecondarySource 2021 (Some 5) (Some 2) None;
   mkSecondarySource 2019 (Some 9) None None;
   mkSecondarySource 2020 (Some 4) None (Some 1)].
Definition example_scenarios : option (list SecondarySource) :=
  Some [mkSecondarySource 2021 (Some 1.5) None None;
        mkSecondarySource 2025 (Some 7) None None].

End SecondaryPanelVocabulary.

Module DemandMoreVocabulary.
Import Demand.

Definition life_rows (reactor_life_scenarios : option (list LifeScenario))
  : list LifeScenario :=
  match reactor_life_scenarios with Some df => df | None => [] end.

(** The generation rows of reactor [rid] in year [y]. *)
Definition generation_of (reactor_generation : list Generation) (rid y : Z)
  : list Generation :=
  filter (fun g => ((g_reactor_id g =? rid) && (g_year g =? y))%Z) reactor_generation.

End DemandMoreVocabulary.

Module GenerationExample.
Import Demand.
Local Open Scope Q_scope.

(** Reactor 1 (1000 MWe) reports 9000 GWh for 2022, more than a full year
    at its net capacity. *)
Definition example_generation : list Generation :=
  [mkGeneration 1 2022 (Some 9000); mkGeneration 2 2020 None].

End GenerationExample.

(** ** [core/fuel_cycle_balances.py] *)

Module FuelCycleBalances.
Local Open Scope Q_scope.

(** A row of a capacity frame (baseline or scenario): the year and the
    capacity column, [conv_capacity_tu] for conversion and
    [swu_capacity_swu] for enrichment. *)
Record CapacityRow : Type := mkCapacityRow {
  cap_year : Z;
  capacity : Q
}.

(** A row of [feed_demand] and of [swu_demand], with the columns read. *)
Record FeedDemand : Type := mkFeedDemand {
  fd_year : Z;
  feed_tu : Q
}.

Record SwuDemand : Type := mkSwuDemand {
  sd_year : Z;
  sd_swu_demand_swu : Q
}.

(** Rows of the two outputs; a ratio of [None] is the infinity or NaN of a
    division by a zero demand. *)
Record ConversionBalance : Type := mkConversionBalance {
  cb_year : Z;
  uf6_demand_tu : Q;
  conv_capacity_tu : Q;
  conv_balance_ratio : option Q;
  conv_spare_tu : Q
}.

Record EnrichmentBalance : Type := mkEnrichmentBalance {
  eb_year : Z;
  swu_demand_swu : Q;
  swu_capacity_swu : Q;
  swu_balance_ratio : option Q;
  swu_spare_swu : Q
}.

Definition between (start_year end_year y : Z) : bool :=
  ((start_year <=? y) && (y <=? end_year))%Z.

(** Division of two float columns: NumPy does not raise on a zero divisor,
    the quotient is an infinity or NaN. *)
Definition column_div (a b : Q) : option Q :=
  if Qeq_bool b 0 then None else Some (a / b).

(** [_apply_capacity_scenarios]. *)
Definition _apply_capacity_scenarios (base : list CapacityRow)
    (scenarios : option (list CapacityRow)) (start_year end_year : Z)
  : list CapacityRow :=
  let cap := filter (fun r => between start_year end_year (cap_year r)) base in
  let cap :=
    match scenarios with
    | Some df =>
        if negb (PrimarySupply.is_empty df)
        then
          let scen := filter (fun r => between start_year end_year (cap_year r)) df in
          if negb (PrimarySupply.is_empty scen) then cap ++ scen else cap
        else cap
    | None => cap
    end in
  map (fun y =>
         mkCapacityRow y
           (PrimarySupply.sum
              (map capacity (filter (fun r => (cap_year r =? y)%Z) cap))))
      (PrimarySupply.group_keys (map cap_year cap)).

(** The capacity cells a demand row of year [y] gets from
    [merge(cap, on="year", how="left")] followed by [fillna(0.0)]: one per
    capacity row of the year, and a single 0 when there is none. *)
Definition merged_capacity (cap : list CapacityRow) (y : Z) : list Q :=
  match filter (fun r => (cap_year r =? y)%Z) cap with
  | [] => [0]
  | rows => map capacity rows
  end.

(** [compute_conversion_balance]. *)
Definition compute_conversion_balance (feed_demand : list FeedDemand)
    (conversion_capacity : list CapacityRow)
    (conv_scenarios : option (list CapacityRow)) (start_year end_year : Z)
  : list ConversionBalance :=
  let cap := _apply_capacity_scenarios conversion_capacity conv_scenarios
               start_year end_year in
  let feed := filter (fun r => between start_year end_year (fd_year r)) feed_demand in
  flat_map
    (fun r =>
       map (fun c =>
              mkConversionBalance (fd_year r) (feed_tu r) c
                (column_div c (feed_tu r)) (c - feed_tu r))
           (merged_capacity cap (fd_year r)))
    feed.

(** [compute_enrichment_balance]. *)
Definition compute_enrichment_balance (swu_demand : list SwuDemand)
    (enrichment_capacity : list CapacityRow)
    (enr_scenarios : option (list CapacityRow)) (start_year end_year : Z)
  : list EnrichmentBalance :=
  let cap := _apply_capacity_scenarios enrichment_capacity enr_scenarios
               start_year end_year in
  let demand :=
    filter (fun r => between start_year end_year (sd_year r)) swu_demand in
  flat_map
    (fun r =>
       map (fun c =>
              mkEnrichmentBalance (sd_year r) (sd_swu_demand_swu r) c
                (column_div c (sd_swu_demand_swu r)) (c - sd_swu_demand_swu r))
           (merged_capacity cap (sd_year r)))
    demand.

End FuelCycleBalances.

Module BalanceVocabulary.
Import FuelCycleBalances.
Local Open Scope Q_scope.

Definition scenario_capacity (scenarios : option (list CapacityRow))
  : list CapacityRow :=
  match scenarios with Some df => df | None => [] end.

(** The total capacity the rows of a frame give for year [y]. *)
Definition capacity_in (y : Z) (df : list CapacityRow) : Q :=
  PrimarySupply.sum (map capacity (filter (fun r => (cap_year r =? y)%Z) df)).

(** The ratio and spare of a row are those of its capacity and demand. *)
Definition balanced (demand cap : Q) (ratio : option Q) (spare : Q) : Prop :=
  spare = cap - demand /\
  (demand == 0 -> ratio = None) /\
  (~ demand == 0 ->
   exists q, ratio = Some q /\ q * demand == cap /\
             (0 < demand -> (0 <= spare <-> 1 <= q))).

Definition example_feed_demand : list FeedDemand :=
  [mkFeedDemand 2021 100; mkFeedDemand 2019 70; mkFeedDemand 2022 0;
   mkFeedDemand 2023 50].
Definition example_capacity : list CapacityRow :=
  [mkCapacityRow 2021 80; mkCapacityRow 2022 80; mkCapacityRow 2021 10].
Definition example_capacity_scenarios : option (list CapacityRow) :=
  Some [mkCapacityRow 2021 30; mkCapacityRow 2030 500].

End BalanceVocabulary.

(** ** [core/fuel_cycle.py]: [compute_feed_and_swu_demand] *)

Module FuelCycleDemand.
Import FuelCycle.
Local Open Scope R_scope.

(** A row of [reactor_demand], with the columns the function reads.  The
    columns [total_tu] and [product_assay] hold numbers, as they do in the
    table of [compute_reactor_demand]; a [tails_assay] may be NaN ([None]),
    the case the function tests for. *)
Record ReactorDemand : Type := mkReactorDemand {
  rd_year : Z;
  total_tu : R;
  rd_product_assay : R;
  rd_tails_assay : option R
}.

(** A row of [yearly]. *)
Record YearlyRow : Type := mkYearlyRow {
  y_year : Z;
  y_product_tu : R;
  y_product_assay : R;
  fallback_tails : option R
}.

(** A row of the output. *)
Record FeedSwuRow : Type := mkFeedSwuRow {
  year : Z;
  product_tu : R;
  feed_tu : R;
  swu_demand_swu : FuelCycle.float64;
  tails_assay_used : R
}.

(** The aggregation ["sum"], from the left. *)
Definition sum (l : list R) : R := fold_left Rplus l 0.

(** The aggregation ["mean"] of a column of numbers of a group; a group has
    at least one row. *)
Definition mean (l : list R) : R := sum l / INR (List.length l).

(** The numbers of a column, NaN skipped. *)
Definition dropna (l : list (option R)) : list R :=
  flat_map (fun o => match o with Some v => [v] | None => [] end) l.

(** The aggregation ["mean"] of a column that may hold NaN: the mean of its
    numbers, and NaN for a group without one. *)
Definition nanmean (l : list (option R)) : option R :=
  match dropna l with
  | [] => None
  | vs => Some (mean vs)
  end.

(** [reactor_demand.groupby("year").agg(...).reset_index()]: one row per
    year present, in ascending order. *)
Definition yearly (reactor_demand : list ReactorDemand) : list YearlyRow :=
  map (fun y =>
         let group := filter (fun r => (rd_year r =? y)%Z) reactor_demand in
         mkYearlyRow y
           (sum (map total_tu group))
           (mean (map rd_product_assay group))
           (nanmean (map rd_tails_assay group)))
      (PrimarySupply.group_keys (map rd_year reactor_demand)).

(** A price series indexed by year: its (index, value) pairs in row order;
    a value may be NaN. *)
Definition PriceSeries : Type := list (Z * option R).

(** What [series.get(year, np.nan)] gives: a scalar, or the sub-series of a
    label that occurs several times. *)
Inductive cell : Type :=
| Scalar (v : option R)
| SubSeries.

(** [series.get(year, np.nan) if series is not None else np.nan]. *)
Definition price_get (series : option PriceSeries) (year : Z) : cell :=
  match series with
  | None => Scalar None
  | Some rows =>
      match filter (fun kv => (fst kv =? year)%Z) rows with
      | [] => Scalar None
      | [kv] => Scalar (snd kv)
      | _ :: _ :: _ => SubSeries
      end
  end.

(** The condition
    [tails_policy == "optimize" and pd.notna(u_price) and pd.notna(swu_price)],
    evaluated from the left: the two prices when it holds.  [pd.notna] of a
    sub-series is a series, whose truth value is a [ValueError]. *)
Definition priced (tails_policy : string) (u_price swu_price : cell)
  : result (option (R * R)) :=
  let ambiguous :=
    ValueError "The truth value of a Series is ambiguous. Use a.empty, a.bool(), a.item(), a.any() or a.all()." in
  if String.eqb tails_policy "optimize"
  then
    match u_price with
    | SubSeries => raise ambiguous
    | Scalar None => ret None
    | Scalar (Some u) =>
        match swu_price with
        | SubSeries => raise ambiguous
        | Scalar None => ret None
        | Scalar (Some s) => ret (Some (u, s))
        end
    end
  else ret None.

(** [fallback_tails if not np.isnan(fallback_tails) else default_tails]. *)
Definition fallback_or_default (fallback_tails : option R) (default_tails : R) : R :=
  match fallback_tails with
  | Some t => t
  | None => default_tails
  end.

(** The body of the loop over [yearly]: the output row of one year.
    [row.get("product_assay", 0.045)] finds the column, which [agg] always
    makes. *)
Definition feed_row (u_price_series swu_price_series : option PriceSeries)
    (tails_policy : string) (default_tails feed_assay : R) (row : YearlyRow)
  : result FeedSwuRow :=
  let year := y_year row in
  let product_tu := y_product_tu row in
  let product_assay := y_product_assay row in
  let u_price := price_get u_price_series year in
  let swu_price := price_get swu_price_series year in
  (prices <- priced tails_policy u_price swu_price ;;
   tails <-
     match prices with
     | Some (u, s) =>
         optimize_tails_assay (Some u) (Some s) product_assay feed_assay
           default_bounds default_grid_points
     | None => ret (fallback_or_default (fallback_tails row) default_tails)
     end ;;
   let params := mkEnrichmentParams feed_assay product_assay tails in
   fs <- feed_and_swu_for_product product_tu params ;;
   ret (mkFeedSwuRow year product_tu (fst fs) (snd fs) tails))%result.

(** [for _, row in yearly.iterrows(): ... feed_list.append(...)]. *)
Fixpoint feed_list (u_price_series swu_price_series : option PriceSeries)
    (tails_policy : string) (default_tails feed_assay : R)
    (rows : list YearlyRow) : result (list FeedSwuRow) :=
  match rows with
  | [] => ret []
  | row :: rest =>
      (r <- feed_row u_price_series swu_price_series tails_policy
              default_tails feed_assay row ;;
       more <- feed_list u_price_series swu_price_series tails_policy
                 default_tails feed_assay rest ;;
       ret (r :: more))%result
  end.

(** [compute_feed_and_swu_demand]. *)
Definition compute_feed_and_swu_demand (reactor_demand : list ReactorDemand)
    (u_price_series swu_price_series : option PriceSeries)
    (tails_policy : string) (default_tails feed_assay : R)
  : result (list FeedSwuRow) :=
  match reactor_demand with
  | [] => ret []
  | _ :: _ =>
      feed_list u_price_series swu_price_series tails_policy default_tails
        feed_assay (yearly reactor_demand)
  end.

End FuelCycleDemand.

Module FeedDemandVocabulary.
Import FuelCycle FuelCycleDemand.
Local Open Scope R_scope.

(** The rows of the demand table of one year. *)
Definition rows_of_year (reactor_demand : list ReactorDemand) (y : Z)
  : list ReactorDemand :=
  filter (fun r => (rd_year r =? y)%Z) reactor_demand.

(** The product assay of a year: the mean over the year's rows. *)
Definition year_product_assay (reactor_demand : list ReactorDemand) (y : Z) : R :=
  mean (map rd_product_assay (rows_of_year reactor_demand y)).

(** The tails assay of a year when prices are not used: the mean of the
    year's tails assays that are numbers, and the default when none is. *)
Definition year_fixed_tails (reactor_demand : list ReactorDemand)
    (default_tails : R) (y : Z) : R :=
  fallback_or_default
    (nanmean (map rd_tails_assay (rows_of_year reactor_demand y))) default_tails.

(** The years of the demand table, ascending. *)
Definition demand_years (reactor_demand : list ReactorDemand) : list Z :=
  PrimarySupply.group_keys (map rd_year reactor_demand).

(** The row of [yearly] for one year. *)
Definition year_row (reactor_demand : list ReactorDemand) (y : Z) : YearlyRow :=
  mkYearlyRow y
    (sum (map total_tu (rows_of_year reactor_demand y)))
    (year_product_assay reactor_demand y)
    (nanmean (map rd_tails_assay (rows_of_year reactor_demand y))).

(** How many rows of a price series carry the label [y]. *)
Definition label_count (series : option PriceSeries) (y : Z) : nat :=
  match series with
  | None => 0
  | Some rows => List.length (filter (fun kv => (fst kv =? y)%Z) rows)
  end.

(** The enrichment at these assays divides by no zero. *)
Definition enrichable (feed_assay product_assay tails : R) : Prop :=
  feed_assay <> tails /\ product_assay <> 0 /\ tails <> 0 /\ feed_assay <> 0.

Definition example_reactor_demand : list ReactorDemand :=
  [ mkReactorDemand 2031 10 0.05 (Some 0.002);
    mkReactorDemand 2030 20 0.04 None;
    mkReactorDemand 2031 30 0.04 (Some 0.003) ].

Definition example_u_price : PriceSeries := [ (2030%Z, Some 80); (2031%Z, None) ].
Definition example_swu_price : PriceSeries :=
  [ (2030%Z, Some 120); (2031%Z, Some 130); (2031%Z, Some 135) ].

End FeedDemandVocabulary.

(** ** [core/balances.py] *)

Module Balances.
Import FuelCycleBalances.
Local Open Scope Q_scope.

(** [left.merge(right, on="year", how="left")]: the rows of [left] in their
    order, each once per row of [right] of its year, in the order of [right],
    and once without a partner (the cells from [right] are NaN) when [right]
    has no row of the year. *)
Definition merge_left {A B : Type} (left_year : A -> Z) (right_year : B -> Z)
    (join : A -> option B -> A) (left : list A) (right : list B) : list A :=
  flat_map
    (fun a =>
       match filter (fun b => (right_year b =? left_year a)%Z) right with
       | [] => [join a None]
       | partners => map (fun b => join a (Some b)) partners
       end)
    left.

(** A row of [df] after the merges: the feed demand row and its partners.
    [m_inventory] is the cell [inventory_tu], [None] for NaN; [m_conv] and
    [m_enr] hold the two columns taken from a balance, and are [None] when
    that balance was not merged. *)
Record Merged : Type := mkMerged {
  m_feed : FeedDemand;
  m_primary : option PrimarySupply.PrimarySupplyRow;
  m_secondary : option SecondarySupplyPanel.SecondarySupplyRow;
  m_inventory : option Q;
  m_conv : option (option ConversionBalance);
  m_enr : option (option EnrichmentBalance)
}.

Definition m_year (m : Merged) : Z := fd_year (m_feed m).

(** A row of the panel.  The cells merged from the secondary supply and from
    the balances are [None] where the merge found no partner; the columns of
    a balance that was not merged are absent ([None] for the pair). *)
Record SdRow : Type := mkSdRow {
  year : Z;
  feed_tu : Q;
  primary_supply_tu : Q;
  secondary_supply_tu : Q;
  heu_tu : option Q;
  underfeeding_tu : option Q;
  inventory_tu : Q;
  conv_columns : option (option (option Q * Q));
  enr_columns : option (option (option Q * Q));
  total_supply_tu : Q;
  balance_tu : Q;
  balance_ratio : option Q;
  inventory_years : option Q
}.

(** [col.fillna(0.0)] on one cell. *)
Definition fillna (cell : option Q) : Q :=
  match cell with Some v => v | None => 0 end.

(** The row of the panel for a merged row, given its inventory cell after
    the forward fill. *)
Definition panel_row (m : Merged) (inventory : option Q) : SdRow :=
  let feed := FuelCycleBalances.feed_tu (m_feed m) in
  let primary := fillna (option_map PrimarySupply.primary_supply_tu (m_primary m)) in
  let secondary :=
    fillna (option_map SecondarySupplyPanel.secondary_supply_tu (m_secondary m)) in
  let total := primary + secondary in
  let inventory := fillna inventory in
  mkSdRow (m_year m) feed primary secondary
    (option_map SecondarySupplyPanel.heu_tu (m_secondary m))
    (option_map SecondarySupplyPanel.underfeeding_tu (m_secondary m))
    inventory
    (option_map (option_map (fun c => (conv_balance_ratio c, conv_spare_tu c)))
       (m_conv m))
    (option_map (option_map (fun c => (swu_balance_ratio c, swu_spare_swu c)))
       (m_enr m))
    total
    (total - feed)
    (column_div total feed)
    (column_div inventory feed).

(** The computed columns, row by row; [fillna(method="ffill")] carries the
    last inventory cell that is a number down the rows, in the order the rows
    have before the sort. *)
Fixpoint fill_rows (last : option Q) (rows : list Merged) : list SdRow :=
  match rows with
  | [] => []
  | m :: rest =>
      let inventory :=
        match m_inventory m with
        | Some v => Some v
        | None => last
        end in
      panel_row m inventory :: fill_rows inventory rest
  end.

(** [df.sort_values("year")], as an insertion sort that keeps rows of equal
    year in their order.  (pandas' default sort promises no order among
    equal years.) *)
Fixpoint insert_row (r : SdRow) (sorted : list SdRow) : list SdRow :=
  match sorted with
  | [] => [r]
  | h :: t =>
      if (year r <=? year h)%Z then r :: sorted else h :: insert_row r t
  end.

Definition sort_values_year (df : list SdRow) : list SdRow :=
  fold_right insert_row [] df.

(** [feed_demand[["year", "feed_tu"]].copy()], before any merge. *)
Definition from_feed (feed_demand : list FeedDemand) : list Merged :=
  map (fun f => mkMerged f None None None None None) feed_demand.

(** [df.merge(primary_supply, on="year", how="left")]. *)
Definition merge_primary (df : list Merged)
    (primary_supply : list PrimarySupply.PrimarySupplyRow) : list Merged :=
  merge_left m_year PrimarySupply.year
    (fun m p => mkMerged (m_feed m) p (m_secondary m) (m_inventory m)
                  (m_conv m) (m_enr m))
    df primary_supply.

(** [df.merge(secondary_supply, on="year", how="left")]. *)
Definition merge_secondary (df : list Merged)
    (secondary_supply : list SecondarySupplyPanel.SecondarySupplyRow)
  : list Merged :=
  merge_left m_year SecondarySupplyPanel.year
    (fun m s => mkMerged (m_feed m) (m_primary m) s (m_inventory m)
                  (m_conv m) (m_enr m))
    df secondary_supply.

(** The inventory column: merged from [inventories] when that is a frame
    with rows, and the constant 0.0 otherwise. *)
Definition merge_inventories (df : list Merged)
    (inventories : option (list SecondarySupply.InventoryRow)) : list Merged :=
  match inventories with
  | Some ((_ :: _) as inventories) =>
      merge_left m_year SecondarySupply.year
        (fun m i => mkMerged (m_feed m) (m_primary m) (m_secondary m)
                      (option_map SecondarySupply.inventory_tu i)
                      (m_conv m) (m_enr m))
        df inventories
  | _ =>
      map (fun m => mkMerged (m_feed m) (m_primary m) (m_secondary m)
                      (Some 0) (m_conv m) (m_enr m)) df
  end.

(** The two columns of the conversion balance, merged when [conv_balance] is
    a frame with rows. *)
Definition merge_conv (df : list Merged)
    (conv_balance : option (list ConversionBalance)) : list Merged :=
  match conv_balance with
  | Some ((_ :: _) as conv_balance) =>
      merge_left m_year cb_year
        (fun m c => mkMerged (m_feed m) (m_primary m) (m_secondary m)
                      (m_inventory m) (Some c) (m_enr m))
        df conv_balance
  | _ => df
  end.

(** The two columns of the enrichment balance, likewise. *)
Definition merge_enr (df : list Merged)
    (enr_balance : option (list EnrichmentBalance)) : list Merged :=
  match enr_balance with
  | Some ((_ :: _) as enr_balance) =>
      merge_left m_year eb_year
        (fun m e => mkMerged (m_feed m) (m_primary m) (m_secondary m)
                      (m_inventory m) (m_conv m) (Some e))
        df enr_balance
  | _ => df
  end.

(** [build_sd_panel]. *)
Definition build_sd_panel (feed_demand : list FeedDemand)
    (primary_supply : list PrimarySupply.PrimarySupplyRow)
    (secondary_supply : list SecondarySupplyPanel.SecondarySupplyRow)
    (inventories : option (list SecondarySupply.InventoryRow))
    (conv_balance : option (list ConversionBalance))
    (enr_balance : option (list EnrichmentBalance)) : list SdRow :=
  let df := from_feed feed_demand in
  let df := merge_primary df primary_supply in
  let df := merge_secondary df secondary_supply in
  let df := merge_inventories df inventories in
  let df := merge_conv df conv_balance in
  let df := merge_enr df enr_balance in
  sort_values_year (fill_rows None df).

End Balances.

Module SdPanelVocabulary.
Import FuelCycleBalances Balances.
Local Open Scope Q_scope.

(** A list of years in non-descending order. *)
Fixpoint nondescending (l : list Z) : Prop :=
  match l with
  | [] => True
  | x :: t => (forall y, In y t -> (x <= y)%Z) /\ nondescending t
  end.

(** The supply cell of a panel row: the value of some row of its year in the
    supply table, and zero when the table has no row of that year. *)
Definition supply_cell {B : Type} (right_year : B -> Z) (value : B -> Q)
    (right : list B) (y : Z) (cell : Q) : Prop :=
  (exists b, In b right /\ right_year b = y /\ cell = value b) \/
  ((forall b, In b right -> right_year b <> y) /\ cell = 0).

(** The partner a merged row of year [y] has from a table: a row of the
    table of that year, and none when the table has no such row. *)
Definition partner {B : Type} (right_year : B -> Z) (right : list B) (y : Z)
    (cell : option B) : Prop :=
  match cell with
  | Some b => In b right /\ right_year b = y
  | None => forall b, In b right -> right_year b <> y
  end.

(** A merged row comes from a row of the feed demand and has its partners
    from the two supply tables. *)
Definition supplied (feed_demand : list FeedDemand)
    (primary_supply : list PrimarySupply.PrimarySupplyRow)
    (secondary_supply : list SecondarySupplyPanel.SecondarySupplyRow)
    (m : Merged) : Prop :=
  In (m_feed m) feed_demand /\
  partner PrimarySupply.year primary_supply (m_year m) (m_primary m) /\
  partner SecondarySupplyPanel.year secondary_supply (m_year m) (m_secondary m).

(** The inventory an inventory table records for year [y]. *)
Definition inventory_at (inventories : option (list SecondarySupply.InventoryRow))
    (y : Z) : option Q :=
  match inventories with
  | Some rows =>
      option_map SecondarySupply.inventory_tu
        (find (fun i => (SecondarySupply.year i =? y)%Z) rows)
  | None => None
  end.

(** Down the rows of a panel, each inventory is the one recorded for the
    row's year, and the inventory of the row before ([prev] for the first)
    when none is recorded. *)
Fixpoint carried (inventories : option (list SecondarySupply.InventoryRow))
    (prev : Q) (panel : list SdRow) : Prop :=
  match panel with
  | [] => True
  | r :: rest =>
      inventory_tu r
      = match inventory_at inventories (year r) with
        | Some v => v
        | None => prev
        end
      /\ carried inventories (inventory_tu r) rest
  end.

(** The years of an optional table. *)
Definition years_of {B : Type} (right_year : B -> Z) (df : option (list B))
  : list Z :=
  match df with Some rows => map right_year rows | None => [] end.

Definition example_feed : list FeedDemand :=
  [mkFeedDemand 2020 100; mkFeedDemand 2021 110; mkFeedDemand 2022 0;
   mkFeedDemand 2023 120].
Definition example_primary_supply : list PrimarySupply.PrimarySupplyRow :=
  [PrimarySupply.mkPrimarySupplyRow 2020 90; PrimarySupply.mkPrimarySupplyRow 2021 95;
   PrimarySupply.mkPrimarySupplyRow 2023 100].
Definition example_secondary_supply : list SecondarySupplyPanel.SecondarySupplyRow :=
  [SecondarySupplyPanel.mkSecondarySupplyRow 2021 20 15 5].
Definition example_inventories : option (list SecondarySupply.InventoryRow) :=
  Some [SecondarySupply.mkInventoryRow 2021 300; SecondarySupply.mkInventoryRow 2023 280].
Definition example_swu_demand : list SwuDemand :=
  [mkSwuDemand 2020 500; mkSwuDemand 2021 520; mkSwuDemand 2023 560].

End SdPanelVocabulary.

Module DemandPipelineVocabulary.

(** The table of [compute_reactor_demand] as [compute_feed_and_swu_demand]
    reads it: the year and the three columns it aggregates, the numbers of
    the panel model taken as real numbers. *)
Definition as_reactor_demand (rows : list Demand.ReactorDemand)
  : list FuelCycleDemand.ReactorDemand :=
  map (fun r =>
         FuelCycleDemand.mkReactorDemand (Demand.year r)
           (Q2R (Demand.total_tu r))
           (Q2R (Demand.product_assay r))
           (Some (Q2R (Demand.tails_assay r))))
      rows.

(** The table of the example call of [compute_reactor_demand]. *)
Definition example_table : list Demand.ReactorDemand :=
  Eval cbv in
    match Demand.compute_reactor_demand DemandVocabulary.example_master []
            DemandVocabulary.example_fuel_params DemandVocabulary.example_life
            DemandVocabulary.example_newbuilds 2020 2023 "base" with
    | inr rows => rows
    | inl _ => []
    end.

End DemandPipelineVocabulary.

(** * Properties *)

(** ** Enrichment economics *)

Module FuelCycleFacts.
Import FuelCycle.
Local Open Scope R_scope.

(** *** Division and the value function *)

Lemma truediv_defined (a b : R) : b <> 0 -> truediv a b = inr (a / b).
Proof.
  intros H. unfold truediv. destruct (Req_dec_T b 0); [contradiction | reflexivity].
Qed.

Lemma truediv_inv (a b q : R) : truediv a b = inr q -> b <> 0 /\ q = a / b.
Proof.
  unfold truediv. destruct (Req_dec_T b 0); [discriminate|].
  intros [= <-]. split; [assumption | reflexivity].
Qed.

Lemma truediv_zero (a : R) :
  truediv a 0 = inl (ZeroDivisionError "float division by zero").
Proof.
  unfold truediv. destruct (Req_dec_T 0 0); [reflexivity | contradiction].
Qed.

Lemma value_function_defined (x : R) :
  x <> 0 ->
  value_function x = inr (fmul (Fin (1 - 2 * x)) (np_log (Fin ((1 - x) / x)))).
Proof.
  intros H. unfold value_function. rewrite truediv_defined by exact H. reflexivity.
Qed.

Lemma value_function_inv (x : R) (v : float64) :
  value_function x = inr v ->
  x <> 0 /\ v = fmul (Fin (1 - 2 * x)) (np_log (Fin ((1 - x) / x))).
Proof.
  unfold value_function.
  destruct (truediv (1 - x) x) as [e|q] eqn:E; [discriminate|].
  apply truediv_inv in E. destruct E as [Hx ->]. simpl.
  intros [= <-]. split; [assumption | reflexivity].
Qed.

Lemma np_log_positive (q : R) : 0 < q -> np_log (Fin q) = Fin (ln q).
Proof.
  intros H. unfold np_log. destruct (Rlt_dec 0 q); [reflexivity | contradiction].
Qed.

Lemma ratio_positive (x : R) : 0 < x < 1 -> 0 < (1 - x) / x.
Proof. intros [H0 H1]. apply Rdiv_lt_0_compat; lra. Qed.

(** Strictly between 0 and 1 the value is the finite number of the
    formula. *)
Lemma value_function_unit (x : R) :
  0 < x < 1 -> value_function x = inr (Fin ((1 - 2 * x) * ln ((1 - x) / x))).
Proof.
  intros H. rewrite value_function_defined by lra.
  rewrite np_log_positive by (apply ratio_positive; exact H). reflexivity.
Qed.

Lemma ln_ratio_swap (a b : R) : 0 < a -> 0 < b -> ln (a / b) = - ln (b / a).
Proof.
  intros Ha Hb.
  replace (a / b) with (/ (b / a)) by (field; lra).
  apply ln_Rinv. apply Rdiv_lt_0_compat; assumption.
Qed.

(** C7.  The value function is symmetric about 1/2: for every x strictly
    between 0 and 1 it returns at x and at 1 - x, with the same value, which
    is the finite number (1 - 2x) ln((1 - x)/x). *)
Theorem value_function_symmetric (x : R) :
  0 < x < 1 ->
  exists v,
    value_function x = inr (Fin v) /\
    value_function (1 - x) = inr (Fin v) /\
    v = (1 - 2 * x) * ln ((1 - x) / x).
Proof.
  intros [H0 H1]. eexists. split; [|split; [|reflexivity]].
  - apply value_function_unit. lra.
  - rewrite value_function_unit by lra. f_equal. f_equal.
    replace (1 - (1 - x)) with x by ring.
    rewrite (ln_ratio_swap x (1 - x)) by lra.
    ring.
Qed.

Lemma value_function_symmetric_witness :
  exists v,
    value_function (1 / 4) = inr (Fin v) /\
    value_function (1 - 1 / 4) = inr (Fin v) /\
    v = (1 - 2 * (1 / 4)) * ln ((1 - 1 / 4) / (1 / 4)).
Proof.
  apply (value_function_symmetric (1 / 4)). lra.
Defined.

(** *** Feed and separative work *)

(** The call returns exactly when the two assays differ and none is zero,
    and then with the components of the source. *)
Lemma feed_and_swu_inv (p : R) (params : EnrichmentParams) (f_mass : R)
    (swu : float64) :
  feed_and_swu_for_product p params = inr (f_mass, swu) ->
  feed_assay params - tails_assay params <> 0 /\
  product_assay params <> 0 /\ tails_assay params <> 0 /\ feed_assay params <> 0 /\
  f_mass = (product_assay params - tails_assay params)
           / (feed_assay params - tails_assay params) * p /\
  exists vp vt vf,
    value_function (product_assay params) = inr vp /\
    value_function (tails_assay params) = inr vt /\
    value_function (feed_assay params) = inr vf /\
    swu = fsub (fadd (fmul (Fin p) vp) (fmul (Fin (f_mass - p)) vt))
            (fmul (Fin f_mass) vf).
Proof.
  unfold feed_and_swu_for_product.
  destruct (truediv _ _) as [e|q] eqn:Eq; [discriminate|]. simpl.
  destruct (value_function (product_assay params)) as [e|vp] eqn:Ep; [discriminate|].
  simpl.
  destruct (value_function (tails_assay params)) as [e|vt] eqn:Et; [discriminate|].
  simpl.
  destruct (value_function (feed_assay params)) as [e|vf] eqn:Ef; [discriminate|].
  simpl. intros [= <- <-].
  apply truediv_inv in Eq. destruct Eq as [Hd ->].
  pose proof (value_function_inv _ _ Ep) as [Hp _].
  pose proof (value_function_inv _ _ Et) as [Ht _].
  pose proof (value_function_inv _ _ Ef) as [Hf _].
  repeat split; try assumption.
  exists vp, vt, vf. repeat split; reflexivity.
Qed.

(** With the three assays strictly between 0 and 1 both components are
    finite numbers. *)
Lemma feed_and_swu_unit (p : R) (params : EnrichmentParams) :
  feed_assay params <> tails_assay params ->
  0 < feed_assay params < 1 -> 0 < product_assay params < 1 ->
  0 < tails_assay params < 1 ->
  let V := fun x => (1 - 2 * x) * ln ((1 - x) / x) in
  let F := (product_assay params - tails_assay params)
           / (feed_assay params - tails_assay params) * p in
  feed_and_swu_for_product p params
  = inr (F, Fin (p * V (product_assay params) + (F - p) * V (tails_assay params)
                 - F * V (feed_assay params))).
Proof.
  intros Hd Hf Hp Ht V F. unfold feed_and_swu_for_product.
  rewrite truediv_defined by lra. simpl.
  rewrite !value_function_unit by assumption. simpl.
  unfold F, V. apply f_equal. apply f_equal2; [reflexivity|]. apply f_equal. ring.
Qed.

Lemma feed_and_swu_defined (p : R) (params : EnrichmentParams) :
  feed_assay params <> tails_assay params ->
  product_assay params <> 0 -> tails_assay params <> 0 -> feed_assay params <> 0 ->
  exists f_mass swu, feed_and_swu_for_product p params = inr (f_mass, swu).
Proof.
  intros Hd Hp Ht Hf. unfold feed_and_swu_for_product.
  rewrite truediv_defined by lra. simpl.
  rewrite !value_function_defined by assumption. simpl.
  eexists. eexists. reflexivity.
Qed.

Lemma feed_and_swu_zero_division (p : R) (params : EnrichmentParams) :
  feed_assay params = tails_assay params ->
  feed_and_swu_for_product p params
  = inl (ZeroDivisionError "float division by zero").
Proof.
  intros H. unfold feed_and_swu_for_product.
  replace (feed_assay params - tails_assay params) with 0 by lra.
  rewrite truediv_zero. reflexivity.
Qed.

Lemma default_params_return (p : R) :
  exists f_mass swu, feed_and_swu_for_product p default_params = inr (f_mass, swu).
Proof.
  apply feed_and_swu_defined;
    unfold default_params, NATURAL_U235_ASSAY, DEFAULT_TAILS_ASSAY; simpl; lra.
Qed.

(** C2.  U-235 mass balance: with distinct feed and tails assays, a feed mass
    F returned by the call satisfies
    F * feed_assay = product_tu * product_assay + (F - product_tu) * tails_assay;
    and the call does return when, besides, no assay is zero. *)
Theorem feed_mass_balance (product_tu : R) (params : EnrichmentParams) :
  feed_assay params <> tails_assay params ->
  (forall f_mass swu,
      feed_and_swu_for_product product_tu params = inr (f_mass, swu) ->
      f_mass * feed_assay params =
      product_tu * product_assay params
      + (f_mass - product_tu) * tails_assay params) /\
  (product_assay params <> 0 -> tails_assay params <> 0 ->
   feed_assay params <> 0 ->
   exists f_mass swu,
     feed_and_swu_for_product product_tu params = inr (f_mass, swu)).
Proof.
  intros H. split.
  - intros f_mass swu Hret. apply feed_and_swu_inv in Hret.
    destruct Hret as (Hd & _ & _ & _ & -> & _). field. exact Hd.
  - intros Hp Ht Hf. apply feed_and_swu_defined; assumption.
Qed.

Lemma default_assays_differ : feed_assay default_params <> tails_assay default_params.
Proof. unfold default_params, NATURAL_U235_ASSAY, DEFAULT_TAILS_ASSAY. simpl. lra. Qed.

Lemma feed_mass_balance_witness :
  exists f_mass swu,
    feed_and_swu_for_product 1 default_params = inr (f_mass, swu) /\
    f_mass * feed_assay default_params =
    1 * product_assay default_params + (f_mass - 1) * tails_assay default_params.
Proof.
  destruct (default_params_return 1) as [f_mass [swu Hret]].
  exists f_mass, swu. split; [exact Hret|].
  exact (proj1 (feed_mass_balance 1 default_params default_assays_differ)
           f_mass swu Hret).
Defined.

(** C4, as stated, fails: with tails 0.1 < product 0.2 < feed 0.3 and one
    tonne of product, the call returns a feed that is not greater than the
    product. *)
Lemma feed_exceeds_product_counterexample :
  exists f_mass swu,
    feed_and_swu_for_product 1 (mkEnrichmentParams 0.3 0.2 0.1) = inr (f_mass, swu) /\
    0.1 < 0.2 < 0.3 /\ 1 > 0 /\ ~ f_mass > 1.
Proof.
  destruct (feed_and_swu_defined 1 (mkEnrichmentParams 0.3 0.2 0.1))
    as [f_mass [swu Hret]]; try (simpl; lra).
  exists f_mass, swu. split; [exact Hret|].
  apply feed_and_swu_inv in Hret. destruct Hret as (_ & _ & _ & _ & -> & _).
  simpl. repeat split; lra.
Qed.

(** C4, amended.  For a positive product mass, if
    tails_assay < feed_assay < product_assay then a feed mass returned by the
    call is strictly greater than the product mass; and the call does return
    when, besides, no assay is zero. *)
Theorem feed_exceeds_product (product_tu : R) (params : EnrichmentParams) :
  product_tu > 0 ->
  tails_assay params < feed_assay params < product_assay params ->
  (forall f_mass swu,
      feed_and_swu_for_product product_tu params = inr (f_mass, swu) ->
      f_mass > product_tu) /\
  (product_assay params <> 0 -> tails_assay params <> 0 ->
   feed_assay params <> 0 ->
   exists f_mass swu,
     feed_and_swu_for_product product_tu params = inr (f_mass, swu)).
Proof.
  intros Hpos [Htf Hfp]. split.
  - intros f_mass swu Hret. apply feed_and_swu_inv in Hret.
    destruct Hret as (_ & _ & _ & _ & -> & _).
    set (d := feed_assay params - tails_assay params).
    assert (Hd : 0 < d) by (unfold d; lra).
    assert (Hr : 1 < (product_assay params - tails_assay params) / d).
    { apply Rmult_lt_reg_r with d; [exact Hd|].
      unfold Rdiv. rewrite Rmult_assoc, Rinv_l by lra. unfold d. lra. }
    nra.
  - intros Hp Ht Hf. apply feed_and_swu_defined; try assumption. lra.
Qed.

Lemma feed_exceeds_product_witness :
  exists f_mass swu,
    feed_and_swu_for_product 1 default_params = inr (f_mass, swu) /\ f_mass > 1.
Proof.
  destruct (default_params_return 1) as [f_mass [swu Hret]].
  exists f_mass, swu. split; [exact Hret|].
  refine (proj1 (feed_exceeds_product 1 default_params _ _) f_mass swu Hret).
  - lra.
  - unfold default_params, NATURAL_U235_ASSAY, DEFAULT_TAILS_ASSAY. simpl. lra.
Defined.

(** With the product assay between the tails and the feed assay, a returned
    feed is in fact smaller than the product. *)
Lemma feed_below_product (product_tu : R) (params : EnrichmentParams)
    (f_mass : R) (swu : float64) :
  product_tu > 0 ->
  tails_assay params < product_assay params < feed_assay params ->
  feed_and_swu_for_product product_tu params = inr (f_mass, swu) ->
  f_mass < product_tu.
Proof.
  intros Hpos [Htp Hpf] Hret. apply feed_and_swu_inv in Hret.
  destruct Hret as (_ & _ & _ & _ & -> & _).
  set (d := feed_assay params - tails_assay params).
  assert (Hd : 0 < d) by (unfold d; lra).
  assert (Hr : (product_assay params - tails_assay params) / d < 1).
  { apply Rmult_lt_reg_r with d; [exact Hd|].
    unfold Rdiv. rewrite Rmult_assoc, Rinv_l by lra. unfold d. lra. }
  nra.
Qed.

(** C10, as stated, fails: with distinct feed and tails assays the call at
    a zero product mass raises when the tails assay is 0, and with a product
    assay of 1 it returns a separative work that is NaN, not 0. *)
Lemma feed_and_swu_homogeneous_counterexample :
  (0.00711 <> 0 /\
   feed_and_swu_for_product 0 (mkEnrichmentParams 0.00711 0.045 0)
   = inl (ZeroDivisionError "float division by zero")) /\
  (0.00711 <> 0.0025 /\
   exists f_mass,
     feed_and_swu_for_product 0 (mkEnrichmentParams 0.00711 1 0.0025)
     = inr (f_mass, NaN)).
Proof.
  split; split; try lra.
  - unfold feed_and_swu_for_product. simpl.
    rewrite truediv_defined by lra. simpl.
    rewrite (value_function_unit 0.045) by lra. simpl.
    unfold value_function. rewrite truediv_zero. reflexivity.
  - eexists. unfold feed_and_swu_for_product. simpl.
    rewrite truediv_defined by lra. simpl.
    assert (V1 : value_function 1 = inr PInf).
    { rewrite value_function_defined by lra.
      replace ((1 - 1) / 1) with 0 by lra. unfold np_log.
      destruct (Rlt_dec 0 0) as [H|_]; [lra|]. simpl.
      unfold signed_inf.
      destruct (Rlt_dec 0 (- (1 - 2 * 1))) as [_|H]; [reflexivity | lra]. }
    rewrite V1. simpl.
    rewrite (value_function_unit 0.0025) by lra. simpl.
    rewrite (value_function_unit 0.00711) by lra. simpl.
    unfold signed_inf.
    destruct (Rlt_dec 0 0) as [H|_]; [lra|]. reflexivity.
Qed.

(** C10, amended.  Homogeneity where the separative work is a number: with
    distinct feed and tails assays and the three assays strictly between 0
    and 1, the call returns finite numbers (F, S) for a product mass, it
    returns (a F, a S) for the product mass scaled by a, and (0, 0) for a
    zero product mass. *)
Theorem feed_and_swu_homogeneous (a product_tu : R) (params : EnrichmentParams) :
  feed_assay params <> tails_assay params ->
  0 < feed_assay params < 1 -> 0 < product_assay params < 1 ->
  0 < tails_assay params < 1 ->
  exists f_mass swu,
    feed_and_swu_for_product product_tu params = inr (f_mass, Fin swu) /\
    feed_and_swu_for_product (a * product_tu) params
    = inr (a * f_mass, Fin (a * swu)) /\
    feed_and_swu_for_product 0 params = inr (0, Fin 0).
Proof.
  intros Hd Hf Hp Ht.
  assert (Hd' : feed_assay params - tails_assay params <> 0) by lra.
  eexists. eexists. split; [apply feed_and_swu_unit; assumption|].
  split.
  - rewrite feed_and_swu_unit by assumption. cbv zeta.
    f_equal. f_equal; [|f_equal]; field; exact Hd'.
  - rewrite feed_and_swu_unit by assumption. cbv zeta.
    f_equal. f_equal; [|f_equal]; field; exact Hd'.
Qed.

Lemma feed_and_swu_homogeneous_witness :
  exists f_mass swu,
    feed_and_swu_for_product 5 default_params = inr (f_mass, Fin swu) /\
    feed_and_swu_for_product (3 * 5) default_params
    = inr (3 * f_mass, Fin (3 * swu)) /\
    feed_and_swu_for_product 0 default_params = inr (0, Fin 0).
Proof.
  apply (feed_and_swu_homogeneous 3 5 default_params);
    unfold default_params, NATURAL_U235_ASSAY, DEFAULT_TAILS_ASSAY; simpl; lra.
Defined.

(** *** The tails-assay grid search *)

Lemma in_arange (n i : Z) : In i (arange n) <-> (0 <= i < n)%Z.
Proof.
  unfold arange. rewrite in_map_iff. split.
  - intros [k [<- Hk]]. apply in_seq in Hk. lia.
  - intros H. exists (Z.to_nat i). split; [lia|]. apply in_seq. lia.
Qed.

Lemma sample_between (a b k d : R) :
  0 <= k <= d -> 0 < d ->
  Rmin a b <= k * ((b - a) / d) + a <= Rmax a b.
Proof.
  intros Hk Hd.
  set (t := k / d).
  assert (Ht : 0 <= t <= 1).
  { unfold t. split.
    - apply Rmult_le_pos; [lra|]. left. apply Rinv_0_lt_compat; lra.
    - apply Rmult_le_reg_r with d; [lra|]. unfold Rdiv.
      rewrite Rmult_assoc, Rinv_l by lra. lra. }
  replace (k * ((b - a) / d) + a) with (a + t * (b - a)) by (unfold t; field; lra).
  unfold Rmin, Rmax. destruct (Rle_dec a b); nra.
Qed.

(** Every sample of the grid lies between the two bounds. *)
Lemma linspace_bounds (a b : R) (n : Z) (g : list R) :
  linspace a b n = inr g ->
  forall t, In t g -> Rmin a b <= t <= Rmax a b.
Proof.
  unfold linspace. destruct (n <? 0)%Z eqn:Hn; [discriminate|].
  intros [= <-] t Ht. apply in_map_iff in Ht. destruct Ht as [i [<- Hi]].
  apply in_arange in Hi.
  destruct ((1 <? n) && (i =? n - 1))%Z eqn:E1.
  - unfold Rmin, Rmax. destruct (Rle_dec a b); lra.
  - destruct (0 <? n - 1)%Z eqn:E2.
    + apply sample_between.
      * split; [apply IZR_le; lia | apply IZR_le; lia].
      * apply IZR_lt. lia.
    + assert (i = 0%Z) by lia. subst i.
      unfold Rmin, Rmax. destruct (Rle_dec a b); lra.
Qed.

(** A positive number of grid points gives a non-empty grid. *)
Lemma linspace_nonempty (a b : R) (n : Z) :
  (0 < n)%Z -> exists t0 g, linspace a b n = inr (t0 :: g).
Proof.
  intros Hn. unfold linspace. destruct (Z.ltb_spec n 0); [lia|].
  unfold arange. destruct (Z.to_nat n) eqn:E; [lia|].
  simpl. eexists. eexists. reflexivity.
Qed.

(** An iteration keeps the best tails or replaces it by the candidate. *)
Lemma grid_step_keeps_or_takes (u s xp xf : R) (st st' : R * float64) (tails : R) :
  grid_step u s xp xf st tails = inr st' ->
  fst st' = fst st \/ fst st' = tails.
Proof.
  unfold grid_step.
  destruct (feed_and_swu_for_product_np 1 _) as [e|[feed_tu swu]]; [discriminate|].
  simpl. destruct (flt _ _); intros [= <-]; [now right | now left].
Qed.

(** At a grid point the feed and the work are computed whenever the product
    and feed assays are not zero, whatever the candidate. *)
Lemma feed_and_swu_np_returns (p : R) (params : EnrichmentParams) :
  product_assay params <> 0 -> feed_assay params <> 0 ->
  exists fs, feed_and_swu_for_product_np p params = inr fs.
Proof.
  intros Hp Hf. unfold feed_and_swu_for_product_np.
  rewrite !value_function_defined by assumption. simpl.
  eexists. reflexivity.
Qed.

(** An iteration returns when the product and feed assays are not zero. *)
Lemma grid_step_returns (u s xp xf : R) (st : R * float64) (tails : R) :
  xp <> 0 -> xf <> 0 -> exists st', grid_step u s xp xf st tails = inr st'.
Proof.
  intros Hp Hf. unfold grid_step.
  destruct (feed_and_swu_np_returns 1 (mkEnrichmentParams xf xp tails))
    as [[feed_tu swu] Hret]; try assumption.
  rewrite Hret. simpl. destruct (flt _ _); eexists; reflexivity.
Qed.

Lemma grid_loop_in_grid (u s xp xf : R) (grid : list R) :
  forall st st',
    grid_loop u s xp xf grid st = inr st' -> In (fst st') (fst st :: grid).
Proof.
  induction grid as [|t grid IH]; intros st st'; simpl.
  - intros [= <-]. now left.
  - destruct (grid_step u s xp xf st t) as [e|st1] eqn:E1; [discriminate|]. simpl.
    intros Hloop. apply grid_step_keeps_or_takes in E1.
    destruct (IH st1 st' Hloop) as [E|E].
    + destruct E1 as [K|K]; rewrite K in E; auto.
    + auto.
Qed.

Lemma grid_loop_returns (u s xp xf : R) (grid : list R) :
  xp <> 0 -> xf <> 0 ->
  forall st, exists st', grid_loop u s xp xf grid st = inr st'.
Proof.
  intros Hp Hf. induction grid as [|t grid IH]; intros st; simpl.
  - eexists. reflexivity.
  - destruct (grid_step_returns u s xp xf st t Hp Hf) as [st1 E1].
    rewrite E1. simpl. apply IH.
Qed.

Lemma optimize_with_prices (u s xp xf : R) (bounds : R * R) (n : Z)
    (t0 : R) (g : list R) :
  linspace (fst bounds) (snd bounds) n = inr (t0 :: g) ->
  optimize_tails_assay (Some u) (Some s) xp xf bounds n
  = bind (grid_loop u s xp xf (t0 :: g) (t0, PInf)) (fun st => ret (fst st)).
Proof. intros H. unfold optimize_tails_assay. rewrite H. reflexivity. Qed.

(** C5.  Whenever the uranium price or the SWU price is None, the optimizer
    returns DEFAULT_TAILS_ASSAY, which is 0.0025, whatever the product assay,
    feed assay, bounds and number of grid points. *)
Theorem optimize_tails_fallback (u_price swu_price : option R)
    (product_assay feed_assay : R) (bounds : R * R) (grid_points : Z) :
  u_price = None \/ swu_price = None ->
  optimize_tails_assay u_price swu_price product_assay feed_assay bounds grid_points
  = inr DEFAULT_TAILS_ASSAY
  /\ DEFAULT_TAILS_ASSAY = 0.0025.
Proof.
  intros [-> | ->]; split; try reflexivity.
  destruct u_price; reflexivity.
Qed.

Lemma optimize_tails_fallback_witness :
  optimize_tails_assay None (Some 30) 0 NATURAL_U235_ASSAY (0.01, 0.02) 0
  = inr DEFAULT_TAILS_ASSAY
  /\ DEFAULT_TAILS_ASSAY = 0.0025.
Proof.
  apply (optimize_tails_fallback None (Some 30) 0 NATURAL_U235_ASSAY (0.01, 0.02) 0).
  left. reflexivity.
Defined.

(** C3, as stated, fails: with the uranium price absent and bounds
    (0.01, 0.02), the call returns 0.0025, which is outside the bounds. *)
Lemma grid_search_bounded_counterexample :
  optimize_tails_assay None (Some 100) 0.045 NATURAL_U235_ASSAY (0.01, 0.02) 40
  = inr 0.0025
  /\ ~ (0.01 <= 0.0025 <= 0.02).
Proof. split; [reflexivity | lra]. Qed.

(** C3, amended.  When both prices are present and grid_points is positive,
    a tails assay returned by the optimizer lies between the two supplied
    bounds, endpoints included; and the optimizer does return when neither
    the product assay nor the feed assay is zero. *)
Theorem grid_search_bounded (u_price swu_price product_assay feed_assay : R)
    (bounds : R * R) (grid_points : Z) :
  (0 < grid_points)%Z ->
  (forall tails,
      optimize_tails_assay (Some u_price) (Some swu_price) product_assay
        feed_assay bounds grid_points = inr tails ->
      Rmin (fst bounds) (snd bounds) <= tails <= Rmax (fst bounds) (snd bounds)) /\
  (product_assay <> 0 -> feed_assay <> 0 ->
   exists tails,
     optimize_tails_assay (Some u_price) (Some swu_price) product_assay
       feed_assay bounds grid_points = inr tails).
Proof.
  intros Hn.
  destruct (linspace_nonempty (fst bounds) (snd bounds) grid_points Hn)
    as [t0 [g Hg]].
  rewrite (optimize_with_prices _ _ _ _ _ _ _ _ Hg). split.
  - intros tails.
    destruct (grid_loop u_price swu_price product_assay feed_assay (t0 :: g)
                (t0, PInf)) as [e|st] eqn:Eloop; [discriminate|].
    intros [= <-]. apply (linspace_bounds _ _ _ _ Hg).
    apply grid_loop_in_grid in Eloop.
    change (fst (t0, PInf)) with t0 in Eloop.
    destruct Eloop as [E|E]; [rewrite <- E; now left | exact E].
  - intros Hp Hf.
    destruct (grid_loop_returns u_price swu_price product_assay feed_assay
                (t0 :: g) Hp Hf (t0, PInf)) as [st Eloop].
    rewrite Eloop. eexists. reflexivity.
Qed.

Lemma grid_search_bounded_witness :
  exists tails,
    optimize_tails_assay (Some 30) (Some 100) 0.045 NATURAL_U235_ASSAY
      default_bounds default_grid_points = inr tails /\
    Rmin (fst default_bounds) (snd default_bounds) <= tails
    <= Rmax (fst default_bounds) (snd default_bounds).
Proof.
  assert (Hn : (0 < default_grid_points)%Z) by reflexivity.
  destruct (grid_search_bounded 30 100 0.045 NATURAL_U235_ASSAY default_bounds
              default_grid_points Hn) as [Hin Hret].
  destruct Hret as [tails Htails]; [lra | unfold NATURAL_U235_ASSAY; lra |].
  exists tails. split; [exact Htails | exact (Hin tails Htails)].
Defined.

(** With ordered bounds a returned tails assay lies in the closed interval
    they span. *)
Corollary grid_search_within_ordered_bounds
    (u_price swu_price product_assay feed_assay lo hi : R) (grid_points : Z)
    (tails : R) :
  (0 < grid_points)%Z -> lo <= hi ->
  optimize_tails_assay (Some u_price) (Some swu_price) product_assay feed_assay
    (lo, hi) grid_points = inr tails ->
  lo <= tails <= hi.
Proof.
  intros Hn Hle.
  destruct (linspace_nonempty lo hi grid_points Hn) as [t0 [g Hg]].
  rewrite (optimize_with_prices _ _ _ _ (lo, hi) _ _ _ Hg).
  destruct (grid_loop u_price swu_price product_assay feed_assay (t0 :: g)
              (t0, PInf)) as [e|st] eqn:Eloop; [discriminate|].
  intros [= <-].
  pose proof (linspace_bounds _ _ _ _ Hg) as Hb.
  rewrite Rmin_left, Rmax_right in Hb by exact Hle.
  apply Hb. apply grid_loop_in_grid in Eloop.
  change (fst (t0, PInf)) with t0 in Eloop.
  destruct Eloop as [E|E]; [rewrite <- E; now left | exact E].
Qed.

(** A grid of one point is the lower bound, which is then the result. *)
Lemma optimize_tails_single_point (u_price swu_price xp xf lo hi : R) :
  xp <> 0 -> xf <> 0 ->
  exists tails,
    optimize_tails_assay (Some u_price) (Some swu_price) xp xf (lo, hi) 1
    = inr tails /\ tails = lo.
Proof.
  intros Hp Hf.
  assert (Hg : linspace (fst (lo, hi)) (snd (lo, hi)) 1 = inr [0 * (hi - lo) + lo])
    by reflexivity.
  rewrite (optimize_with_prices _ _ _ _ _ _ _ _ Hg).
  destruct (grid_loop_returns u_price swu_price xp xf [0 * (hi - lo) + lo] Hp Hf
              (0 * (hi - lo) + lo, PInf)) as [st Eloop].
  rewrite Eloop. exists (fst st). split; [reflexivity|].
  apply grid_loop_in_grid in Eloop.
  change (fst (0 * (hi - lo) + lo, PInf)) with (0 * (hi - lo) + lo) in Eloop.
  destruct Eloop as [E|[E|[]]]; rewrite <- E; ring.
Qed.

(** Without grid points there is no first sample to start from, and a zero
    product assay stops the first iteration. *)
Lemma optimize_tails_no_grid_points (u_price swu_price xp xf : R) (bounds : R * R) :
  optimize_tails_assay (Some u_price) (Some swu_price) xp xf bounds 0
  = inl (IndexError "index 0 is out of bounds for axis 0 with size 0").
Proof. reflexivity. Qed.

Lemma optimize_tails_zero_product_assay (u_price swu_price xf : R) (bounds : R * R) :
  optimize_tails_assay (Some u_price) (Some swu_price) 0 xf bounds 1
  = inl (ZeroDivisionError "float division by zero").
Proof.
  unfold optimize_tails_assay, linspace, arange. simpl.
  unfold grid_step, feed_and_swu_for_product_np, value_function. simpl.
  replace (1 - 0) with 1 by ring. rewrite truediv_zero. reflexivity.
Qed.

End FuelCycleFacts.

(** ** Helpers on ranges, series and maxima *)

Lemma range_nil (a b : Z) : (b <= a)%Z -> range a b = [].
Proof.
  intros H. unfold range. replace (Z.to_nat (b - a)) with 0%nat by lia. reflexivity.
Qed.

Lemma range_cons (a b : Z) : (a < b)%Z -> range a b = a :: range (a + 1) b.
Proof.
  intros H. unfold range.
  replace (Z.to_nat (b - a)) with (S (Z.to_nat (b - (a + 1)))) by lia.
  simpl. f_equal; [lia|].
  rewrite <- seq_shift, map_map. apply map_ext. intros i. lia.
Qed.

Lemma in_range_iff (a b y : Z) : In y (range a b) <-> (a <= y < b)%Z.
Proof.
  unfold range. rewrite in_map_iff. split.
  - intros [i [<- Hi]]. apply in_seq in Hi. lia.
  - intros H. exists (Z.to_nat (y - a)). split; [lia|]. apply in_seq. lia.
Qed.

Lemma length_range (a b : Z) : List.length (range a b) = Z.to_nat (b - a).
Proof. unfold range. rewrite length_map, length_seq. reflexivity. Qed.

Lemma NoDup_range (a b : Z) : NoDup (range a b).
Proof.
  unfold range. apply NoDup_map_NoDup_ForallPairs; [|apply seq_NoDup].
  intros i j _ _ H. lia.
Qed.

(** On a series whose index has no repeated year, [float_get] with default 0
    returns the flow of the year. *)
Lemma filter_key_NoDup (s : Series) (y : Z) :
  NoDup (map fst s) ->
  filter (fun kv => (fst kv =? y)%Z) s =
  match find (fun kv => (fst kv =? y)%Z) s with
  | Some kv => [kv]
  | None => []
  end.
Proof.
  induction s as [|kv s IH]; intros Hnd; [reflexivity|].
  inversion Hnd as [|? ? Hnotin Hnd']; subst. simpl.
  destruct (Z.eqb_spec (fst kv) y) as [E|E].
  - f_equal. rewrite IH by assumption.
    destruct (find _ s) as [kv'|] eqn:Hf; [|reflexivity].
    apply find_some in Hf. destruct Hf as [Hin Hk].
    apply Z.eqb_eq in Hk. exfalso. apply Hnotin.
    rewrite E, <- Hk. apply in_map. exact Hin.
  - apply IH. assumption.
Qed.

Lemma float_get_NoDup (s : Series) (y : Z) :
  NoDup (map fst s) -> float_get s y 0 = inr (flow_at s y).
Proof.
  intros Hnd. unfold float_get, flow_at. rewrite filter_key_NoDup by assumption.
  destruct (find _ s); reflexivity.
Qed.

Lemma float_get_error (s : Series) (y : Z) (d : Q) (e : exn) :
  float_get s y d = inl e ->
  e = TypeError "cannot convert the series to <class 'float'>".
Proof.
  unfold float_get. destruct (filter _ s) as [|kv [|kv' l]]; try discriminate.
  intros [= <-]. reflexivity.
Qed.

Lemma fold_max_spec (l : list Z) (y : Z) :
  In (fold_left Z.max l y) (y :: l) /\
  (forall x, In x (y :: l) -> (x <= fold_left Z.max l y)%Z).
Proof.
  revert y. induction l as [|z l IH]; intros y; simpl.
  - split; [now left|]. intros x [<-|[]]. lia.
  - destruct (IH (Z.max y z)) as [Hin Hle]. split.
    + destruct Hin as [E|Hin]; [|right; right; exact Hin].
      destruct (Z.max_spec y z) as [[_ M]|[_ M]]; rewrite M in E |- *;
        [right; left; exact E | left; exact E].
    + intros x Hx.
      pose proof (Hle (Z.max y z) (or_introl eq_refl)) as Hm.
      destruct Hx as [E|[E|Hx]]; [lia | lia | apply Hle; right; exact Hx].
Qed.

Lemma column_max_spec (l : list Z) (m : Z) :
  column_max l = Some m -> In m l /\ (forall x, In x l -> (x <= m)%Z).
Proof.
  destruct l as [|y l]; [discriminate|]. simpl. intros [= <-].
  apply fold_max_spec.
Qed.

Lemma column_max_nonempty (l : list Z) : l <> [] -> exists m, column_max l = Some m.
Proof. destruct l; [congruence|]. intros _. eexists. reflexivity. Qed.

(** ** Inventory evolution *)

Module SecondarySupplyFacts.
Import SecondarySupply InventoryVocabulary InventoryMoreVocabulary.
Local Open Scope Q_scope.

(** *** The seed row: [sort_values("year").iloc[-1]] *)

Lemma in_insert_by_year (r x : InventoryRow) (l : list InventoryRow) :
  In x (insert_by_year r l) <-> x = r \/ In x l.
Proof.
  induction l as [|h t IH]; simpl.
  - intuition.
  - destruct (year r <=? year h)%Z; simpl; [intuition|].
    rewrite IH. intuition.
Qed.

Lemma in_sort_values_year (x : InventoryRow) (df : list InventoryRow) :
  In x (sort_values_year df) <-> In x df.
Proof.
  induction df as [|r df IH]; simpl; [tauto|].
  rewrite in_insert_by_year, IH. intuition.
Qed.

Lemma insert_by_year_nonempty (r : InventoryRow) (l : list InventoryRow) :
  insert_by_year r l <> [].
Proof. destruct l; simpl; [|destruct (_ <=? _)%Z]; discriminate. Qed.

Lemma iloc_last_cons {A : Type} (h : A) (t : list A) :
  t <> [] -> iloc_last (h :: t) = iloc_last t.
Proof. destruct t; [congruence | reflexivity]. Qed.

Lemma iloc_last_in {A : Type} (l : list A) (m : A) :
  iloc_last l = Some m -> In m l.
Proof.
  induction l as [|h t IH]; [discriminate|].
  destruct t as [|h' t'].
  - simpl. intros [= <-]. now left.
  - rewrite iloc_last_cons by discriminate. intros H. right. apply IH. exact H.
Qed.

Lemma iloc_last_insert (r : InventoryRow) (l : list InventoryRow) :
  (l = [] \/ exists m, iloc_last l = Some m /\ latest m l) ->
  exists m, iloc_last (insert_by_year r l) = Some m /\ latest m (r :: l).
Proof.
  induction l as [|h t IH]; intros Hl.
  - exists r. split; [reflexivity|]. split; [now left|].
    intros x [<-|[]]. lia.
  - destruct Hl as [Hl|[m [Hm [Hin Hmax]]]]; [discriminate|]. simpl insert_by_year.
    destruct (Z.leb_spec (year r) (year h)) as [Hle|Hgt].
    + exists m. split; [exact Hm|]. split; [now right|].
      intros x [<-|Hx]; [|now apply Hmax].
      specialize (Hmax h (or_introl eq_refl)). lia.
    + rewrite iloc_last_cons by apply insert_by_year_nonempty.
      destruct IH as [m' [Hm' [Hin' Hmax']]].
      { destruct t as [|h' t']; [now left|]. right. exists m.
        rewrite iloc_last_cons in Hm by discriminate. split; [exact Hm|].
        split; [apply iloc_last_in; exact Hm|].
        intros x Hx. apply Hmax. now right. }
      exists m'. split; [exact Hm'|]. split.
      * destruct Hin' as [<-|Hin']; [now left | now right; right].
      * intros x [<-|[<-|Hx]].
        -- apply Hmax'. now left.
        -- specialize (Hmax' r (or_introl eq_refl)). lia.
        -- apply Hmax'. now right.
Qed.

(** The seed of a non-empty series is one of its most recent rows. *)
Lemma seed_is_latest (df : list InventoryRow) :
  df <> [] ->
  exists seed, iloc_last (sort_values_year df) = Some seed /\ latest seed df.
Proof.
  induction df as [|r df IH]; [congruence|]. intros _.
  simpl sort_values_year.
  destruct (iloc_last_insert r (sort_values_year df)) as [m [Hm [Hin Hmax]]].
  - destruct df as [|r' df']; [now left|]. right.
    destruct IH as [m [Hm [Hin Hmax]]]; [discriminate|].
    exists m. split; [exact Hm|]. split.
    + apply in_sort_values_year. exact Hin.
    + intros x Hx. apply Hmax. apply in_sort_values_year. exact Hx.
  - exists m. split; [exact Hm|]. split.
    + destruct Hin as [<-|Hin]; [now left|]. right.
      apply in_sort_values_year. exact Hin.
    + intros x [<-|Hx]; apply Hmax; [now left|]. right.
      apply in_sort_values_year. exact Hx.
Qed.

(** [initial_inventories["year"].max()] is the year of the seed. *)
Lemma max_year_is_seed_year (df : list InventoryRow) (seed : InventoryRow) :
  latest seed df -> column_max (map year df) = Some (year seed).
Proof.
  intros [Hin Hmax].
  destruct (column_max_nonempty (map year df)) as [m Hm].
  { destruct df; [destruct Hin | discriminate]. }
  rewrite Hm. f_equal.
  apply column_max_spec in Hm. destruct Hm as [Hm1 Hm2].
  apply in_map_iff in Hm1. destruct Hm1 as [r [<- Hr]].
  specialize (Hmax r Hr). specialize (Hm2 (year seed) (in_map year df seed Hin)).
  lia.
Qed.

(** *** The yearly loop *)

Section Loop.
Variables primary_series secondary_series demand_series scenario : Series.

Hypothesis primary_keyed : NoDup (map fst primary_series).
Hypothesis secondary_keyed : NoDup (map fst secondary_series).
Hypothesis demand_keyed : NoDup (map fst demand_series).
Hypothesis scenario_keyed : NoDup (map fst scenario).

Lemma evolve_loop_scan (stock : Q) (years : list Z) :
  evolve_loop primary_series secondary_series demand_series scenario stock years
  = inr (scan primary_series secondary_series demand_series scenario stock years).
Proof.
  revert stock. induction years as [|t rest IH]; intros stock; [reflexivity|].
  simpl. rewrite !float_get_NoDup by assumption. simpl.
  fold (advance primary_series secondary_series demand_series scenario stock t).
  rewrite IH. reflexivity.
Qed.

(** The loop can only fail on a year that labels several rows of a source. *)
Lemma evolve_loop_error (stock : Q) (years : list Z) (e : exn) :
  evolve_loop primary_series secondary_series demand_series scenario stock years
  = inl e ->
  e = TypeError "cannot convert the series to <class 'float'>".
Proof using Type.
  revert stock. induction years as [|t rest IH]; intros stock; [discriminate|].
  simpl.
  destruct (float_get primary_series t 0) as [e1|v1] eqn:E1;
    [intros [= <-]; exact (float_get_error _ _ _ _ E1)|].
  destruct (float_get secondary_series t 0) as [e2|v2] eqn:E2;
    [intros [= <-]; exact (float_get_error _ _ _ _ E2)|].
  destruct (float_get demand_series t 0) as [e3|v3] eqn:E3;
    [intros [= <-]; exact (float_get_error _ _ _ _ E3)|].
  destruct (float_get scenario t 0) as [e4|v4] eqn:E4;
    [intros [= <-]; exact (float_get_error _ _ _ _ E4)|].
  simpl.
  destruct (evolve_loop _ _ _ _ _ rest) as [e5|rows] eqn:E5; [|discriminate].
  intros [= <-]. exact (IH _ E5).
Qed.

End Loop.

(** *** Reading a year of a series *)

Lemma find_of_filter (s : Series) (y : Z) :
  find (fun kv => (fst kv =? y)%Z) s
  = match filter (fun kv => (fst kv =? y)%Z) s with
    | [] => None
    | kv :: _ => Some kv
    end.
Proof.
  induction s as [|kv s IH]; simpl; [reflexivity|].
  destruct (fst kv =? y)%Z; [reflexivity | exact IH].
Qed.

Lemma float_get_inv (s : Series) (y : Z) (v : Q) :
  float_get s y 0 = inr v -> v = flow_at s y /\ (rows_at s y <= 1)%nat.
Proof.
  unfold float_get, flow_at, rows_at. rewrite find_of_filter.
  destruct (filter _ s) as [|kv [|kv' l]]; try discriminate;
    intros [= <-]; split; simpl; try reflexivity; lia.
Qed.

Lemma float_get_single (s : Series) (y : Z) :
  (rows_at s y <= 1)%nat -> float_get s y 0 = inr (flow_at s y).
Proof.
  unfold float_get, flow_at, rows_at. rewrite find_of_filter.
  destruct (filter _ s) as [|kv [|kv' l]]; simpl; intros H;
    try reflexivity; lia.
Qed.

Lemma float_get_many (s : Series) (y : Z) :
  (1 < rows_at s y)%nat ->
  float_get s y 0 = inl (TypeError "cannot convert the series to <class 'float'>").
Proof.
  unfold float_get, rows_at.
  destruct (filter _ s) as [|kv [|kv' l]]; simpl; intros H;
    try reflexivity; lia.
Qed.

Section LoopMore.
Variables primary_series secondary_series demand_series scenario : Series.

(** A loop that returns has read single rows, and its rows are the scan. *)
Lemma evolve_loop_inv (years : list Z) :
  forall stock rows,
    evolve_loop primary_series secondary_series demand_series scenario stock years
    = inr rows ->
    rows = scan primary_series secondary_series demand_series scenario stock years
    /\ forall y, In y years ->
         all_single primary_series secondary_series demand_series scenario y.
Proof.
  induction years as [|t rest IH]; intros stock rows; simpl.
  - intros [= <-]. split; [reflexivity | intros y []].
  - destruct (float_get primary_series t 0) as [e|v1] eqn:E1; [discriminate|].
    destruct (float_get secondary_series t 0) as [e|v2] eqn:E2; [discriminate|].
    destruct (float_get demand_series t 0) as [e|v3] eqn:E3; [discriminate|].
    destruct (float_get scenario t 0) as [e|v4] eqn:E4; [discriminate|].
    simpl.
    destruct (evolve_loop _ _ _ _ _ rest) as [e|rows'] eqn:E5; [discriminate|].
    simpl. intros [= <-].
    apply float_get_inv in E1, E2, E3, E4.
    destruct E1 as [-> S1], E2 as [-> S2], E3 as [-> S3], E4 as [-> S4].
    destruct (IH _ _ E5) as [-> Hall]. split; [reflexivity|].
    intros y [<-|Hy]; [repeat split; assumption | apply Hall; exact Hy].
Qed.

Lemma evolve_loop_single (years : list Z) :
  (forall y, In y years ->
     all_single primary_series secondary_series demand_series scenario y) ->
  forall stock,
    evolve_loop primary_series secondary_series demand_series scenario stock years
    = inr (scan primary_series secondary_series demand_series scenario stock years).
Proof.
  induction years as [|t rest IH]; intros Hall stock; [reflexivity|].
  destruct (Hall t (or_introl eq_refl)) as (S1 & S2 & S3 & S4).
  simpl. rewrite !float_get_single by assumption. simpl.
  rewrite IH by (intros y Hy; apply Hall; now right). reflexivity.
Qed.

End LoopMore.

Lemma scan_years (p s d c : Series) (stock : Q) (years : list Z) :
  map year (scan p s d c stock years) = years.
Proof.
  revert stock. induction years as [|t rest IH]; intros stock; simpl;
    [|rewrite IH]; reflexivity.
Qed.

Lemma stock_at_cons_other (r : InventoryRow) (rows : list InventoryRow) (t : Z) :
  year r <> t -> stock_at (r :: rows) t = stock_at rows t.
Proof.
  intros H. unfold stock_at. simpl.
  destruct (Z.eqb_spec (year r) t); [contradiction | reflexivity].
Qed.



Lemma set_index_year_keys {A : Type} (yr : A -> Z) (col : A -> Q) (df : list A) :
  map fst (set_index_year yr col df) = map yr df.
Proof. unfold set_index_year. rewrite map_map. reflexivity. Qed.

(** With a non-empty series the call is the loop started from the seed. *)
Lemma evolve_inventories_from_seed
    (initial_inventories : list InventoryRow)
    (primary_supply_year : list PrimarySupplyYear)
    (secondary_supply_year : list SecondarySupplyYear)
    (feed_demand_year : list FeedDemandYear)
    (inventory_scenarios : option (list InventoryScenario)) :
  initial_inventories <> [] ->
  exists seed,
    latest seed initial_inventories /\
    evolve_inventories initial_inventories primary_supply_year
      secondary_supply_year feed_demand_year inventory_scenarios =
    bind (int_of_float (column_max (map fd_year feed_demand_year)))
      (fun end_year =>
         evolve_loop
           (set_index_year ps_year primary_supply_tu primary_supply_year)
           (set_index_year ss_year secondary_supply_tu secondary_supply_year)
           (set_index_year fd_year feed_tu feed_demand_year)
           (scenario_series inventory_scenarios)
           (inventory_tu seed) (range (year seed + 1) (end_year + 1))).
Proof.
  intros Hne.
  destruct (seed_is_latest initial_inventories Hne) as [seed [Hseed Hlatest]].
  exists seed. split; [exact Hlatest|].
  unfold evolve_inventories.
  destruct initial_inventories as [|r0 df]; [congruence|].
  rewrite Hseed. rewrite (max_year_is_seed_year _ _ Hlatest).
  reflexivity.
Qed.










(** An empty series raises whatever the other arguments are. *)
Lemma evolve_inventories_empty_series
    (primary_supply_year : list PrimarySupplyYear)
    (secondary_supply_year : list SecondarySupplyYear)
    (feed_demand_year : list FeedDemandYear)
    (inventory_scenarios : option (list InventoryScenario)) :
  evolve_inventories [] primary_supply_year secondary_supply_year
    feed_demand_year inventory_scenarios = inl seed_missing.
Proof. reflexivity. Qed.

(** The seed row does not protect against other failures: an empty
    feed-demand panel has no greatest year, and a year that labels two rows
    of a source cannot be read as a float. *)
Lemma evolve_inventories_empty_feed_demand :
  evolve_inventories example_initial example_primary example_secondary [] None
  = inl (ValueError "cannot convert float NaN to integer").
Proof. reflexivity. Qed.

Lemma evolve_inventories_repeated_year :
  evolve_inventories example_initial
    [mkPrimarySupplyYear 2021 10; mkPrimarySupplyYear 2021 1]
    example_secondary example_feed None
  = inl (TypeError "cannot convert the series to <class 'float'>").
Proof. reflexivity. Qed.

End SecondarySupplyFacts.

(** ** Primary supply *)

Module PrimarySupplyFacts.
Import PrimarySupply MineGridVocabulary.
Local Open Scope Q_scope.

Lemma in_unique (x : Z) (l : list Z) : In x (unique l) <-> In x l.
Proof.
  induction l as [|a l IH]; simpl; [tauto|].
  rewrite filter_In, IH. destruct (Z.eqb_spec x a) as [->|Hne]; simpl.
  - intuition.
  - intuition congruence.
Qed.

Lemma NoDup_unique (l : list Z) : NoDup (unique l).
Proof.
  induction l as [|a l IH]; simpl; constructor.
  - rewrite filter_In. intros [_ H]. rewrite Z.eqb_refl in H. discriminate.
  - apply NoDup_filter. exact IH.
Qed.

Lemma NoDup_list_prod {A B : Type} (l : list A) (l' : list B) :
  NoDup l -> NoDup l' -> NoDup (list_prod l l').
Proof.
  intros Hl Hl'. induction Hl as [|x l Hx Hl IH]; simpl; [constructor|].
  apply NoDup_app.
  - apply NoDup_map_NoDup_ForallPairs; [|exact Hl'].
    intros b b' _ _ [= E]. exact E.
  - exact IH.
  - intros [a b] Hin Hin'. apply in_map_iff in Hin.
    destruct Hin as [b' [[= <- <-] _]].
    apply in_prod_iff in Hin'. destruct Hin' as [Hin' _]. contradiction.
Qed.

(** The rows kept in [base] come from one of the two input tables. *)
Lemma base_rows_subset
    (mine_production : list MineProduction)
    (mine_scenarios : option (list MineProduction))
    (start_year end_year : Z) (h : MineProduction) :
  In h (base_rows mine_production mine_scenarios start_year end_year) ->
  In h mine_production \/ In h (scenario_rows mine_scenarios).
Proof.
  unfold base_rows, scenario_rows.
  set (scen := match mine_scenarios with Some df => df | None => [] end).
  assert (Hhist : forall x,
             In x (if negb (is_empty mine_production)
                   then filter (in_range start_year end_year) mine_production
                   else []) -> In x mine_production).
  { intros x. destruct mine_production; simpl; [tauto|].
    intros Hx. apply (proj1 (filter_In _ x (_ :: _))) in Hx. tauto. }
  destruct scen as [|r df]; cbn [is_empty negb].
  - intros Hh. left. apply Hhist. exact Hh.
  - destruct (filter (in_range start_year end_year) (r :: df)) as [|r' df'] eqn:E;
      cbn [is_empty negb].
    + intros Hh. left. apply Hhist. exact Hh.
    + intros Hh. apply in_app_or in Hh. destruct Hh as [Hh|Hh].
      * left. apply Hhist. exact Hh.
      * right. rewrite <- E in Hh. apply filter_In in Hh. tauto.
Qed.

Lemma reindexed_sum_fill (base : list MineProduction) (mine y : Z) :
  (forall h, In h base -> ~ (mp_mine_id h = mine /\ mp_year h = y)) ->
  reindexed_sum base mine y = 0.
Proof.
  intros H. unfold reindexed_sum.
  destruct (filter (at_key mine y) base) as [|h rows] eqn:E; [reflexivity|].
  exfalso. assert (Hin : In h (filter (at_key mine y) base)) by (rewrite E; now left).
  apply filter_In in Hin. destruct Hin as [Hin Hk].
  unfold at_key in Hk. apply andb_true_iff in Hk. destruct Hk as [K1 K2].
  apply Z.eqb_eq in K1, K2. exact (H h Hin (conj K1 K2)).
Qed.

Lemma keys_of_template (f : Z * Z -> Q) (g : Z * Z -> option string)
    (template : list (Z * Z)) :
  keys (map (fun key => mkMineYear (fst key) (snd key) (f key) (g key)) template)
  = template.
Proof.
  induction template as [|[mine y] l IH]; simpl; [reflexivity|].
  f_equal. exact IH.
Qed.

(** C8.  Dense mine grid.  For a non-empty mine master table the mine-level
    output has exactly |distinct mines| x |years in range| rows, its keys are
    the pairs (mine_id, year) of a master mine and a year of the range, each
    pair once, and a pair with no row in the historical table and none in the
    scenario table has production_tu 0. *)
Theorem dense_mine_grid
    (mines : list Mine) (mine_production : list MineProduction)
    (mine_scenarios : option (list MineProduction)) (start_year end_year : Z) :
  mines <> [] ->
  let mine_year :=
    fst (build_primary_supply mines mine_production mine_scenarios
           start_year end_year) in
  let distinct_mines := unique (map mine_id mines) in
  List.length mine_year
  = (List.length distinct_mines * Z.to_nat (end_year - start_year + 1))%nat /\
  NoDup distinct_mines /\
  (forall mine, In mine distinct_mines <-> In mine (map mine_id mines)) /\
  NoDup (keys mine_year) /\
  (forall mine y,
      In (mine, y) (keys mine_year) <->
      In mine (map mine_id mines) /\ (start_year <= y <= end_year)%Z) /\
  (forall r, In r mine_year ->
      ~ has_row mine_production (my_mine_id r) (my_year r) ->
      ~ has_row (scenario_rows mine_scenarios) (my_mine_id r) (my_year r) ->
      production_tu r = 0).
Proof.
  intros Hne. destruct mines as [|m0 mines]; [congruence|]. clear Hne.
  unfold build_primary_supply. cbn [is_empty negb fst].
  set (ids := unique (map mine_id (m0 :: mines))).
  set (years := range start_year (end_year + 1)).
  set (base := base_rows mine_production mine_scenarios start_year end_year).
  rewrite keys_of_template.
  split; [|split; [|split; [|split; [|split]]]].
  - rewrite length_map, length_prod. unfold years. rewrite length_range.
    f_equal. lia.
  - apply NoDup_unique.
  - intros mine. apply in_unique.
  - apply NoDup_list_prod; [apply NoDup_unique | apply NoDup_range].
  - intros mine y. rewrite in_prod_iff. unfold ids, years.
    rewrite in_unique, in_range_iff. intuition lia.
  - intros r Hr Hhist Hscen. apply in_map_iff in Hr.
    destruct Hr as [[mine y] [<- _]]. cbn [my_mine_id my_year production_tu fst snd] in *.
    apply reindexed_sum_fill. intros h Hh [K1 K2].
    destruct (base_rows_subset _ _ _ _ _ Hh) as [Hsrc|Hsrc].
    + apply Hhist. exists h. auto.
    + apply Hscen. exists h. auto.
Qed.

Lemma dense_mine_grid_witness :
  let mine_year :=
    fst (build_primary_supply example_mines example_production
           example_scenarios 2020 2022) in
  let distinct_mines := unique (map mine_id example_mines) in
  List.length mine_year
  = (List.length distinct_mines * Z.to_nat (2022 - 2020 + 1))%nat /\
  NoDup distinct_mines /\
  (forall mine, In mine distinct_mines <-> In mine (map mine_id example_mines)) /\
  NoDup (keys mine_year) /\
  (forall mine y,
      In (mine, y) (keys mine_year) <->
      In mine (map mine_id example_mines) /\ (2020 <= y <= 2022)%Z) /\
  (forall r, In r mine_year ->
      ~ has_row example_production (my_mine_id r) (my_year r) ->
      ~ has_row (scenario_rows example_scenarios) (my_mine_id r) (my_year r) ->
      production_tu r = 0).
Proof.
  apply (dense_mine_grid example_mines example_production example_scenarios 2020 2022).
  discriminate.
Defined.

(** The example grid: two distinct mines over three years, six rows, with
    the scenario tonnage of 2021 added to the historical one. *)
Example dense_mine_grid_example :
  map (fun r => (my_mine_id r, my_year r, production_tu r))
    (fst (build_primary_supply example_mines example_production
            example_scenarios 2020 2022))
  = [(7%Z, 2020%Z, 10); (7%Z, 2021%Z, 12.5); (7%Z, 2022%Z, 0);
     (3%Z, 2020%Z, 0); (3%Z, 2021%Z, 0); (3%Z, 2022%Z, 0)].
Proof. reflexivity. Qed.

End PrimarySupplyFacts.

(** ** Reactor demand *)

Module DemandFacts.
Import Demand DemandVocabulary.
Local Open Scope Q_scope.

Section OneReactor.
Variable reactor_generation : list Generation.
Variable reactor_fuel_params : list FuelParams.
Variable r : Reactor.
Variable start : Z.

(** What the loop body writes into the three columns of interest. *)
Lemma demand_row_fields (y : Z) (row : ReactorDemand) :
  demand_row reactor_generation reactor_fuel_params r start y = inr row ->
  rd_reactor_id row = reactor_id r /\
  year row = y /\
  first_core_tu row
  = if (y =? start)%Z then first_core_charge reactor_fuel_params r else 0.
Proof.
  unfold demand_row.
  destruct (capacity_factor _ _ _ _ _) as [e|cf]; [discriminate|].
  simpl. intros [= <-]. simpl. repeat split.
  unfold first_core_charge. destruct (net_mwe r); reflexivity.
Qed.

(** The rows of one reactor: consecutive years from the first of the range,
    each row with the reactor's id and with a first core only in [start]. *)
Lemma year_loop_rows (shutdown : Z) (years : list Z) :
  forall rows,
    year_loop reactor_generation reactor_fuel_params r start shutdown years
    = inr rows ->
    (exists k, map year rows = firstn k years) /\
    Forall (fun row =>
              rd_reactor_id row = reactor_id r /\
              first_core_tu row
              = if (year row =? start)%Z
                then first_core_charge reactor_fuel_params r else 0) rows.
Proof.
  induction years as [|y rest IH]; intros rows; simpl.
  - intros [= <-]. split; [exists 0%nat; reflexivity | constructor].
  - destruct (y >? shutdown)%Z.
    + intros [= <-]. split; [exists 0%nat; reflexivity | constructor].
    + destruct (demand_row _ _ _ _ y) as [e|row] eqn:Erow; [discriminate|].
      simpl.
      destruct (year_loop _ _ _ _ _ rest) as [e|rows'] eqn:Erest; [discriminate|].
      simpl. intros [= <-].
      destruct (IH rows' eq_refl) as [[k Hk] Hall].
      apply demand_row_fields in Erow. destruct Erow as (Hid & Hy & Hfc).
      split.
      * exists (S k). simpl. rewrite Hy, Hk. reflexivity.
      * constructor; [|exact Hall]. split; [exact Hid|].
        rewrite Hy. exact Hfc.
Qed.

(** A first year that is not after the shutdown gets its row. *)
Lemma year_loop_first_row (shutdown y : Z) (rest : list Z) (rows : list ReactorDemand) :
  year_loop reactor_generation reactor_fuel_params r start shutdown (y :: rest)
  = inr rows ->
  (y <= shutdown)%Z ->
  exists row rows', rows = row :: rows' /\ year row = y.
Proof.
  simpl. intros H Hle.
  destruct (Z.gtb_spec y shutdown) as [Hgt|_]; [lia|].
  destruct (demand_row _ _ _ _ y) as [e|row] eqn:Erow; [discriminate|].
  simpl in H.
  destruct (year_loop _ _ _ _ _ rest) as [e|rows'] eqn:Erest; [discriminate|].
  simpl in H. injection H as <-.
  exists row, rows'. split; [reflexivity|].
  apply demand_row_fields in Erow. tauto.
Qed.

End OneReactor.

Lemma NoDup_firstn {A : Type} (k : nat) (l : list A) : NoDup l -> NoDup (firstn k l).
Proof.
  intros H. rewrite <- (firstn_skipn k l) in H.
  apply NoDup_app_remove_r in H. exact H.
Qed.

(** The rows of one reactor with a commissioning year. *)
Lemma reactor_rows_spec (gen : list Generation) (fp : list FuelParams)
    (start_year end_year : Z) (r : Reactor) (Y : Z) (rows : list ReactorDemand) :
  commercial_operation_date r = Some Y ->
  reactor_rows gen fp start_year end_year r = inr rows ->
  NoDup (map year rows) /\
  Forall (fun row =>
            rd_reactor_id row = reactor_id r /\
            first_core_tu row
            = if (year row =? Y)%Z then first_core_charge fp r else 0) rows.
Proof.
  intros HY. unfold reactor_rows. rewrite HY. simpl. intros H.
  apply year_loop_rows in H. destruct H as [[k Hk] Hall].
  split; [|exact Hall].
  rewrite Hk. apply NoDup_firstn. apply NoDup_range.
Qed.

Lemma reactor_rows_commissioning_row (gen : list Generation) (fp : list FuelParams)
    (start_year end_year : Z) (r : Reactor) (Y : Z) (rows : list ReactorDemand) :
  commercial_operation_date r = Some Y ->
  reactor_rows gen fp start_year end_year r = inr rows ->
  (start_year <= Y <= end_year)%Z ->
  (Y <= shutdown_year end_year r)%Z ->
  exists row, In row rows /\ year row = Y.
Proof.
  intros HY. unfold reactor_rows. rewrite HY. simpl. intros H Hrange Hshut.
  rewrite Z.max_l in H by lia. rewrite range_cons in H by lia.
  apply year_loop_first_row in H; [|exact Hshut].
  destruct H as (row & rows' & -> & Hy). exists row. split; [now left | exact Hy].
Qed.

(** The output is the concatenation of the reactors' rows; with distinct
    reactor ids, the rows carrying the id of [r] are the rows of [r]. *)
Lemma iterrows_ids (gen : list Generation) (fp : list FuelParams)
    (start_year end_year : Z) (reactors : list Reactor) :
  forall out,
    iterrows gen fp start_year end_year reactors = inr out ->
    forall row, In row out -> In (rd_reactor_id row) (map reactor_id reactors).
Proof.
  induction reactors as [|r0 rest IH]; intros out; simpl.
  - intros [= <-] row [].
  - destruct (reactor_rows gen fp start_year end_year r0) as [e|rows0] eqn:E0;
      [discriminate|]. simpl.
    destruct (iterrows gen fp start_year end_year rest) as [e|more] eqn:E1;
      [discriminate|]. simpl.
    intros [= <-] row Hin. apply in_app_or in Hin. destruct Hin as [Hin|Hin].
    + left. unfold reactor_rows in E0.
      destruct (commercial_operation_date r0) as [Y0|]; [|discriminate].
      simpl in E0. apply year_loop_rows in E0. destruct E0 as [_ Hall].
      rewrite Forall_forall in Hall. symmetry. apply Hall. exact Hin.
    + right. exact (IH more eq_refl row Hin).
Qed.

Lemma filter_none {A : Type} (f : A -> bool) (l : list A) :
  (forall x, In x l -> f x = false) -> filter f l = [].
Proof.
  induction l as [|a l IH]; intros H; simpl; [reflexivity|].
  rewrite (H a (or_introl eq_refl)). apply IH. intros x Hx. apply H. now right.
Qed.

Lemma filter_all {A : Type} (f : A -> bool) (l : list A) :
  (forall x, In x l -> f x = true) -> filter f l = l.
Proof.
  induction l as [|a l IH]; intros H; simpl; [reflexivity|].
  rewrite (H a (or_introl eq_refl)). f_equal. apply IH. intros x Hx. apply H. now right.
Qed.

Lemma iterrows_rows_of (gen : list Generation) (fp : list FuelParams)
    (start_year end_year : Z) (reactors : list Reactor) (r : Reactor) :
  forall out,
    iterrows gen fp start_year end_year reactors = inr out ->
    NoDup (map reactor_id reactors) ->
    In r reactors ->
    reactor_rows gen fp start_year end_year r = inr (filter (row_of r) out).
Proof.
  induction reactors as [|r0 rest IH]; intros out Hout Hnd Hin; [destruct Hin|].
  simpl in Hout.
  destruct (reactor_rows gen fp start_year end_year r0) as [e|rows0] eqn:E0;
    [discriminate|]. simpl in Hout.
  destruct (iterrows gen fp start_year end_year rest) as [e|more] eqn:E1;
    [discriminate|]. simpl in Hout. injection Hout as <-.
  simpl in Hnd. inversion Hnd as [|? ? Hnotin Hnd']; subst.
  assert (Hrows0 : forall row, In row rows0 -> rd_reactor_id row = reactor_id r0).
  { intros row Hrow.
    pose proof (iterrows_ids gen fp start_year end_year [r0] (rows0 ++ [])) as H.
    simpl in H. rewrite E0 in H. simpl in H.
    specialize (H eq_refl row). rewrite app_nil_r in H.
    destruct (H Hrow) as [K|[]]. symmetry. exact K. }
  rewrite filter_app. destruct Hin as [->|Hin].
  - rewrite (filter_all (row_of r) rows0).
    + rewrite (filter_none (row_of r) more); [rewrite app_nil_r; exact E0|].
      intros row Hrow. unfold row_of. apply Z.eqb_neq. intros K.
      apply Hnotin. rewrite <- K.
      exact (iterrows_ids gen fp start_year end_year rest more E1 row Hrow).
    + intros row Hrow. unfold row_of. apply Z.eqb_eq. apply Hrows0. exact Hrow.
  - rewrite (filter_none (row_of r) rows0).
    + simpl. apply IH; [reflexivity | assumption | assumption].
    + intros row Hrow. unfold row_of. apply Z.eqb_neq. rewrite (Hrows0 row Hrow).
      intros K. apply Hnotin. rewrite K. apply in_map. exact Hin.
Qed.

(** At most one element of a list without repeated keys has a given key. *)
Lemma at_most_one_with_key {A : Type} (key : A -> Z) (c : Z) (p : A -> bool)
    (l : list A) :
  NoDup (map key l) ->
  (forall x, In x l -> p x = true -> key x = c) ->
  (List.length (filter p l) <= 1)%nat.
Proof.
  induction l as [|a l IH]; intros Hnd Hp; simpl; [lia|].
  inversion Hnd as [|? ? Hnotin Hnd']; subst.
  assert (IH' := IH Hnd' (fun x Hx => Hp x (or_intror Hx))).
  destruct (p a) eqn:Ea; [|lia]. simpl.
  rewrite (filter_none p l); [simpl; lia|].
  intros x Hx. destruct (p x) eqn:Ex; [|reflexivity].
  exfalso. apply Hnotin.
  rewrite (Hp a (or_introl eq_refl) Ea), <- (Hp x (or_intror Hx) Ex).
  apply in_map. exact Hx.
Qed.

Lemma filter_andb {A : Type} (f g : A -> bool) (l : list A) :
  filter (fun x => f x && g x) l = filter g (filter f l).
Proof.
  induction l as [|a l IH]; simpl; [reflexivity|].
  destruct (f a); simpl; [destruct (g a)|]; rewrite IH; reflexivity.
Qed.

(** The output is the concatenation, in fleet order, of the rows that each
    pass of the loop over the fleet appends. *)
Lemma iterrows_blocks (gen : list Generation) (fp : list FuelParams)
    (start_year end_year : Z) (reactors : list Reactor) :
  forall out,
    iterrows gen fp start_year end_year reactors = inr out ->
    exists blocks,
      out = List.concat blocks /\
      Forall2 (fun r rows => reactor_rows gen fp start_year end_year r = inr rows)
        reactors blocks.
Proof.
  induction reactors as [|r0 rest IH]; intros out; simpl.
  - intros [= <-]. exists []. split; [reflexivity | constructor].
  - destruct (reactor_rows gen fp start_year end_year r0) as [e|rows0] eqn:E0;
      [discriminate|]. simpl.
    destruct (iterrows gen fp start_year end_year rest) as [e|more] eqn:E1;
      [discriminate|]. simpl.
    intros [= <-]. destruct (IH more eq_refl) as (blocks & -> & Hall).
    exists (rows0 :: blocks). split; [reflexivity|].
    constructor; [exact E0 | exact Hall].
Qed.

(** A pass of the loop that returns read a commissioning year. *)
Lemma reactor_rows_start (gen : list Generation) (fp : list FuelParams)
    (start_year end_year : Z) (r : Reactor) (rows : list ReactorDemand) :
  reactor_rows gen fp start_year end_year r = inr rows ->
  exists Y, commercial_operation_date r = Some Y.
Proof.
  unfold reactor_rows.
  destruct (commercial_operation_date r) as [Y|]; [eexists; reflexivity|].
  discriminate.
Qed.

(** C6.  First-core timing.  The output is the concatenation, in fleet
    order, of one block of rows per reactor of the fleet.  In the block of a
    reactor commissioned in year Y every row carries the reactor's id, no
    year occurs twice, first_core_tu is 0 in every row outside year Y and
    first-core factor x net GWe in the row of year Y, a strictly positive
    first_core_tu occurs only in that row, at most one row of the block
    carries a first-core charge, and when Y lies in the requested range the
    row of year Y exists unless the reactor is shut down before Y. *)
Theorem first_core_timing
    (reactor_master : ReactorFrame)
    (reactor_generation : list Generation)
    (reactor_fuel_params : list FuelParams)
    (reactor_life_scenarios : option (list LifeScenario))
    (newbuild_projects : option (list NewbuildProject))
    (start_year end_year : Z) (scenario_name : string)
    (reactors : ReactorFrame) (out : list ReactorDemand) :
  fleet reactor_master reactor_life_scenarios newbuild_projects scenario_name
  = inr reactors ->
  compute_reactor_demand reactor_master reactor_generation reactor_fuel_params
    reactor_life_scenarios newbuild_projects start_year end_year scenario_name
  = inr out ->
  exists blocks,
    out = List.concat blocks /\
    Forall2
      (fun r rows =>
         exists Y,
           commercial_operation_date r = Some Y /\
           (forall row, In row rows -> rd_reactor_id row = reactor_id r) /\
           NoDup (map year rows) /\
           (forall row, In row rows -> year row <> Y -> first_core_tu row = 0) /\
           (forall row, In row rows -> year row = Y ->
                        first_core_tu row
                        = first_core_charge reactor_fuel_params r) /\
           (forall row, In row rows -> 0 < first_core_tu row -> year row = Y) /\
           (List.length (filter charged rows) <= 1)%nat /\
           ((start_year <= Y <= end_year)%Z ->
            (Y <= shutdown_year end_year r)%Z ->
            exists row, In row rows /\ year row = Y))
      (frame_rows reactors) blocks.
Proof.
  intros Hfleet Hout.
  unfold compute_reactor_demand in Hout. rewrite Hfleet in Hout. simpl in Hout.
  destruct (has_shutdown_year_override reactors); [|discriminate].
  destruct (iterrows_blocks _ _ _ _ _ out Hout) as (blocks & -> & Hblocks).
  exists blocks. split; [reflexivity|].
  revert Hblocks. apply Forall2_impl. intros r rows Hrows.
  destruct (reactor_rows_start _ _ _ _ _ _ Hrows) as [Y HY].
  exists Y. split; [exact HY|].
  destruct (reactor_rows_spec _ _ _ _ _ _ _ HY Hrows) as [Hyears Hall].
  rewrite Forall_forall in Hall.
  split; [|split; [|split; [|split; [|split; [|split]]]]].
  - intros row Hrow. exact (proj1 (Hall row Hrow)).
  - exact Hyears.
  - intros row Hrow Hne. rewrite (proj2 (Hall row Hrow)).
    destruct (Z.eqb_spec (year row) Y); [contradiction | reflexivity].
  - intros row Hrow He. rewrite (proj2 (Hall row Hrow)).
    rewrite (proj2 (Z.eqb_eq _ _) He). reflexivity.
  - intros row Hrow Hpos. rewrite (proj2 (Hall row Hrow)) in Hpos.
    destruct (Z.eqb_spec (year row) Y) as [E|_]; [exact E|].
    exfalso. revert Hpos. apply Qlt_irrefl.
  - apply (at_most_one_with_key year Y); [exact Hyears|].
    intros row Hrow Hcharged.
    destruct (Z.eqb_spec (year row) Y) as [E|Hne]; [exact E|].
    exfalso. unfold charged in Hcharged.
    rewrite (proj2 (Hall row Hrow)) in Hcharged.
    destruct (Z.eqb_spec (year row) Y); [contradiction|].
    discriminate.
  - intros Hrange Hshut.
    exact (reactor_rows_commissioning_row _ _ _ _ _ _ _ HY Hrows Hrange Hshut).
Qed.

Lemma first_core_timing_witness :
  exists reactors out,
    fleet example_master example_life example_newbuilds "base" = inr reactors /\
    compute_reactor_demand example_master [] example_fuel_params example_life
      example_newbuilds 2020 2023 "base" = inr out /\
    exists blocks,
      out = List.concat blocks /\
      Forall2
        (fun r rows =>
           exists Y,
             commercial_operation_date r = Some Y /\
             (forall row, In row rows -> rd_reactor_id row = reactor_id r) /\
             NoDup (map year rows) /\
             (forall row, In row rows -> year row <> Y -> first_core_tu row = 0) /\
             (forall row, In row rows -> year row = Y ->
                          first_core_tu row
                          = first_core_charge example_fuel_params r) /\
             (forall row, In row rows -> 0 < first_core_tu row -> year row = Y) /\
             (List.length (filter charged rows) <= 1)%nat /\
             ((2020 <= Y <= 2023)%Z ->
              (Y <= shutdown_year 2023 r)%Z ->
              exists row, In row rows /\ year row = Y))
        (frame_rows reactors) blocks.
Proof.
  eexists. eexists. split; [reflexivity|]. split; [reflexivity|].
  apply (first_core_timing example_master [] example_fuel_params example_life
           example_newbuilds 2020 2023 "base"); reflexivity.
Defined.

(** With reactor ids that identify reactors, the block of a reactor is the
    part of the output that carries its id. *)
Lemma block_of_reactor (gen : list Generation) (fp : list FuelParams)
    (start_year end_year : Z) (reactors : list Reactor) (r : Reactor)
    (out rows : list ReactorDemand) :
  iterrows gen fp start_year end_year reactors = inr out ->
  NoDup (map reactor_id reactors) ->
  In r reactors ->
  reactor_rows gen fp start_year end_year r = inr rows ->
  filter (row_of r) out = rows.
Proof.
  intros Hout Hnd Hin Hrows.
  pose proof (iterrows_rows_of _ _ _ _ _ r out Hout Hnd Hin) as H.
  rewrite Hrows in H. injection H as ->. reflexivity.
Qed.

(** Two fleet rows with one reactor id: the rows of the output that carry
    the id are the two blocks together, each with its own first core. *)
Example repeated_reactor_id :
  option_map (map (fun row => (rd_reactor_id row, year row,
                               Qeq_bool (first_core_tu row) 0)))
    (match compute_reactor_demand
             (mkReactorFrame [example_reactor] true) [] example_fuel_params None
             (Some [mkNewbuildProject "base" 1 None (Some "PWR"%string)
                      (Some 1200) 2022])
             2021 2022 "base" with
     | inr out => Some out
     | inl _ => None
     end)
  = Some [(1, 2021, false); (1, 2022, true); (1, 2022, false)]%Z.
Proof. reflexivity. Qed.

(** The example fleet: reactor 1 is commissioned in 2021 and charged once,
    reactor 2 (commissioned before the range, shut down after 2021 by the
    scenario) never, the newbuild 3 once in 2022. *)
Example first_core_example :
  option_map (map (fun row => (rd_reactor_id row, year row,
                               Qeq_bool (first_core_tu row) 0)))
    (match compute_reactor_demand example_master [] example_fuel_params
             example_life example_newbuilds 2020 2023 "base" with
     | inr out => Some out
     | inl _ => None
     end)
  = Some [(1, 2021, false); (1, 2022, true); (1, 2023, true);
          (2, 2020, true); (2, 2021, true);
          (3, 2022, false); (3, 2023, true)]%Z.
Proof. reflexivity. Qed.

(** A master table without the override column and no matching life
    scenario: reading the column fails. *)
Lemma compute_reactor_demand_missing_override_column :
  compute_reactor_demand example_master [] example_fuel_params None
    example_newbuilds 2020 2023 "base"
  = inl (KeyError "shutdown_year_override").
Proof. reflexivity. Qed.

(** A reactor without a commissioning date stops the whole computation. *)
Lemma compute_reactor_demand_missing_start :
  compute_reactor_demand
    (mkReactorFrame [mkReactor 1 None None (Some 1000) None None None] true)
    [] [] None None 2020 2023 "base"
  = inl (ValueError "cannot convert float NaN to integer").
Proof. reflexivity. Qed.

End DemandFacts.

(** ** Enrichment economics: further properties *)

Module FuelCycleMore.
Import FuelCycle GridVocabulary FuelCycleFacts.
Local Open Scope R_scope.

(** *** The value function *)

Lemma ln_neg (y : R) : 0 < y < 1 -> ln y < 0.
Proof. intros [H0 H1]. rewrite <- ln_1. apply ln_increasing; assumption. Qed.

Lemma ln_pos (y : R) : 1 < y -> 0 < ln y.
Proof. intros H. rewrite <- ln_1. apply ln_increasing; lra. Qed.

Lemma ratio_gt_1 (x : R) : 0 < x < 1 / 2 -> 1 < (1 - x) / x.
Proof.
  intros [H0 H1]. apply Rmult_lt_reg_r with x; [exact H0|].
  unfold Rdiv. rewrite Rmult_assoc, Rinv_l by lra. lra.
Qed.

Lemma ratio_lt_1 (x : R) : 1 / 2 < x < 1 -> 0 < (1 - x) / x < 1.
Proof.
  intros [H0 H1]. split.
  - apply Rdiv_lt_0_compat; lra.
  - apply Rmult_lt_reg_r with x; [lra|].
    unfold Rdiv. rewrite Rmult_assoc, Rinv_l by lra. lra.
Qed.

(** X1.  On the open interval (0,1) the value function returns a
    non-negative finite number, which is zero at 1/2 and only there. *)
Theorem value_function_nonneg (x : R) :
  0 < x < 1 ->
  exists v, value_function x = inr (Fin v) /\ 0 <= v /\ (v = 0 <-> x = 1 / 2).
Proof.
  intros [H0 H1]. eexists. split; [apply value_function_unit; lra|].
  destruct (Rtotal_order x (1 / 2)) as [Hlt|[Heq|Hgt]].
  - pose proof (ln_pos _ (ratio_gt_1 x (conj H0 Hlt))) as Hln.
    assert (Hv : 0 < (1 - 2 * x) * ln ((1 - x) / x))
      by (apply Rmult_lt_0_compat; lra).
    split; [lra|]. split; intros; lra.
  - subst x. replace (1 - 2 * (1 / 2)) with 0 by lra. rewrite Rmult_0_l.
    split; [lra|]. split; intros; reflexivity.
  - pose proof (ln_neg _ (ratio_lt_1 x (conj Hgt H1))) as Hln.
    assert (Hv : 0 < (1 - 2 * x) * ln ((1 - x) / x)).
    { replace ((1 - 2 * x) * ln ((1 - x) / x))
        with ((2 * x - 1) * (- ln ((1 - x) / x))) by ring.
      apply Rmult_lt_0_compat; lra. }
    split; [lra|]. split; intros; lra.
Qed.

Lemma value_function_nonneg_witness :
  exists v,
    value_function (1 / 4) = inr (Fin v) /\ 0 <= v /\ (v = 0 <-> 1 / 4 = 1 / 2).
Proof. apply (value_function_nonneg (1 / 4)). lra. Defined.

(** *** Feed and separative work *)

Lemma value_function_zero_division :
  value_function 0 = inl (ZeroDivisionError "float division by zero").
Proof. unfold value_function. rewrite truediv_zero. reflexivity. Qed.

(** X2.  The only failure of feed_and_swu_for_product is a
    ZeroDivisionError, and it fails exactly when the feed assay equals the
    tails assay or one of the three assays is zero. *)
Theorem feed_and_swu_failure (product_tu : R) (params : EnrichmentParams) :
  (forall e, feed_and_swu_for_product product_tu params = inl e ->
             e = ZeroDivisionError "float division by zero") /\
  ((exists e, feed_and_swu_for_product product_tu params = inl e) <->
   feed_assay params = tails_assay params \/ product_assay params = 0 \/
   tails_assay params = 0 \/ feed_assay params = 0).
Proof.
  destruct (Req_dec_T (feed_assay params) (tails_assay params)) as [Ed|Nd].
  { rewrite feed_and_swu_zero_division by exact Ed. split.
    - intros e [= <-]. reflexivity.
    - split; [intros _; now left | intros _; eexists; reflexivity]. }
  destruct (Req_dec_T (product_assay params) 0) as [Ep|Np].
  { assert (H : feed_and_swu_for_product product_tu params
                = inl (ZeroDivisionError "float division by zero")).
    { unfold feed_and_swu_for_product. rewrite truediv_defined by lra. simpl.
      rewrite Ep, value_function_zero_division. reflexivity. }
    rewrite H. split.
    - intros e [= <-]. reflexivity.
    - split; [intros _; right; now left | intros _; eexists; reflexivity]. }
  destruct (Req_dec_T (tails_assay params) 0) as [Et|Nt].
  { assert (H : feed_and_swu_for_product product_tu params
                = inl (ZeroDivisionError "float division by zero")).
    { unfold feed_and_swu_for_product. rewrite truediv_defined by lra. simpl.
      rewrite (value_function_defined (product_assay params)) by exact Np. simpl.
      rewrite Et, value_function_zero_division. reflexivity. }
    rewrite H. split.
    - intros e [= <-]. reflexivity.
    - split; [intros _; right; right; now left | intros _; eexists; reflexivity]. }
  destruct (Req_dec_T (feed_assay params) 0) as [Ef|Nf].
  { assert (H : feed_and_swu_for_product product_tu params
                = inl (ZeroDivisionError "float division by zero")).
    { unfold feed_and_swu_for_product. rewrite truediv_defined by lra. simpl.
      rewrite (value_function_defined (product_assay params)) by exact Np. simpl.
      rewrite (value_function_defined (tails_assay params)) by exact Nt. simpl.
      rewrite Ef, value_function_zero_division. reflexivity. }
    rewrite H. split.
    - intros e [= <-]. reflexivity.
    - split; [intros _; right; right; now right | intros _; eexists; reflexivity]. }
  destruct (feed_and_swu_defined product_tu params Nd Np Nt Nf) as [f [w H]].
  rewrite H. split.
  - intros e [=].
  - split; [intros [e [=]] | intros [K|[K|[K|K]]]; contradiction].
Qed.

(** X3.  No enrichment, no work: when the product assay equals the feed
    assay, and the feed and tails assays are distinct and strictly between 0
    and 1, the feed returned is the product mass and the separative work is
    zero. *)
Theorem feed_and_swu_no_enrichment (product_tu : R) (params : EnrichmentParams) :
  product_assay params = feed_assay params ->
  feed_assay params <> tails_assay params ->
  0 < feed_assay params < 1 -> 0 < tails_assay params < 1 ->
  feed_and_swu_for_product product_tu params = inr (product_tu, Fin 0).
Proof.
  intros Hpf Hd Hf Ht.
  assert (Hd' : feed_assay params - tails_assay params <> 0) by lra.
  rewrite feed_and_swu_unit; try assumption; [|rewrite Hpf; exact Hf].
  cbv zeta. rewrite Hpf.
  apply f_equal. apply f_equal2; [|apply f_equal]; field; exact Hd'.
Qed.

Lemma feed_and_swu_no_enrichment_witness :
  feed_and_swu_for_product 7 (mkEnrichmentParams 0.00711 0.00711 0.0025)
  = inr (7, Fin 0).
Proof.
  apply (feed_and_swu_no_enrichment 7 (mkEnrichmentParams 0.00711 0.00711 0.0025));
    simpl; lra.
Defined.

(** Outside the interval the work need not be a number: with a tails assay
    of 1 the same call returns NaN. *)
Lemma feed_and_swu_no_enrichment_tails_one :
  exists f_mass,
    feed_and_swu_for_product 7 (mkEnrichmentParams 0.00711 0.00711 1)
    = inr (f_mass, NaN).
Proof.
  eexists. unfold feed_and_swu_for_product. simpl.
  rewrite truediv_defined by lra. simpl.
  rewrite (value_function_unit 0.00711) by lra. simpl.
  assert (V1 : value_function 1 = inr PInf).
  { rewrite value_function_defined by lra.
    replace ((1 - 1) / 1) with 0 by lra. unfold np_log.
    destruct (Rlt_dec 0 0) as [H|_]; [lra|]. simpl.
    unfold signed_inf.
    destruct (Rlt_dec 0 (- (1 - 2 * 1))) as [_|H]; [reflexivity | lra]. }
  rewrite V1. simpl. unfold signed_inf.
  replace ((0.00711 - 1) / (0.00711 - 1) * 7 - 7) with 0 by (field; lra).
  destruct (Rlt_dec 0 0) as [H|_]; [lra|]. reflexivity.
Qed.

(** *** The grid search picks the first cheapest candidate *)

(** The order of the comparison [<] on costs. *)
Lemma flt_takeable (a b : float64) : flt a b = true -> takeable a = true.
Proof. destruct a, b; simpl; intros H; try discriminate; reflexivity. Qed.

Lemma flt_trans (a b c : float64) :
  flt a b = true -> flt b c = true -> flt a c = true.
Proof.
  destruct a as [x| | |], b as [y| | |], c as [z| | |]; simpl;
    intros H1 H2; try discriminate; try reflexivity.
  destruct (Rlt_dec x y); [|discriminate]. destruct (Rlt_dec y z); [|discriminate].
  destruct (Rlt_dec x z); [reflexivity | lra].
Qed.

(** Below a cost that [c] does not beat, and [c] takeable: below [c]. *)
Lemma flt_below_rival (a b c : float64) :
  flt a b = true -> flt c b = false -> takeable c = true -> flt a c = true.
Proof.
  unfold takeable.
  destruct a as [x| | |], b as [y| | |], c as [z| | |]; simpl;
    intros H1 H2 H3; try discriminate; try reflexivity.
  destruct (Rlt_dec x y); [|discriminate]. destruct (Rlt_dec z y); [discriminate|].
  destruct (Rlt_dec x z); [reflexivity | lra].
Qed.

Lemma flt_irrefl (a : float64) : flt a a = false.
Proof.
  destruct a as [x| | |]; simpl; try reflexivity.
  destruct (Rlt_dec x x); [lra | reflexivity].
Qed.

(** What an iteration that returns does to the state. *)
Lemma grid_step_inv (u s xp xf : R) (st st' : R * float64) (tails : R) :
  grid_step u s xp xf st tails = inr st' ->
  st' = if flt (unit_cost u s xp xf tails) (snd st)
        then (tails, unit_cost u s xp xf tails)
        else st.
Proof.
  unfold grid_step, unit_cost.
  destruct (feed_and_swu_for_product_np 1 _) as [e|[feed_tu swu]]; [discriminate|].
  simpl. destruct (flt _ _); intros [= <-]; reflexivity.
Qed.

(** The loop invariant: after the candidates [seen], the state holds the
    first cheapest takeable one with its cost, or the start value and
    [float("inf")] when none was takeable. *)
Lemma grid_loop_first_cheapest (u s xp xf t0 : R) (rest : list R) :
  forall seen st st',
    ((snd st = PInf /\ fst st = t0 /\
      forall t, In t seen -> takeable (unit_cost u s xp xf t) = false) \/
     (snd st = unit_cost u s xp xf (fst st) /\
      first_cheapest u s xp xf seen (fst st))) ->
    grid_loop u s xp xf rest st = inr st' ->
    (snd st' = PInf /\ fst st' = t0 /\
     forall t, In t (seen ++ rest) -> takeable (unit_cost u s xp xf t) = false) \/
    (snd st' = unit_cost u s xp xf (fst st') /\
     first_cheapest u s xp xf (seen ++ rest) (fst st')).
Proof.
  induction rest as [|t rest IH]; intros seen st st' Hinv; simpl.
  - intros [= <-]. rewrite app_nil_r. exact Hinv.
  - destruct (grid_step u s xp xf st t) as [e|st1] eqn:E1; [discriminate|]. simpl.
    intros Hloop. apply grid_step_inv in E1.
    replace (seen ++ t :: rest) with ((seen ++ [t]) ++ rest)
      by (rewrite <- app_assoc; reflexivity).
    apply (IH (seen ++ [t]) st1 st'); [|exact Hloop]. clear IH Hloop.
    destruct st as [best bc]. cbn [fst snd] in *.
    destruct (flt (unit_cost u s xp xf t) bc) eqn:El; subst st1; cbn [fst snd].
    + right. split; [reflexivity|].
      exists seen, []. split; [reflexivity|].
      split; [exact (flt_takeable _ _ El)|]. split; [|intros t' []].
      intros t' Hin Htake.
      destruct Hinv as [(Hbc & _ & Hnone)|(Hbc & before & after & Hseen & Hb0 & Hb & Ha)].
      * rewrite (Hnone t' Hin) in Htake. discriminate.
      * cbv zeta in *. rewrite Hbc in El. subst seen.
        apply in_app_or in Hin. destruct Hin as [Hin|[<-|Hin]].
        -- exact (flt_trans _ _ _ El (Hb t' Hin Htake)).
        -- exact El.
        -- exact (flt_below_rival _ _ _ El (Ha t' Hin) Htake).
    + destruct Hinv as [(Hbc & Hfst & Hnone)|(Hbc & before & after & Hseen & Hb0 & Hb & Ha)].
      * left. split; [exact Hbc|]. split; [exact Hfst|].
        intros t' Hin. apply in_app_or in Hin.
        destruct Hin as [Hin|[<-|[]]]; [exact (Hnone t' Hin)|].
        rewrite Hbc in El. exact El.
      * right. split; [exact Hbc|]. cbv zeta in *.
        exists before, (after ++ [t]). split; [|split; [exact Hb0|split]].
        -- rewrite Hseen, <- app_assoc. reflexivity.
        -- exact Hb.
        -- intros t' Hin. apply in_app_or in Hin.
           destruct Hin as [Hin|[<-|[]]]; [exact (Ha t' Hin)|].
           rewrite Hbc in El. exact El.
Qed.

(** In the usual range the cost of a candidate is the finite number computed
    from the feed and the work of [feed_and_swu_for_product]. *)
Lemma unit_cost_finite (u s xp xf tails : R) :
  xf <> tails -> 0 < xf < 1 -> 0 < xp < 1 -> 0 < tails < 1 ->
  exists feed swu,
    feed_and_swu_for_product 1 (mkEnrichmentParams xf xp tails)
    = inr (feed, Fin swu) /\
    unit_cost u s xp xf tails = Fin (u * feed + s * swu).
Proof.
  intros Hd Hf Hp Ht.
  pose proof (feed_and_swu_unit 1 (mkEnrichmentParams xf xp tails)) as H.
  cbv zeta in H. simpl in H. specialize (H Hd Hf Hp Ht).
  eexists. eexists. split; [exact H|].
  unfold unit_cost, feed_and_swu_for_product_np, value_function_np, np_truediv. simpl.
  rewrite !value_function_unit by assumption. simpl.
  destruct (Req_dec_T (xf - tails) 0) as [E|_]; [lra|].
  destruct (Req_dec_T tails 0) as [E|_]; [lra|].
  rewrite np_log_positive by (apply ratio_positive; exact Ht). simpl.
  apply f_equal. ring.
Qed.

(** X4.  With both prices present, a tails assay returned by the optimizer
    is the first cheapest grid point among those whose cost can win the
    comparison with the initial best cost float("inf"), that is, whose cost
    is a finite number or -inf: such a point that comes earlier costs
    strictly more, and no later point costs less.  When no grid point has
    such a cost (all are NaN or +inf) it is the first grid point.  With the
    assays and the candidate strictly between 0 and 1 and the candidate
    different from the feed assay, the cost is the finite number
    u_price * feed + swu_price * swu. *)
Theorem grid_search_first_cheapest (u_price swu_price product_assay feed_assay : R)
    (bounds : R * R) (grid_points : Z) (tails_grid : list R) (tails : R) :
  linspace (fst bounds) (snd bounds) grid_points = inr tails_grid ->
  optimize_tails_assay (Some u_price) (Some swu_price) product_assay feed_assay
    bounds grid_points = inr tails ->
  let cost := unit_cost u_price swu_price product_assay feed_assay in
  ((exists t, In t tails_grid /\ takeable (cost t) = true) ->
   first_cheapest u_price swu_price product_assay feed_assay tails_grid tails) /\
  ((forall t, In t tails_grid -> takeable (cost t) = false) ->
   exists rest, tails_grid = tails :: rest) /\
  (forall t, feed_assay <> t -> 0 < feed_assay < 1 -> 0 < product_assay < 1 ->
             0 < t < 1 ->
     exists feed swu,
       feed_and_swu_for_product 1 (mkEnrichmentParams feed_assay product_assay t)
       = inr (feed, Fin swu) /\
       cost t = Fin (u_price * feed + swu_price * swu)).
Proof.
  intros Hg Hopt. cbv zeta.
  split; [|split; [|intros t; apply unit_cost_finite]].
  - intros [t [Hin Htake]]. destruct tails_grid as [|t0 g]; [destruct Hin|].
    rewrite (optimize_with_prices _ _ _ _ _ _ _ _ Hg) in Hopt.
    destruct (grid_loop u_price swu_price product_assay feed_assay (t0 :: g)
                (t0, PInf)) as [e|st] eqn:Eloop; [discriminate|].
    simpl in Hopt. injection Hopt as <-.
    destruct (grid_loop_first_cheapest u_price swu_price product_assay feed_assay
                t0 (t0 :: g) [] (t0, PInf) st) as [(_ & _ & Hnone)|(_ & Hfirst)].
    + left. split; [reflexivity|]. split; [reflexivity|]. intros t' [].
    + exact Eloop.
    + simpl in Hnone. rewrite (Hnone t Hin) in Htake. discriminate.
    + exact Hfirst.
  - intros Hnone. destruct tails_grid as [|t0 g].
    { unfold optimize_tails_assay in Hopt. rewrite Hg in Hopt. discriminate. }
    rewrite (optimize_with_prices _ _ _ _ _ _ _ _ Hg) in Hopt.
    destruct (grid_loop u_price swu_price product_assay feed_assay (t0 :: g)
                (t0, PInf)) as [e|st] eqn:Eloop; [discriminate|].
    simpl in Hopt. injection Hopt as <-.
    destruct (grid_loop_first_cheapest u_price swu_price product_assay feed_assay
                t0 (t0 :: g) [] (t0, PInf) st) as [(_ & Hfst & _)|(_ & Hfirst)].
    + left. split; [reflexivity|]. split; [reflexivity|]. intros t' [].
    + exact Eloop.
    + exists g. rewrite Hfst. reflexivity.
    + exfalso. destruct Hfirst as (before & after & Hgrid & Htake & _).
      cbv zeta in Htake. simpl in Hgrid.
      rewrite (Hnone (fst st)) in Htake; [discriminate|].
      rewrite Hgrid. apply in_or_app. right. now left.
Qed.

Lemma optimize_returns (u s xp xf : R) (bounds : R * R) (n : Z) :
  (0 < n)%Z -> xp <> 0 -> xf <> 0 ->
  exists tails_grid tails,
    linspace (fst bounds) (snd bounds) n = inr tails_grid /\
    optimize_tails_assay (Some u) (Some s) xp xf bounds n = inr tails.
Proof.
  intros Hn Hp Hf.
  destruct (linspace_nonempty (fst bounds) (snd bounds) n Hn) as [t0 [g Hg]].
  destruct (grid_loop_returns u s xp xf (t0 :: g) Hp Hf (t0, PInf)) as [st Hst].
  exists (t0 :: g), (fst st). split; [exact Hg|].
  rewrite (optimize_with_prices _ _ _ _ _ _ _ _ Hg), Hst. reflexivity.
Qed.

Lemma grid_search_first_cheapest_witness :
  exists tails_grid tails,
    linspace (fst default_bounds) (snd default_bounds) 3 = inr tails_grid /\
    optimize_tails_assay (Some 30) (Some 100) 0.045 NATURAL_U235_ASSAY
      default_bounds 3 = inr tails /\
    ((exists t, In t tails_grid /\
                takeable (unit_cost 30 100 0.045 NATURAL_U235_ASSAY t) = true) ->
     first_cheapest 30 100 0.045 NATURAL_U235_ASSAY tails_grid tails).
Proof.
  destruct (optimize_returns 30 100 0.045 NATURAL_U235_ASSAY default_bounds 3)
    as (tails_grid & tails & Hg & Hopt);
    [reflexivity | lra | unfold NATURAL_U235_ASSAY; lra |].
  exists tails_grid, tails. split; [exact Hg|]. split; [exact Hopt|].
  exact (proj1 (grid_search_first_cheapest _ _ _ _ _ _ _ _ Hg Hopt)).
Defined.

Lemma grid_step_zero_assay (u s xp xf : R) (st : R * float64) (tails : R) :
  xp = 0 \/ xf = 0 ->
  grid_step u s xp xf st tails = inl (ZeroDivisionError "float division by zero").
Proof.
  intros H. unfold grid_step, feed_and_swu_for_product_np. simpl.
  destruct (Req_dec_T xp 0) as [->|Hp].
  - rewrite value_function_zero_division. reflexivity.
  - destruct H as [H | ->]; [contradiction|].
    rewrite (value_function_defined xp) by exact Hp. simpl.
    rewrite value_function_zero_division. reflexivity.
Qed.

(** X5.  With both prices present the optimizer fails in three ways only:
    a negative grid_points is a ValueError, grid_points = 0 an IndexError
    (there is no first grid point), and a zero product or feed assay a
    ZeroDivisionError in the first iteration; in every other case it
    returns. *)
Theorem optimize_tails_failures (u_price swu_price product_assay feed_assay : R)
    (bounds : R * R) (grid_points : Z) :
  ((grid_points < 0)%Z ->
   optimize_tails_assay (Some u_price) (Some swu_price) product_assay feed_assay
     bounds grid_points
   = inl (ValueError
            ("Number of samples, " ++ str grid_points ++ ", must be non-negative."))) /\
  (grid_points = 0%Z ->
   optimize_tails_assay (Some u_price) (Some swu_price) product_assay feed_assay
     bounds grid_points
   = inl (IndexError "index 0 is out of bounds for axis 0 with size 0")) /\
  ((0 < grid_points)%Z -> product_assay = 0 \/ feed_assay = 0 ->
   optimize_tails_assay (Some u_price) (Some swu_price) product_assay feed_assay
     bounds grid_points
   = inl (ZeroDivisionError "float division by zero")) /\
  ((0 < grid_points)%Z -> product_assay <> 0 -> feed_assay <> 0 ->
   exists tails,
     optimize_tails_assay (Some u_price) (Some swu_price) product_assay feed_assay
       bounds grid_points = inr tails).
Proof.
  split; [|split; [|split]].
  - intros Hn. unfold optimize_tails_assay, linspace.
    destruct (Z.ltb_spec grid_points 0); [reflexivity | lia].
  - intros ->. reflexivity.
  - intros Hn Hz.
    destruct (linspace_nonempty (fst bounds) (snd bounds) grid_points Hn)
      as [t0 [g Hg]].
    rewrite (optimize_with_prices _ _ _ _ _ _ _ _ Hg). simpl.
    rewrite grid_step_zero_assay by exact Hz. reflexivity.
  - intros Hn Hp Hf.
    destruct (optimize_returns u_price swu_price product_assay feed_assay bounds
                grid_points Hn Hp Hf) as (g & tails & _ & Hopt).
    exists tails. exact Hopt.
Qed.

Lemma optimize_tails_failures_witness :
  optimize_tails_assay (Some 30) (Some 100) 0.045 NATURAL_U235_ASSAY
    default_bounds (-1)
  = inl (ValueError "Number of samples, -1, must be non-negative.") /\
  optimize_tails_assay (Some 30) (Some 100) 0.045 NATURAL_U235_ASSAY
    default_bounds 0
  = inl (IndexError "index 0 is out of bounds for axis 0 with size 0") /\
  optimize_tails_assay (Some 30) (Some 100) 0 NATURAL_U235_ASSAY
    default_bounds 40
  = inl (ZeroDivisionError "float division by zero") /\
  exists tails,
    optimize_tails_assay (Some 30) (Some 100) 0.045 NATURAL_U235_ASSAY
      default_bounds 40 = inr tails.
Proof.
  split; [|split; [|split]].
  - apply (proj1 (optimize_tails_failures 30 100 0.045 NATURAL_U235_ASSAY
                    default_bounds (-1))). lia.
  - apply (proj1 (proj2 (optimize_tails_failures 30 100 0.045 NATURAL_U235_ASSAY
                           default_bounds 0))). reflexivity.
  - apply (proj1 (proj2 (proj2 (optimize_tails_failures 30 100 0 NATURAL_U235_ASSAY
                                  default_bounds 40)))); [lia | left; reflexivity].
  - apply (proj2 (proj2 (proj2 (optimize_tails_failures 30 100 0.045
                                  NATURAL_U235_ASSAY default_bounds 40))));
      [lia | lra | unfold NATURAL_U235_ASSAY; lra].
Defined.


(** *** A candidate of cost -inf wins

    A tails assay of 1.0 has the value [+inf]; with the product assay above
    the feed assay the tails mass is negative, the work and, for a positive
    SWU price, the cost are [-inf], and [cost < best_cost] takes the
    candidate whatever finite cost was the best. *)

Lemma unit_cost_at_one (u s xp xf : R) :
  0 < xf < 1 -> xf < xp < 1 -> 0 < s ->
  unit_cost u s xp xf 1 = NInf.
Proof.
  intros Hf Hp Hs.
  assert (Hw : (xp - 1) / (xf - 1) * 1 + - (1) < 0).
  { assert (H : (xp - 1) / (xf - 1) < 1).
    { apply Rmult_lt_reg_r with (1 - xf); [lra|].
      replace ((xp - 1) / (xf - 1) * (1 - xf)) with (1 - xp) by (field; lra). lra. }
    lra. }
  unfold unit_cost, feed_and_swu_for_product_np, value_function_np, np_truediv.
  simpl.
  rewrite (value_function_unit xp) by lra.
  rewrite (value_function_unit xf) by lra. simpl.
  destruct (Req_dec_T (xf - 1) 0) as [E|_]; [lra|].
  destruct (Req_dec_T 1 0) as [E|_]; [lra|].
  unfold np_log.
  destruct (Rlt_dec 0 ((1 - 1) / 1)) as [H|_]; [lra|].
  destruct (Rlt_dec ((1 - 1) / 1) 0) as [H|_]; [lra|].
  simpl. unfold signed_inf.
  destruct (Rlt_dec 0 (- (1 - 2 * 1))) as [_|H]; [|lra]. simpl.
  unfold signed_inf.
  destruct (Rlt_dec 0 ((xp - 1) / (xf - 1) * 1 + - (1))) as [H|_]; [lra|].
  destruct (Rlt_dec ((xp - 1) / (xf - 1) * 1 + - (1)) 0) as [_|H]; [|lra].
  simpl. unfold signed_inf.
  destruct (Rlt_dec 0 (- s)) as [H|_]; [lra|].
  destruct (Rlt_dec (- s) 0) as [_|H]; [|lra].
  reflexivity.
Qed.

Lemma grid_step_eq (u s xp xf : R) (st : R * float64) (tails : R) :
  xp <> 0 -> xf <> 0 ->
  grid_step u s xp xf st tails
  = inr (if flt (unit_cost u s xp xf tails) (snd st)
         then (tails, unit_cost u s xp xf tails)
         else st).
Proof.
  intros Hp Hf. destruct (grid_step_returns u s xp xf st tails Hp Hf) as [st' H].
  rewrite H. f_equal. exact (grid_step_inv _ _ _ _ _ _ _ H).
Qed.

(** The search over the two points 0.5 and 1.0 returns 1.0. *)
Lemma optimize_tails_takes_minus_infinity (u s xp xf : R) :
  0 < xf < 1 -> xf < xp < 1 -> xf <> 0.5 -> 0 < s ->
  optimize_tails_assay (Some u) (Some s) xp xf (0.5, 1) 2 = inr 1.
Proof.
  intros Hf Hp Hne Hs.
  assert (Hg : linspace (fst (0.5, 1)) (snd (0.5, 1)) 2
               = inr [0 * ((1 - 0.5) / 1) + 0.5; 1]) by reflexivity.
  rewrite (optimize_with_prices _ _ _ _ _ _ _ _ Hg).
  set (t0 := 0 * ((1 - 0.5) / 1) + 0.5).
  assert (Ht0 : t0 = 0.5) by (unfold t0; lra).
  destruct (unit_cost_finite u s xp xf t0) as (feed & swu & _ & Hc);
    try lra.
  cbn [grid_loop]. rewrite grid_step_eq by lra. cbn [bind snd].
  rewrite Hc. cbn [flt]. rewrite grid_step_eq by lra. cbn [bind snd].
  rewrite unit_cost_at_one by assumption. reflexivity.
Qed.

End FuelCycleMore.

(** ** Inventory evolution: further properties *)

Module SecondarySupplyMore.
Import SecondarySupply InventoryVocabulary InventoryMoreVocabulary
       SecondarySupplyFacts.
Local Open Scope Q_scope.


(** *** The stock as a running total *)

Lemma stock_at_scan_closed (p s d c : Series) (n : nat) :
  forall (a : Z) (stock : Q) (t : Z) (cur : Q),
    stock_at (scan p s d c stock (range a (a + Z.of_nat n))) t = Some cur ->
    cur == stock
           + Qsum (map (fun y => flow_at p y + flow_at s y - flow_at d y + flow_at c y)
                     (range a (t + 1))).
Proof.
  induction n as [|n IH]; intros a stock t cur.
  - rewrite range_nil by lia. discriminate.
  - replace (a + Z.of_nat (S n))%Z with (a + 1 + Z.of_nat n)%Z by lia.
    rewrite range_cons by lia. simpl scan. cbv zeta.
    destruct (Z.eq_dec a t) as [->|Hne].
    + unfold stock_at. simpl. rewrite Z.eqb_refl. simpl. intros [= <-].
      rewrite (range_cons t (t + 1)) by lia. rewrite (range_nil (t + 1)) by lia.
      simpl. unfold advance. ring.
    + rewrite stock_at_cons_other by (simpl; exact Hne). intros H.
      assert (Hin : In t (range (a + 1) (a + 1 + Z.of_nat n))).
      { unfold stock_at in H.
        destruct (find _ _) as [r|] eqn:Ef; [|discriminate].
        apply find_some in Ef. destruct Ef as [Hin Hy]. apply Z.eqb_eq in Hy.
        rewrite <- Hy, <- (scan_years p s d c
          (advance p s d c stock a) (range (a + 1) (a + 1 + Z.of_nat n))).
        apply in_map. exact Hin. }
      apply in_range_iff in Hin.
      rewrite (IH _ _ _ _ H). rewrite (range_cons a (t + 1)) by lia.
      simpl. unfold advance. ring.
Qed.

(** X6.  Conservation: whenever evolve_inventories returns, the stock it
    records for a year t equals the seed stock plus the net flows (primary +
    secondary - demand + policy) of all years after the seed year up to t. *)
Theorem inventory_running_total
    (initial_inventories : list InventoryRow)
    (primary_supply_year : list PrimarySupplyYear)
    (secondary_supply_year : list SecondarySupplyYear)
    (feed_demand_year : list FeedDemandYear)
    (inventory_scenarios : option (list InventoryScenario))
    (rows : list InventoryRow) :
  evolve_inventories initial_inventories primary_supply_year
    secondary_supply_year feed_demand_year inventory_scenarios = inr rows ->
  exists seed,
    latest seed initial_inventories /\
    forall t cur,
      stock_at rows t = Some cur ->
      cur == inventory_tu seed
             + Qsum (map (net_flow primary_supply_year secondary_supply_year
                            feed_demand_year inventory_scenarios)
                       (range (year seed + 1) (t + 1))).
Proof.
  intros Hret.
  assert (Hne : initial_inventories <> []).
  { intros ->. discriminate. }
  destruct (evolve_inventories_from_seed initial_inventories primary_supply_year
              secondary_supply_year feed_demand_year inventory_scenarios Hne)
    as [seed [Hlatest Heq]].
  exists seed. split; [exact Hlatest|].
  rewrite Heq in Hret.
  destruct (column_max (map fd_year feed_demand_year)) as [last|];
    [|discriminate]. simpl in Hret.
  apply evolve_loop_inv in Hret. destruct Hret as [-> _].
  intros t cur Hcur.
  destruct (Z_le_gt_dec (last + 1) (year seed + 1)) as [Hle|Hgt].
  { rewrite range_nil in Hcur by lia. discriminate. }
  replace (last + 1)%Z
    with (year seed + 1 + Z.of_nat (Z.to_nat (last - year seed)))%Z in Hcur by lia.
  apply stock_at_scan_closed in Hcur. exact Hcur.
Qed.

Lemma inventory_running_total_witness :
  exists seed,
    latest seed example_initial /\
    forall t cur,
      stock_at [mkInventoryRow 2021 103; mkInventoryRow 2022 100] t = Some cur ->
      cur == inventory_tu seed
             + Qsum (map (net_flow example_primary example_secondary
                            example_feed example_policy)
                       (range (year seed + 1) (t + 1))).
Proof.
  apply (inventory_running_total example_initial example_primary
           example_secondary example_feed example_policy).
  reflexivity.
Defined.

(** *** When the call returns *)

(** X7.  With a non-empty seed series and a non-empty feed-demand panel,
    evolve_inventories returns exactly when every year after the seed year up
    to the greatest feed-demand year labels at most one row in each of the
    four sources; its only other outcome is the TypeError of a year that
    labels several rows. *)
Theorem evolve_inventories_returns_iff
    (initial_inventories : list InventoryRow)
    (primary_supply_year : list PrimarySupplyYear)
    (secondary_supply_year : list SecondarySupplyYear)
    (feed_demand_year : list FeedDemandYear)
    (inventory_scenarios : option (list InventoryScenario)) :
  initial_inventories <> [] ->
  feed_demand_year <> [] ->
  exists seed last_year,
    latest seed initial_inventories /\
    max_feed_year feed_demand_year last_year /\
    ((exists rows,
         evolve_inventories initial_inventories primary_supply_year
           secondary_supply_year feed_demand_year inventory_scenarios = inr rows)
     <->
     (forall y, (year seed < y <= last_year)%Z ->
                readable primary_supply_year secondary_supply_year
                  feed_demand_year inventory_scenarios y)) /\
    (forall e,
        evolve_inventories initial_inventories primary_supply_year
          secondary_supply_year feed_demand_year inventory_scenarios = inl e ->
        e = TypeError "cannot convert the series to <class 'float'>").
Proof.
  intros Hinit Hfeed.
  destruct (evolve_inventories_from_seed initial_inventories primary_supply_year
              secondary_supply_year feed_demand_year inventory_scenarios Hinit)
    as [seed [Hlatest Heq]].
  destruct (column_max_nonempty (map fd_year feed_demand_year)) as [last Hlast].
  { destruct feed_demand_year; [congruence | discriminate]. }
  exists seed, last. split; [exact Hlatest|].
  split; [exact (column_max_spec _ _ Hlast)|].
  rewrite Heq, Hlast. simpl. split; [split|].
  - intros [rows Hrows] y Hy. apply evolve_loop_inv in Hrows.
    destruct Hrows as [_ Hall]. apply (Hall y). apply in_range_iff. lia.
  - intros Hall. eexists. apply evolve_loop_single.
    intros y Hy. apply in_range_iff in Hy. apply Hall. lia.
  - intros e He. exact (evolve_loop_error _ _ _ _ _ _ _ He).
Qed.

Lemma evolve_inventories_returns_iff_witness :
  exists seed last_year,
    latest seed example_initial /\
    max_feed_year example_feed last_year /\
    ((exists rows,
         evolve_inventories example_initial example_primary example_secondary
           example_feed example_policy = inr rows)
     <->
     (forall y, (year seed < y <= last_year)%Z ->
                readable example_primary example_secondary example_feed
                  example_policy y)) /\
    (forall e,
        evolve_inventories example_initial example_primary example_secondary
          example_feed example_policy = inl e ->
        e = TypeError "cannot convert the series to <class 'float'>").
Proof.
  apply (evolve_inventories_returns_iff example_initial example_primary
           example_secondary example_feed example_policy); discriminate.
Defined.

End SecondarySupplyMore.

(** ** Group keys, sums *)

Module PanelFacts.
Import PrimarySupply PanelVocabulary PrimarySupplyFacts.
Local Open Scope Q_scope.

Lemma in_insert_year (x y : Z) (l : list Z) :
  In x (insert_year y l) <-> x = y \/ In x l.
Proof.
  induction l as [|h t IH]; simpl.
  - intuition.
  - destruct (y <=? h)%Z; simpl; [intuition|]. rewrite IH. intuition.
Qed.

Lemma insert_year_ascending (y : Z) (l : list Z) :
  ascending l -> ~ In y l -> ascending (insert_year y l).
Proof.
  induction l as [|h t IH]; intros Hasc Hnotin; simpl.
  - split; [intros z []|exact I].
  - destruct Hasc as [Hh Ht]. destruct (Z.leb_spec y h) as [Hle|Hgt].
    + assert (Hlt : (y < h)%Z).
      { destruct (Z.eq_dec y h) as [->|Hne]; [exfalso; apply Hnotin; now left | lia]. }
      split; [|split; assumption].
      intros z [<-|Hz]; [exact Hlt | specialize (Hh z Hz); lia].
    + split.
      * intros z Hz. apply in_insert_year in Hz. destruct Hz as [->|Hz];
          [lia | apply Hh; exact Hz].
      * apply IH; [exact Ht | intros Hin; apply Hnotin; now right].
Qed.

Lemma in_group_keys (x : Z) (l : list Z) : In x (group_keys l) <-> In x l.
Proof.
  unfold group_keys. rewrite <- (in_unique x l).
  generalize (unique l) as u. induction u as [|a u IH]; simpl; [tauto|].
  rewrite in_insert_year, IH. intuition.
Qed.

Lemma group_keys_ascending (l : list Z) : ascending (group_keys l).
Proof.
  unfold group_keys. pose proof (NoDup_unique l) as Hnd.
  induction Hnd as [|a u Hnotin Hnd IH]; simpl; [exact I|].
  apply insert_year_ascending; [exact IH|].
  intros Hin. apply Hnotin.
  clear - Hin. induction u as [|b u IHu]; simpl in *; [exact Hin|].
  apply in_insert_year in Hin. destruct Hin as [->|Hin]; [now left | right; auto].
Qed.

(** Two ascending lists with the same elements are the same list. *)
Lemma ascending_ext (l l' : list Z) :
  ascending l -> ascending l' -> (forall x, In x l <-> In x l') -> l = l'.
Proof.
  revert l'. induction l as [|a l IH]; intros [|b l'] Hl Hl' Hiff.
  - reflexivity.
  - exfalso. apply (proj2 (Hiff b)). now left.
  - exfalso. apply (proj1 (Hiff a)). now left.
  - destruct Hl as [Ha Hl], Hl' as [Hb Hl'].
    assert (a = b).
    { destruct (proj1 (Hiff a) (or_introl eq_refl)) as [E|Hin]; [auto|].
      destruct (proj2 (Hiff b) (or_introl eq_refl)) as [E|Hin']; [auto|].
      specialize (Ha b Hin'). specialize (Hb a Hin). lia. }
    subst b. f_equal. apply IH; try assumption.
    intros x. split; intros Hx.
    + destruct (proj1 (Hiff x) (or_intror Hx)) as [E|Hin]; [|exact Hin].
      subst x. specialize (Ha a Hx). lia.
    + destruct (proj2 (Hiff x) (or_intror Hx)) as [E|Hin]; [|exact Hin].
      subst x. specialize (Hb a Hx). lia.
Qed.

Lemma ascending_NoDup (l : list Z) : ascending l -> NoDup l.
Proof.
  induction l as [|a l IH]; intros H; constructor.
  - destruct H as [Ha _]. intros Hin. specialize (Ha a Hin). lia.
  - apply IH. apply H.
Qed.

Lemma range_ascending (a b : Z) : ascending (range a b).
Proof.
  remember (Z.to_nat (b - a)) as n eqn:En. revert a En.
  induction n as [|n IH]; intros a En.
  - rewrite range_nil by lia. exact I.
  - rewrite range_cons by lia. split.
    + intros y Hy. apply in_range_iff in Hy. lia.
    + apply IH. lia.
Qed.

(** Sums (from the left, as pandas adds), up to the value of the rational. *)
Lemma fold_left_Qplus (l : list Q) (a : Q) :
  fold_left Qplus l a == a + fold_left Qplus l 0.
Proof.
  revert a. induction l as [|x l IH]; intros a; simpl.
  - ring.
  - rewrite (IH (a + x)), (IH (0 + x)). ring.
Qed.

Lemma sum_cons (x : Q) (l : list Q) : sum (x :: l) == x + sum l.
Proof. unfold sum. simpl. rewrite fold_left_Qplus. ring. Qed.

Lemma sum_app (l1 l2 : list Q) : sum (l1 ++ l2) == sum l1 + sum l2.
Proof.
  induction l1 as [|x l1 IH]; simpl.
  - unfold sum at 2. simpl. ring.
  - rewrite !sum_cons, IH. ring.
Qed.

End PanelFacts.

(** ** Primary supply: further properties *)

Module PrimarySupplyMore.
Import PrimarySupply MineGridVocabulary PanelVocabulary PrimarySupplyFacts PanelFacts.
Local Open Scope Q_scope.

Lemma years_of_template (f : Z * Z -> Q) (g : Z * Z -> option string)
    (template : list (Z * Z)) :
  map my_year
    (map (fun key => mkMineYear (fst key) (snd key) (f key) (g key)) template)
  = map snd template.
Proof. rewrite map_map. apply map_ext. intros [m y]. reflexivity. Qed.

Lemma in_years_of_prod (ids years : list Z) (y : Z) :
  ids <> [] -> (In y (map snd (list_prod ids years)) <-> In y years).
Proof.
  intros Hne. rewrite in_map_iff. split.
  - intros [[m y'] [<- Hin]]. apply in_prod_iff in Hin. apply Hin.
  - intros Hy. destruct ids as [|m0 ids]; [congruence|].
    exists (m0, y). split; [reflexivity|]. apply in_prod_iff. split; [now left | exact Hy].
Qed.

Lemma unique_nonempty (l : list Z) : l <> [] -> unique l <> [].
Proof. destruct l; [congruence | discriminate]. Qed.

Lemma filter_year_single (years : list Z) (y : Z) (m : Z)
    (f : Z * Z -> MineYear) :
  (forall key, my_year (f key) = snd key) ->
  NoDup years -> In y years ->
  filter (fun r => (my_year r =? y)%Z) (map f (map (fun y' => (m, y')) years))
  = [f (m, y)].
Proof.
  intros Hf. induction years as [|a years IH]; intros Hnd Hin; [destruct Hin|].
  inversion Hnd as [|? ? Hnotin Hnd']; subst. simpl. rewrite Hf. simpl.
  destruct (Z.eqb_spec a y) as [->|Hne].
  - f_equal. apply DemandFacts.filter_none. intros r Hr.
    apply in_map_iff in Hr. destruct Hr as [key [<- Hkey]].
    apply in_map_iff in Hkey. destruct Hkey as [y' [<- Hy']].
    rewrite Hf. simpl. apply Z.eqb_neq. intros ->. contradiction.
  - destruct Hin as [E|Hin]; [contradiction|]. apply IH; assumption.
Qed.

Lemma filter_year_of_template (ids years : list Z) (y : Z) (f : Z * Z -> MineYear) :
  (forall key, my_year (f key) = snd key) ->
  NoDup years -> In y years ->
  filter (fun r => (my_year r =? y)%Z) (map f (list_prod ids years))
  = map (fun m => f (m, y)) ids.
Proof.
  intros Hf Hnd Hin. induction ids as [|m ids IH]; [reflexivity|].
  simpl. rewrite map_app, filter_app, IH.
  rewrite (filter_year_single years y m f Hf Hnd Hin). reflexivity.
Qed.

(** X8.  The aggregated panel of a non-empty master table has one row for
    every year of the range, in ascending order, also for years without any
    production; the tonnage of a year is the sum of the mine-level rows of
    that year, of which there is one per distinct mine. *)
Theorem primary_supply_panel
    (mines : list Mine) (mine_production : list MineProduction)
    (mine_scenarios : option (list MineProduction)) (start_year end_year : Z) :
  mines <> [] ->
  let mine_year :=
    fst (build_primary_supply mines mine_production mine_scenarios
           start_year end_year) in
  let primary_supply :=
    snd (build_primary_supply mines mine_production mine_scenarios
           start_year end_year) in
  map year primary_supply = range start_year (end_year + 1) /\
  forall row, In row primary_supply ->
    let rows := filter (fun r => (my_year r =? year row)%Z) mine_year in
    primary_supply_tu row = sum (map production_tu rows) /\
    map my_mine_id rows = unique (map mine_id mines).
Proof.
  intros Hne. destruct mines as [|m0 mines]; [congruence|]. clear Hne.
  unfold build_primary_supply. cbn [is_empty negb fst snd].
  set (ids := unique (map mine_id (m0 :: mines))).
  set (years := range start_year (end_year + 1)).
  set (base := base_rows mine_production mine_scenarios start_year end_year).
  set (mk := fun key : Z * Z =>
               mkMineYear (fst key) (snd key)
                 (reindexed_sum base (fst key) (snd key))
                 (mine_meta (m0 :: mines) (fst key))).
  assert (Hkeys : group_keys (map my_year (map mk (list_prod ids years))) = years).
  { apply ascending_ext.
    - apply group_keys_ascending.
    - apply range_ascending.
    - intros y. rewrite in_group_keys. unfold mk. rewrite years_of_template.
      apply in_years_of_prod. apply unique_nonempty. discriminate. }
  unfold groupby_year_sum. rewrite Hkeys. split.
  - rewrite map_map. simpl. apply map_id.
  - intros row Hrow. apply in_map_iff in Hrow. destruct Hrow as [y [<- Hy]].
    cbn [year primary_supply_tu]. split; [reflexivity|].
    rewrite (filter_year_of_template ids years y mk);
      [|intros key; reflexivity | apply NoDup_range | exact Hy].
    rewrite map_map. exact (map_id ids).
Qed.

Lemma primary_supply_panel_witness :
  let mine_year :=
    fst (build_primary_supply example_mines example_production
           example_scenarios 2020 2022) in
  let primary_supply :=
    snd (build_primary_supply example_mines example_production
           example_scenarios 2020 2022) in
  map year primary_supply = range 2020 (2022 + 1) /\
  forall row, In row primary_supply ->
    let rows := filter (fun r => (my_year r =? year row)%Z) mine_year in
    primary_supply_tu row = sum (map production_tu rows) /\
    map my_mine_id rows = unique (map mine_id example_mines).
Proof.
  apply (primary_supply_panel example_mines example_production example_scenarios
           2020 2022).
  discriminate.
Defined.

Lemma filter_absorb {A : Type} (f g : A -> bool) (l : list A) :
  (forall x, f x = true -> g x = true) -> filter f (filter g l) = filter f l.
Proof.
  intros H. induction l as [|a l IH]; simpl; [reflexivity|].
  destruct (g a) eqn:Eg; simpl.
  - rewrite IH. reflexivity.
  - destruct (f a) eqn:Ef; [rewrite (H a Ef) in Eg; discriminate | exact IH].
Qed.

Lemma filter_when_nonempty {A : Type} (f : A -> bool) (l : list A) :
  (if negb (is_empty l) then filter f l else []) = filter f l.
Proof. destruct l; reflexivity. Qed.

(** [base] is the in-range historical rows followed by the in-range scenario
    rows. *)
Lemma base_rows_app
    (mine_production : list MineProduction)
    (mine_scenarios : option (list MineProduction)) (start_year end_year : Z) :
  base_rows mine_production mine_scenarios start_year end_year
  = filter (in_range start_year end_year) mine_production
    ++ filter (in_range start_year end_year) (scenario_rows mine_scenarios).
Proof.
  unfold base_rows, scenario_rows. rewrite filter_when_nonempty.
  set (scen := match mine_scenarios with Some df => df | None => [] end).
  destruct scen as [|r df]; cbn [is_empty negb].
  - simpl. rewrite app_nil_r. reflexivity.
  - destruct (filter (in_range start_year end_year) (r :: df)) as [|r' df'];
      cbn [is_empty negb]; [rewrite app_nil_r|]; reflexivity.
Qed.

Lemma reindexed_sum_is_sum (base : list MineProduction) (mine y : Z) :
  reindexed_sum base mine y
  = sum (map mp_production_tu (filter (at_key mine y) base)).
Proof. unfold reindexed_sum. destruct (filter _ base); reflexivity. Qed.

Lemma at_key_in_range (start_year end_year mine y : Z) (h : MineProduction) :
  (start_year <= y <= end_year)%Z ->
  at_key mine y h = true -> in_range start_year end_year h = true.
Proof.
  intros Hy Hk. unfold at_key in Hk. unfold in_range.
  apply andb_true_iff in Hk. destruct Hk as [_ Hk]. apply Z.eqb_eq in Hk.
  apply andb_true_iff. split; apply Z.leb_le; lia.
Qed.

(** The rows of the mine-level output, whatever the master table. *)
Lemma mine_year_rows
    (mines : list Mine) (mine_production : list MineProduction)
    (mine_scenarios : option (list MineProduction)) (start_year end_year : Z)
    (r : MineYear) :
  In r (fst (build_primary_supply mines mine_production mine_scenarios
               start_year end_year)) ->
  (start_year <= my_year r <= end_year)%Z /\
  production_tu r
  = reindexed_sum (base_rows mine_production mine_scenarios start_year end_year)
      (my_mine_id r) (my_year r).
Proof.
  unfold build_primary_supply. cbn [fst]. intros Hr.
  apply in_map_iff in Hr. destruct Hr as [[m y] [<- Hkey]].
  apply in_prod_iff in Hkey. destruct Hkey as [_ Hy].
  apply in_range_iff in Hy. cbn [my_year my_mine_id production_tu fst snd].
  split; [lia | reflexivity].
Qed.

(** X9.  Scenario tonnage adds to history: the production_tu of a row of the
    mine-level output is the sum of the historical rows of its (mine, year)
    pair plus the sum of the scenario rows of the pair. *)
Theorem scenario_adds_to_history
    (mines : list Mine) (mine_production : list MineProduction)
    (mine_scenarios : option (list MineProduction)) (start_year end_year : Z)
    (r : MineYear) :
  In r (fst (build_primary_supply mines mine_production mine_scenarios
               start_year end_year)) ->
  production_tu r
  == sum (map mp_production_tu
            (filter (at_key (my_mine_id r) (my_year r)) mine_production))
     + sum (map mp_production_tu
              (filter (at_key (my_mine_id r) (my_year r))
                 (scenario_rows mine_scenarios))).
Proof.
  intros Hr. apply mine_year_rows in Hr. destruct Hr as [Hy ->].
  rewrite reindexed_sum_is_sum, base_rows_app, filter_app, map_app, sum_app.
  rewrite !(filter_absorb (at_key (my_mine_id r) (my_year r))
              (in_range start_year end_year))
    by (intros h; apply at_key_in_range; exact Hy).
  reflexivity.
Qed.

Lemma scenario_adds_to_history_witness :
  production_tu (mkMineYear 7 2021 12.5 None)
  == sum (map mp_production_tu
            (filter (at_key 7 2021) example_production))
     + sum (map mp_production_tu
              (filter (at_key 7 2021) (scenario_rows example_scenarios))).
Proof.
  apply (scenario_adds_to_history example_mines example_production
           example_scenarios 2020 2022 (mkMineYear 7 2021 12.5 None)).
  simpl. right. left. reflexivity.
Defined.

Lemma in_base_rows
    (mine_production : list MineProduction)
    (mine_scenarios : option (list MineProduction)) (start_year end_year : Z)
    (h : MineProduction) :
  In h (base_rows mine_production mine_scenarios start_year end_year) <->
  (In h mine_production \/ In h (scenario_rows mine_scenarios)) /\
  (start_year <= mp_year h <= end_year)%Z.
Proof.
  rewrite base_rows_app, in_app_iff, !filter_In. unfold in_range.
  rewrite andb_true_iff, !Z.leb_le. tauto.
Qed.

(** X10.  Without a master table the grid is built from the mines that
    produce in the range: the output has a row for (mine, year) exactly when
    the year is in the range and some historical or scenario row of the mine
    has its year in the range, and no row carries a country. *)
Theorem mine_grid_without_master
    (mine_production : list MineProduction)
    (mine_scenarios : option (list MineProduction)) (start_year end_year : Z) :
  let mine_year :=
    fst (build_primary_supply [] mine_production mine_scenarios
           start_year end_year) in
  (forall mine y,
      In (mine, y) (keys mine_year) <->
      (exists h, (In h mine_production \/ In h (scenario_rows mine_scenarios)) /\
                 mp_mine_id h = mine /\
                 (start_year <= mp_year h <= end_year)%Z) /\
      (start_year <= y <= end_year)%Z) /\
  NoDup (keys mine_year) /\
  (forall r, In r mine_year -> my_country r = None).
Proof.
  unfold build_primary_supply. cbn [is_empty negb fst].
  rewrite keys_of_template. split; [|split].
  - intros mine y. rewrite in_prod_iff, in_unique, in_range_iff, in_map_iff.
    split.
    + intros [[h [Hid Hin]] Hy]. apply in_base_rows in Hin. split; [|lia].
      exists h. tauto.
    + intros [[h [Hsrc [Hid Hh]]] Hy]. split; [|lia].
      exists h. split; [exact Hid|]. apply in_base_rows. tauto.
  - apply NoDup_list_prod; [apply NoDup_unique | apply NoDup_range].
  - intros r Hr. apply in_map_iff in Hr. destruct Hr as [key [<- _]]. reflexivity.
Qed.

End PrimarySupplyMore.

(** ** Secondary supply panel *)

Module SecondarySupplyPanelFacts.
Import SecondarySupplyPanel SecondaryPanelVocabulary PanelVocabulary PanelFacts.
Local Open Scope Q_scope.

(** The concatenated frame: in-range base rows, then in-range scenario
    rows. *)
Lemma secondary_base_app
    (secondary_supply_base : list SecondarySource)
    (secondary_scenarios : option (list SecondarySource))
    (start_year end_year : Z) :
  (let base := secondary_supply_base in
   let base :=
     if negb (PrimarySupply.is_empty base)
     then filter (in_range start_year end_year) base
     else base in
   let scenario := match secondary_scenarios with Some df => df | None => [] end in
   if negb (PrimarySupply.is_empty scenario)
   then base ++ filter (in_range start_year end_year) scenario
   else base)
  = filter (in_range start_year end_year) secondary_supply_base
    ++ filter (in_range start_year end_year) (scenario_rows secondary_scenarios).
Proof.
  cbv zeta. unfold scenario_rows.
  assert (H : (if negb (PrimarySupply.is_empty secondary_supply_base)
               then filter (in_range start_year end_year) secondary_supply_base
               else secondary_supply_base)
              = filter (in_range start_year end_year) secondary_supply_base)
    by (destruct secondary_supply_base; reflexivity).
  rewrite H.
  destruct (match secondary_scenarios with Some df => df | None => [] end);
    cbn [PrimarySupply.is_empty negb]; [simpl; rewrite app_nil_r|]; reflexivity.
Qed.

Lemma build_secondary_supply_eq
    (secondary_supply_base : list SecondarySource)
    (secondary_scenarios : option (list SecondarySource))
    (start_year end_year : Z) :
  let base :=
    filter (in_range start_year end_year) secondary_supply_base
    ++ filter (in_range start_year end_year) (scenario_rows secondary_scenarios) in
  build_secondary_supply secondary_supply_base secondary_scenarios
    start_year end_year
  = map (fun y =>
           let group := filter (fun r => (src_year r =? y)%Z) base in
           mkSecondarySupplyRow y
             (nansum (map src_secondary_supply_tu group))
             (nansum (map src_heu_tu group))
             (nansum (map src_underfeeding_tu group)))
        (PrimarySupply.group_keys (map src_year base)).
Proof.
  cbv zeta. unfold build_secondary_supply. cbv zeta.
  rewrite secondary_base_app.
  destruct (filter _ secondary_supply_base ++ filter _ _); reflexivity.
Qed.

Lemma secondary_years
    (secondary_supply_base : list SecondarySource)
    (secondary_scenarios : option (list SecondarySource))
    (start_year end_year : Z) :
  map year (build_secondary_supply secondary_supply_base secondary_scenarios
              start_year end_year)
  = PrimarySupply.group_keys
      (map src_year
         (filter (in_range start_year end_year) secondary_supply_base
          ++ filter (in_range start_year end_year)
               (scenario_rows secondary_scenarios))).
Proof.
  rewrite build_secondary_supply_eq. cbv zeta. rewrite map_map. simpl.
  apply map_id.
Qed.

Lemma in_secondary_years
    (secondary_supply_base : list SecondarySource)
    (secondary_scenarios : option (list SecondarySource))
    (start_year end_year : Z) (y : Z) :
  In y (map year (build_secondary_supply secondary_supply_base
                    secondary_scenarios start_year end_year)) <->
  (start_year <= y <= end_year)%Z /\
  exists r, (In r secondary_supply_base \/
             In r (scenario_rows secondary_scenarios)) /\ src_year r = y.
Proof.
  rewrite secondary_years, in_group_keys, in_map_iff. split.
  - intros [r [<- Hin]]. apply in_app_or in Hin.
    assert (Hr : (In r secondary_supply_base \/
                  In r (scenario_rows secondary_scenarios)) /\
                 in_range start_year end_year r = true)
      by (destruct Hin as [Hin|Hin]; apply filter_In in Hin; tauto).
    destruct Hr as [Hsrc Hrange]. unfold in_range in Hrange.
    apply andb_true_iff in Hrange. rewrite !Z.leb_le in Hrange.
    split; [lia|]. exists r. tauto.
  - intros [Hy [r [Hsrc <-]]]. exists r. split; [reflexivity|].
    assert (Hrange : in_range start_year end_year r = true)
      by (unfold in_range; apply andb_true_iff; rewrite !Z.leb_le; lia).
    apply in_or_app. destruct Hsrc as [Hin|Hin]; [left | right];
      apply filter_In; tauto.
Qed.

Lemma secondary_years_ascending
    (secondary_supply_base : list SecondarySource)
    (secondary_scenarios : option (list SecondarySource))
    (start_year end_year : Z) :
  ascending (map year (build_secondary_supply secondary_supply_base
                         secondary_scenarios start_year end_year)).
Proof. rewrite secondary_years. apply group_keys_ascending. Qed.

(** X11.  The secondary-supply panel has one row per year, in ascending
    order, and its years are exactly the years of the range found in a base
    or scenario row; it is empty when there is no such row. *)
Theorem secondary_supply_years
    (secondary_supply_base : list SecondarySource)
    (secondary_scenarios : option (list SecondarySource))
    (start_year end_year : Z) :
  let out := build_secondary_supply secondary_supply_base secondary_scenarios
               start_year end_year in
  ascending (map year out) /\
  forall y,
    In y (map year out) <->
    (start_year <= y <= end_year)%Z /\
    exists r, (In r secondary_supply_base \/
               In r (scenario_rows secondary_scenarios)) /\ src_year r = y.
Proof.
  cbv zeta. split; [apply secondary_years_ascending|].
  intros y. apply in_secondary_years.
Qed.

Lemma dropna_app (l1 l2 : list (option Q)) : dropna (l1 ++ l2) = dropna l1 ++ dropna l2.
Proof. unfold dropna. apply flat_map_app. Qed.

Lemma nansum_app (l1 l2 : list (option Q)) : nansum (l1 ++ l2) == nansum l1 + nansum l2.
Proof. unfold nansum. rewrite dropna_app. apply sum_app. Qed.

Lemma in_range_of_year (start_year end_year y : Z) (r : SecondarySource) :
  (start_year <= y <= end_year)%Z ->
  (src_year r =? y)%Z = true -> in_range start_year end_year r = true.
Proof.
  intros Hy Hr. apply Z.eqb_eq in Hr. unfold in_range.
  apply andb_true_iff. rewrite !Z.leb_le. lia.
Qed.

(** X12.  Scenario tonnage adds to the baseline: each of the three tonnages
    of a panel row is the sum of the baseline cells of its year plus the sum
    of the scenario cells of its year, a missing cell counting for
    nothing. *)
Theorem secondary_supply_sums
    (secondary_supply_base : list SecondarySource)
    (secondary_scenarios : option (list SecondarySource))
    (start_year end_year : Z) (row : SecondarySupplyRow) :
  In row (build_secondary_supply secondary_supply_base secondary_scenarios
            start_year end_year) ->
  let base := of_year (year row) secondary_supply_base in
  let scen := of_year (year row) (scenario_rows secondary_scenarios) in
  secondary_supply_tu row
  == nansum (map src_secondary_supply_tu base)
     + nansum (map src_secondary_supply_tu scen) /\
  heu_tu row == nansum (map src_heu_tu base) + nansum (map src_heu_tu scen) /\
  underfeeding_tu row
  == nansum (map src_underfeeding_tu base) + nansum (map src_underfeeding_tu scen).
Proof.
  intros Hrow.
  assert (Hy : In (year row)
                 (map year (build_secondary_supply secondary_supply_base
                              secondary_scenarios start_year end_year)))
    by (apply in_map; exact Hrow).
  apply in_secondary_years in Hy. destruct Hy as [Hy _].
  rewrite build_secondary_supply_eq in Hrow. cbv zeta in Hrow.
  apply in_map_iff in Hrow. destruct Hrow as [y [<- _]].
  cbn [year secondary_supply_tu heu_tu underfeeding_tu] in *.
  unfold of_year. rewrite filter_app.
  rewrite !(PrimarySupplyMore.filter_absorb (fun r => (src_year r =? y)%Z)
              (in_range start_year end_year))
    by (intros r; apply in_range_of_year; exact Hy).
  rewrite !map_app, !nansum_app. repeat split; reflexivity.
Qed.

Lemma secondary_supply_sums_witness :
  let row := mkSecondarySupplyRow 2021 6.5 2 0 in
  let base := of_year (year row) example_base in
  let scen := of_year (year row) (scenario_rows example_scenarios) in
  secondary_supply_tu row
  == nansum (map src_secondary_supply_tu base)
     + nansum (map src_secondary_supply_tu scen) /\
  heu_tu row == nansum (map src_heu_tu base) + nansum (map src_heu_tu scen) /\
  underfeeding_tu row
  == nansum (map src_underfeeding_tu base) + nansum (map src_underfeeding_tu scen).
Proof.
  apply (secondary_supply_sums example_base example_scenarios 2020 2022
           (mkSecondarySupplyRow 2021 6.5 2 0)).
  simpl. right. left. reflexivity.
Defined.

End SecondarySupplyPanelFacts.

(** ** Supply panels feeding the inventory evolution *)

Module SupplyPipelineFacts.
Import SecondarySupply InventoryVocabulary InventoryMoreVocabulary
       SecondaryPanelVocabulary PanelVocabulary PanelFacts SecondarySupplyFacts.
Local Open Scope Q_scope.

Lemma primary_panel_keyed
    (mines : list PrimarySupply.Mine)
    (mine_production : list PrimarySupply.MineProduction)
    (mine_scenarios : option (list PrimarySupply.MineProduction))
    (start_year end_year : Z) :
  NoDup (map ps_year
           (as_primary_supply_year
              (snd (PrimarySupply.build_primary_supply mines mine_production
                      mine_scenarios start_year end_year)))).
Proof.
  unfold as_primary_supply_year, PrimarySupply.build_primary_supply.
  cbn [snd]. unfold PrimarySupply.groupby_year_sum. rewrite !map_map. simpl.
  rewrite map_id. apply ascending_NoDup. apply group_keys_ascending.
Qed.

Lemma secondary_panel_keyed
    (secondary_supply_base : list SecondarySupplyPanel.SecondarySource)
    (secondary_scenarios : option (list SecondarySupplyPanel.SecondarySource))
    (start_year end_year : Z) :
  NoDup (map ss_year
           (as_secondary_supply_year
              (SecondarySupplyPanel.build_secondary_supply secondary_supply_base
                 secondary_scenarios start_year end_year))).
Proof.
  unfold as_secondary_supply_year. rewrite map_map. simpl.
  apply ascending_NoDup.
  apply SecondarySupplyPanelFacts.secondary_years_ascending.
Qed.

(** X13.  The two supply builders always hand evolve_inventories panels it
    can read: with their outputs as primary and secondary supply, a non-empty
    seed series, and a feed-demand panel and scenario series keyed by year,
    the evolution returns its rows. *)
Theorem evolve_over_built_panels
    (initial_inventories : list InventoryRow)
    (mines : list PrimarySupply.Mine)
    (mine_production : list PrimarySupply.MineProduction)
    (mine_scenarios : option (list PrimarySupply.MineProduction))
    (secondary_supply_base : list SecondarySupplyPanel.SecondarySource)
    (secondary_scenarios : option (list SecondarySupplyPanel.SecondarySource))
    (start_year end_year : Z)
    (feed_demand_year : list FeedDemandYear)
    (inventory_scenarios : option (list InventoryScenario)) :
  initial_inventories <> [] ->
  feed_demand_year <> [] ->
  NoDup (map fd_year feed_demand_year) ->
  NoDup (map fst (scenario_series inventory_scenarios)) ->
  exists rows,
    evolve_inventories initial_inventories
      (as_primary_supply_year
         (snd (PrimarySupply.build_primary_supply mines mine_production
                 mine_scenarios start_year end_year)))
      (as_secondary_supply_year
         (SecondarySupplyPanel.build_secondary_supply secondary_supply_base
            secondary_scenarios start_year end_year))
      feed_demand_year inventory_scenarios = inr rows.
Proof.
  intros Hinit Hfeed Hd Hc.
  destruct (evolve_inventories_from_seed initial_inventories
              (as_primary_supply_year
                 (snd (PrimarySupply.build_primary_supply mines mine_production
                         mine_scenarios start_year end_year)))
              (as_secondary_supply_year
                 (SecondarySupplyPanel.build_secondary_supply
                    secondary_supply_base secondary_scenarios start_year end_year))
              feed_demand_year inventory_scenarios Hinit)
    as [seed [_ Heq]].
  destruct (column_max_nonempty (map fd_year feed_demand_year)) as [last Hlast].
  { destruct feed_demand_year; [congruence | discriminate]. }
  rewrite Heq, Hlast. simpl. eexists. apply evolve_loop_scan.
  - rewrite set_index_year_keys. apply primary_panel_keyed.
  - rewrite set_index_year_keys. apply secondary_panel_keyed.
  - rewrite set_index_year_keys. exact Hd.
  - exact Hc.
Qed.

Lemma evolve_over_built_panels_witness :
  exists rows,
    evolve_inventories example_initial
      (as_primary_supply_year
         (snd (PrimarySupply.build_primary_supply MineGridVocabulary.example_mines
                 MineGridVocabulary.example_production
                 MineGridVocabulary.example_scenarios 2020 2022)))
      (as_secondary_supply_year
         (SecondarySupplyPanel.build_secondary_supply example_base
            example_scenarios 2020 2022))
      example_feed example_policy = inr rows.
Proof.
  apply (evolve_over_built_panels example_initial MineGridVocabulary.example_mines
           MineGridVocabulary.example_production
           MineGridVocabulary.example_scenarios example_base example_scenarios
           2020 2022 example_feed example_policy).
  - discriminate.
  - discriminate.
  - simpl. repeat constructor; simpl; intuition discriminate.
  - simpl. repeat constructor; simpl; intuition discriminate.
Defined.

End SupplyPipelineFacts.

(** ** Reactor demand: further properties *)

Module DemandMore.
Import Demand DemandVocabulary DemandMoreVocabulary DemandFacts.
Local Open Scope Q_scope.

(** *** The years of a reactor *)

Lemma year_loop_years (gen : list Generation) (fp : list FuelParams)
    (r : Reactor) (start shutdown : Z) (n : nat) :
  forall (a b : Z) (rows : list ReactorDemand),
    n = Z.to_nat (b - a) ->
    year_loop gen fp r start shutdown (range a b) = inr rows ->
    map year rows = range a (Z.min (shutdown + 1) b) /\
    Forall (fun row => demand_row gen fp r start (year row) = inr row) rows.
Proof.
  induction n as [|n IH]; intros a b rows Hn.
  - rewrite range_nil by lia. simpl. intros [= <-].
    rewrite range_nil by lia. split; [reflexivity | constructor].
  - rewrite range_cons by lia. simpl.
    destruct (Z.gtb_spec a shutdown) as [Hgt|Hle].
    + intros [= <-]. rewrite range_nil by lia. split; [reflexivity | constructor].
    + destruct (demand_row gen fp r start a) as [e|row] eqn:Erow; [discriminate|].
      simpl.
      destruct (year_loop gen fp r start shutdown (range (a + 1) b)) as [e|rows']
        eqn:Erest; [discriminate|].
      simpl. intros [= <-].
      destruct (IH (a + 1)%Z b rows') as [Hyears Hall]; [lia | exact Erest |].
      pose proof (demand_row_fields gen fp r start a row Erow) as (_ & Hy & _).
      split.
      * simpl. rewrite Hy, Hyears. rewrite (range_cons a) by lia. reflexivity.
      * constructor; [rewrite Hy; exact Erow | exact Hall].
Qed.

(** The rows of [r] in an output, under distinct reactor ids. *)
Lemma rows_of_reactor
    (reactor_master : ReactorFrame) (gen : list Generation) (fp : list FuelParams)
    (life : option (list LifeScenario)) (newb : option (list NewbuildProject))
    (start_year end_year : Z) (scenario_name : string)
    (reactors : ReactorFrame) (out : list ReactorDemand) (r : Reactor) (Y : Z) :
  fleet reactor_master life newb scenario_name = inr reactors ->
  compute_reactor_demand reactor_master gen fp life newb start_year end_year
    scenario_name = inr out ->
  NoDup (map reactor_id (frame_rows reactors)) ->
  In r (frame_rows reactors) ->
  commercial_operation_date r = Some Y ->
  map year (filter (row_of r) out)
  = range (Z.max Y start_year)
      (Z.min (shutdown_year end_year r + 1) (end_year + 1)) /\
  Forall (fun row => demand_row gen fp r Y (year row) = inr row)
    (filter (row_of r) out).
Proof.
  intros Hfleet Hout Hnd Hin HY.
  unfold compute_reactor_demand in Hout. rewrite Hfleet in Hout. simpl in Hout.
  destruct (has_shutdown_year_override reactors); [|discriminate].
  pose proof (iterrows_rows_of _ _ _ _ _ r out Hout Hnd Hin) as Hrows.
  unfold reactor_rows in Hrows. rewrite HY in Hrows. simpl in Hrows.
  exact (year_loop_years gen fp r Y (shutdown_year end_year r) _ _ _ _ eq_refl Hrows).
Qed.

(** X14.  The window of a reactor: with reactor ids that identify reactors,
    the rows of a reactor commissioned in year Y are one per year, in order,
    from max(Y, start_year) through min(shutdown year, end_year), where the
    shutdown year is the scenario override if there is one, else the year of
    the permanent shutdown date, else end_year; outside that window the
    reactor has no row. *)
Theorem reactor_year_window
    (reactor_master : ReactorFrame)
    (reactor_generation : list Generation)
    (reactor_fuel_params : list FuelParams)
    (reactor_life_scenarios : option (list LifeScenario))
    (newbuild_projects : option (list NewbuildProject))
    (start_year end_year : Z) (scenario_name : string)
    (reactors : ReactorFrame) (out : list ReactorDemand)
    (r : Reactor) (Y : Z) :
  fleet reactor_master reactor_life_scenarios newbuild_projects scenario_name
  = inr reactors ->
  compute_reactor_demand reactor_master reactor_generation reactor_fuel_params
    reactor_life_scenarios newbuild_projects start_year end_year scenario_name
  = inr out ->
  NoDup (map reactor_id (frame_rows reactors)) ->
  In r (frame_rows reactors) ->
  commercial_operation_date r = Some Y ->
  let shutdown :=
    match shutdown_year_override r, permanent_shutdown_date r with
    | Some y, _ => y
    | None, Some y => y
    | None, None => end_year
    end in
  map year (filter (row_of r) out)
  = range (Z.max Y start_year) (Z.min shutdown end_year + 1).
Proof.
  intros Hfleet Hout Hnd Hin HY shutdown.
  destruct (rows_of_reactor _ _ _ _ _ _ _ _ _ _ _ _ Hfleet Hout Hnd Hin HY)
    as [Hyears _].
  rewrite Hyears. f_equal. unfold shutdown, shutdown_year.
  destruct (shutdown_year_override r), (permanent_shutdown_date r); lia.
Qed.

Lemma reactor_year_window_witness :
  exists reactors out,
    fleet example_master example_life example_newbuilds "base" = inr reactors /\
    compute_reactor_demand example_master [] example_fuel_params example_life
      example_newbuilds 2020 2023 "base" = inr out /\
    map year (filter (row_of example_reactor) out)
    = range (Z.max 2021 2020) (Z.min 2023 2023 + 1).
Proof.
  eexists. eexists. split; [reflexivity|]. split; [reflexivity|].
  eapply (reactor_year_window example_master [] example_fuel_params example_life
            example_newbuilds 2020 2023 "base").
  - reflexivity.
  - reflexivity.
  - simpl. repeat constructor; simpl; intuition discriminate.
  - simpl. left. reflexivity.
  - reflexivity.
Defined.

(** *** Failures of the scenario steps *)

Lemma is_unique_NoDup (l : list Z) : is_unique l = true -> NoDup l.
Proof.
  induction l as [|x l IH]; simpl; [constructor|].
  intros H. apply andb_true_iff in H. destruct H as [Hx Hl].
  constructor; [|apply IH; exact Hl].
  intros Hin. apply negb_true_iff in Hx.
  assert (existsb (Z.eqb x) l = true)
    by (apply existsb_exists; exists x; split; [exact Hin | apply Z.eqb_refl]).
  congruence.
Qed.

(** X15.  Two failures of the scenario steps.  When the master table has no
    shutdown_year_override column and no life-scenario row carries the
    scenario name, the computation fails with a KeyError on that column,
    whatever the other arguments; and a scenario that names a reactor twice
    fails with the ValueError of a non-unique index. *)
Theorem scenario_step_failures
    (reactor_master : ReactorFrame)
    (reactor_generation : list Generation)
    (reactor_fuel_params : list FuelParams)
    (reactor_life_scenarios : option (list LifeScenario))
    (newbuild_projects : option (list NewbuildProject))
    (start_year end_year : Z) (scenario_name : string) :
  let scenario_life :=
    filter (scenario_is scenario_name) (life_rows reactor_life_scenarios) in
  (has_shutdown_year_override reactor_master = false ->
   scenario_life = [] ->
   compute_reactor_demand reactor_master reactor_generation reactor_fuel_params
     reactor_life_scenarios newbuild_projects start_year end_year scenario_name
   = inl (KeyError "shutdown_year_override")) /\
  (~ NoDup (map ls_reactor_id scenario_life) ->
   compute_reactor_demand reactor_master reactor_generation reactor_fuel_params
     reactor_life_scenarios newbuild_projects start_year end_year scenario_name
   = inl (ValueError "DataFrame index must be unique for orient='index'.")).
Proof.
  cbv zeta. split.
  - intros Hcol Hnone.
    assert (Hlife : _apply_life_overrides reactor_master reactor_life_scenarios
                      scenario_name = inr reactor_master).
    { unfold _apply_life_overrides.
      destruct reactor_life_scenarios as [[|l df]|]; try reflexivity.
      unfold life_rows in Hnone. rewrite Hnone. reflexivity. }
    unfold compute_reactor_demand, fleet. rewrite Hlife. simpl.
    assert (Hnb : has_shutdown_year_override
                    (_append_newbuilds reactor_master newbuild_projects
                       scenario_name) = false).
    { unfold _append_newbuilds. destruct newbuild_projects as [df|]; [|exact Hcol].
      destruct (filter _ df); [exact Hcol | exact Hcol]. }
    rewrite Hnb. reflexivity.
  - intros Hdup.
    assert (Huniq : is_unique
                      (map ls_reactor_id
                         (filter (scenario_is scenario_name)
                            (life_rows reactor_life_scenarios))) = false).
    { destruct (is_unique _) eqn:E; [|reflexivity]. exfalso. apply Hdup.
      apply is_unique_NoDup. exact E. }
    unfold compute_reactor_demand, fleet, _apply_life_overrides.
    destruct reactor_life_scenarios as [[|l df]|].
    + exfalso. apply Hdup. simpl. constructor.
    + unfold life_rows in Huniq, Hdup.
      destruct (filter (scenario_is scenario_name) (l :: df)) as [|l' df'] eqn:Ef.
      * exfalso. apply Hdup. constructor.
      * rewrite Huniq. reflexivity.
    + exfalso. apply Hdup. simpl. constructor.
Qed.

Lemma scenario_step_failures_witness :
  compute_reactor_demand example_master [] example_fuel_params
    (Some [mkLifeScenario "high" 2 (Some 2021%Z)]) example_newbuilds
    2020 2023 "base"
  = inl (KeyError "shutdown_year_override") /\
  compute_reactor_demand example_master [] example_fuel_params
    (Some [mkLifeScenario "base" 2 (Some 2021%Z);
           mkLifeScenario "base" 2 (Some 2030%Z)]) example_newbuilds
    2020 2023 "base"
  = inl (ValueError "DataFrame index must be unique for orient='index'.").
Proof.
  split.
  - apply (proj1 (scenario_step_failures example_master [] example_fuel_params
                    (Some [mkLifeScenario "high" 2 (Some 2021%Z)])
                    example_newbuilds 2020 2023 "base")); reflexivity.
  - apply (proj2 (scenario_step_failures example_master [] example_fuel_params
                    (Some [mkLifeScenario "base" 2 (Some 2021%Z);
                           mkLifeScenario "base" 2 (Some 2030%Z)])
                    example_newbuilds 2020 2023 "base")).
    simpl. intros H. inversion H as [|? ? Hnotin _]. apply Hnotin. now left.
Defined.

(** *** Generation and GW-years *)

Lemma capacity_factor_actual (gen : list Generation) (rid : Z) (mwe cf_default : Q)
    (y : Z) (g : Generation) (gwh : Q) :
  generation_of gen rid y = [g] ->
  net_generation_gwh g = Some gwh ->
  ~ mwe == 0 ->
  capacity_factor gen rid (Some mwe) cf_default y
  = inr (Some (gwh / (mwe * 8760 / 1000))).
Proof.
  intros Hg Hgwh Hmwe. unfold capacity_factor. unfold generation_of in Hg.
  rewrite Hg.
  destruct (Qeq_bool mwe 0) eqn:E0; [apply Qeq_bool_iff in E0; contradiction|].
  destruct (Qeq_bool (mwe * 8760 / 1000) 0) eqn:E1.
  - apply Qeq_bool_iff in E1. exfalso. apply Hmwe.
    assert (H : mwe == mwe * 8760 / 1000 * (1000 / 8760)) by (field; discriminate).
    rewrite H, E1. ring.
  - rewrite Hgwh. reflexivity.
Qed.

Lemma capacity_factor_default (gen : list Generation) (rid : Z)
    (mwe : option Q) (cf_default : Q) (y : Z) :
  generation_of gen rid y = [] ->
  capacity_factor gen rid mwe cf_default y = inr (Some cf_default).
Proof.
  intros Hg. unfold capacity_factor. unfold generation_of in Hg.
  rewrite Hg. reflexivity.
Qed.

(** Every row of the output was written by the loop body for some reactor
    of the fleet, in the year the row carries. *)
Lemma iterrows_origin (gen : list Generation) (fp : list FuelParams)
    (start_year end_year : Z) (reactors : list Reactor) :
  forall out,
    iterrows gen fp start_year end_year reactors = inr out ->
    forall row, In row out ->
      exists r Y,
        In r reactors /\ commercial_operation_date r = Some Y /\
        demand_row gen fp r Y (year row) = inr row.
Proof.
  induction reactors as [|r0 rest IH]; intros out; simpl.
  - intros [= <-] row [].
  - destruct (reactor_rows gen fp start_year end_year r0) as [e|rows0] eqn:E0;
      [discriminate|]. simpl.
    destruct (iterrows gen fp start_year end_year rest) as [e|more] eqn:E1;
      [discriminate|]. simpl.
    intros [= <-] row Hin. apply in_app_or in Hin. destruct Hin as [Hin|Hin].
    + unfold reactor_rows in E0.
      destruct (commercial_operation_date r0) as [Y0|] eqn:HY; [|discriminate].
      simpl in E0.
      destruct (year_loop_years gen fp r0 Y0 (shutdown_year end_year r0) _ _ _ _
                  eq_refl E0) as [_ Hall].
      rewrite Forall_forall in Hall.
      exists r0, Y0. split; [now left|]. split; [exact HY | exact (Hall row Hin)].
    + destruct (IH more eq_refl row Hin) as (r & Y & Hr & HY & Hrow).
      exists r, Y. split; [now right|]. split; [exact HY | exact Hrow].
Qed.

(** X16.  GW-years follow the reported generation.  Every row of the output
    was written for a reactor of the fleet whose id it carries, and when that
    reactor has a non-zero net capacity: if the reactor-year of the row has
    one generation record of G GWh, the row has gw_years G / 8760, whatever
    the capacity (the implied capacity factor is not clipped), and reload_tu
    is the reload factor times that; if it has no generation record, the row
    has gw_years net GWe times the default capacity factor of the reactor
    type (0.85 when the type has none). *)
Theorem gw_years_follow_generation
    (reactor_master : ReactorFrame)
    (reactor_generation : list Generation)
    (reactor_fuel_params : list FuelParams)
    (reactor_life_scenarios : option (list LifeScenario))
    (newbuild_projects : option (list NewbuildProject))
    (start_year end_year : Z) (scenario_name : string)
    (reactors : ReactorFrame) (out : list ReactorDemand)
    (row : ReactorDemand) :
  fleet reactor_master reactor_life_scenarios newbuild_projects scenario_name
  = inr reactors ->
  compute_reactor_demand reactor_master reactor_generation reactor_fuel_params
    reactor_life_scenarios newbuild_projects start_year end_year scenario_name
  = inr out ->
  In row out ->
  exists r,
    In r (frame_rows reactors) /\
    rd_reactor_id row = reactor_id r /\
    forall mwe,
      net_mwe r = Some mwe -> ~ mwe == 0 ->
      (forall g gwh,
          generation_of reactor_generation (reactor_id r) (year row) = [g] ->
          net_generation_gwh g = Some gwh ->
          exists gy,
            gw_years row = Some gy /\ gy == gwh / 8760 /\
            reload_tu row
            == _lookup_params reactor_fuel_params (reactor_type r)
                 reload_tu_per_gwe_year 0 * (gwh / 8760)) /\
      (generation_of reactor_generation (reactor_id r) (year row) = [] ->
       gw_years row
       = Some (mwe / 1000
               * _lookup_params reactor_fuel_params (reactor_type r)
                   default_capacity_factor 0.85)).
Proof.
  intros Hfleet Hout Hrow.
  unfold compute_reactor_demand in Hout. rewrite Hfleet in Hout. simpl in Hout.
  destruct (has_shutdown_year_override reactors); [|discriminate].
  destruct (iterrows_origin _ _ _ _ _ out Hout row Hrow) as (r & Y & Hin & _ & Hall).
  exists r. split; [exact Hin|].
  split; [exact (proj1 (demand_row_fields _ _ _ _ _ _ Hall))|].
  intros mwe Hmwe Hnz.
  unfold demand_row in Hall. rewrite Hmwe in Hall.
  split.
  - intros g gwh Hg Hgwh.
    rewrite (capacity_factor_actual _ _ _ _ _ g gwh Hg Hgwh Hnz) in Hall.
    simpl in Hall. injection Hall as Hall. rewrite <- Hall. simpl.
    eexists. split; [reflexivity|]. split.
    + field. exact Hnz.
    + apply Qmult_comp; [reflexivity|]. field. exact Hnz.
  - intros Hg. rewrite (capacity_factor_default _ _ _ _ _ Hg) in Hall.
    simpl in Hall. injection Hall as Hall. rewrite <- Hall. reflexivity.
Qed.

Lemma gw_years_follow_generation_witness :
  exists reactors out row,
    fleet example_master example_life example_newbuilds "base" = inr reactors /\
    compute_reactor_demand example_master GenerationExample.example_generation
      example_fuel_params example_life example_newbuilds 2020 2023 "base"
    = inr out /\
    In row out /\ rd_reactor_id row = 1%Z /\ year row = 2022%Z /\
    exists r,
      In r (frame_rows reactors) /\
      rd_reactor_id row = reactor_id r /\
      forall mwe,
        net_mwe r = Some mwe -> ~ mwe == 0 ->
        (forall g gwh,
            generation_of GenerationExample.example_generation
              (reactor_id r) (year row) = [g] ->
            net_generation_gwh g = Some gwh ->
            exists gy,
              gw_years row = Some gy /\ gy == gwh / 8760 /\
              reload_tu row
              == _lookup_params example_fuel_params (reactor_type r)
                   reload_tu_per_gwe_year 0 * (gwh / 8760)) /\
        (generation_of GenerationExample.example_generation
           (reactor_id r) (year row) = [] ->
         gw_years row
         = Some (mwe / 1000
                 * _lookup_params example_fuel_params (reactor_type r)
                     default_capacity_factor 0.85)).
Proof.
  eexists. eexists. eexists. split; [reflexivity|]. split; [reflexivity|].
  split; [right; left; reflexivity|]. split; [reflexivity|].
  split; [reflexivity|].
  apply (gw_years_follow_generation example_master
           GenerationExample.example_generation example_fuel_params example_life
           example_newbuilds 2020 2023 "base" _ _ _ eq_refl eq_refl).
  right. left. reflexivity.
Defined.

(** The example: reactor 1 (1000 MWe) reports 9000 GWh for 2022, and its
    row of 2022 has 9000 / 8760 GW-years, more than its net capacity. *)
Example gw_years_example :
  option_map (map (fun row => (rd_reactor_id row, year row, gw_years row)))
    (match compute_reactor_demand example_master
             GenerationExample.example_generation example_fuel_params
             example_life example_newbuilds 2021 2022 "base" with
     | inr out => Some (filter (fun row => (rd_reactor_id row =? 1)%Z) out)
     | inl _ => None
     end)
  = Some [(1%Z, 2021%Z, Some (1000 / 1000 * 0.9));
          (1%Z, 2022%Z, Some (1000 / 1000 * (9000 / (1000 * 8760 / 1000))))].
Proof. reflexivity. Qed.

End DemandMore.

(** ** Capacity balances *)

Module FuelCycleBalancesFacts.
Import FuelCycleBalances BalanceVocabulary PanelVocabulary PanelFacts.
Local Open Scope Q_scope.

Lemma between_iff (start_year end_year y : Z) :
  between start_year end_year y = true <-> (start_year <= y <= end_year)%Z.
Proof. unfold between. rewrite andb_true_iff, !Z.leb_le. tauto. Qed.

(** The capacity rows summed by year: in-range baseline rows, then in-range
    scenario rows. *)
Lemma capacity_frame
    (base : list CapacityRow) (scenarios : option (list CapacityRow))
    (start_year end_year : Z) :
  let cap :=
    filter (fun r => between start_year end_year (cap_year r)) base
    ++ filter (fun r => between start_year end_year (cap_year r))
         (scenario_capacity scenarios) in
  _apply_capacity_scenarios base scenarios start_year end_year
  = map (fun y => mkCapacityRow y (capacity_in y cap))
      (PrimarySupply.group_keys (map cap_year cap)).
Proof.
  cbv zeta. unfold _apply_capacity_scenarios, scenario_capacity, capacity_in.
  cbv zeta.
  destruct scenarios as [[|r df]|]; cbn [PrimarySupply.is_empty negb];
    try (simpl; rewrite app_nil_r; reflexivity).
  destruct (filter _ (r :: df)); cbn [PrimarySupply.is_empty negb];
    [rewrite app_nil_r|]; reflexivity.
Qed.

Lemma filter_keyed_rows_absent (f : Z -> Q) (keys : list Z) (y : Z) :
  ~ In y keys ->
  filter (fun r => (cap_year r =? y)%Z) (map (fun k => mkCapacityRow k (f k)) keys)
  = [].
Proof.
  intros Hnotin. apply DemandFacts.filter_none. intros r Hr.
  apply in_map_iff in Hr. destruct Hr as [k [<- Hk]]. simpl.
  apply Z.eqb_neq. intros ->. contradiction.
Qed.

Lemma filter_keyed_rows_present (f : Z -> Q) (keys : list Z) (y : Z) :
  NoDup keys -> In y keys ->
  filter (fun r => (cap_year r =? y)%Z) (map (fun k => mkCapacityRow k (f k)) keys)
  = [mkCapacityRow y (f y)].
Proof.
  induction keys as [|k keys IH]; intros Hnd Hin; [destruct Hin|].
  inversion Hnd as [|? ? Hnotin Hnd']; subst. simpl.
  destruct (Z.eqb_spec k y) as [E|Hne].
  - subst k. rewrite filter_keyed_rows_absent by exact Hnotin. reflexivity.
  - destruct Hin as [E|Hin]; [contradiction|]. apply IH; assumption.
Qed.

Lemma sum_nil : PrimarySupply.sum [] = 0.
Proof. reflexivity. Qed.

(** A demand row of a year of the range is merged with exactly one capacity
    cell: the baseline capacity of the year plus the scenario capacity of the
    year. *)
Lemma merged_capacity_single
    (base : list CapacityRow) (scenarios : option (list CapacityRow))
    (start_year end_year y : Z) :
  (start_year <= y <= end_year)%Z ->
  exists c,
    merged_capacity (_apply_capacity_scenarios base scenarios start_year end_year) y
    = [c] /\
    c == capacity_in y base + capacity_in y (scenario_capacity scenarios).
Proof.
  intros Hy. rewrite capacity_frame. cbv zeta.
  set (keep := fun r => between start_year end_year (cap_year r)).
  set (cap := filter keep base ++ filter keep (scenario_capacity scenarios)).
  assert (Hcap : capacity_in y cap
                 == capacity_in y base + capacity_in y (scenario_capacity scenarios)).
  { unfold capacity_in, cap. rewrite filter_app.
    rewrite !(PrimarySupplyMore.filter_absorb (fun r => (cap_year r =? y)%Z) keep).
    - rewrite map_app. apply sum_app.
    - intros r Hr. apply Z.eqb_eq in Hr. unfold keep. apply between_iff. lia.
    - intros r Hr. apply Z.eqb_eq in Hr. unfold keep. apply between_iff. lia. }
  unfold merged_capacity.
  destruct (in_dec Z.eq_dec y (PrimarySupply.group_keys (map cap_year cap)))
    as [Hin|Hnotin].
  - rewrite filter_keyed_rows_present;
      [|apply ascending_NoDup; apply group_keys_ascending | exact Hin].
    eexists. split; [reflexivity|]. simpl. exact Hcap.
  - rewrite filter_keyed_rows_absent by exact Hnotin.
    exists 0. split; [reflexivity|]. rewrite <- Hcap.
    unfold capacity_in.
    rewrite (DemandFacts.filter_none (fun r => (cap_year r =? y)%Z) cap);
      [reflexivity|].
    intros r Hr. apply Z.eqb_neq. intros E. apply Hnotin.
    apply in_group_keys. rewrite <- E. apply in_map. exact Hr.
Qed.

Lemma column_div_balanced (demand cap : Q) :
  balanced demand cap (column_div cap demand) (cap - demand).
Proof.
  unfold balanced, column_div. split; [reflexivity|]. split.
  - intros H. apply Qeq_bool_iff in H. rewrite H. reflexivity.
  - intros Hnz. destruct (Qeq_bool demand 0) eqn:E;
      [apply Qeq_bool_iff in E; contradiction|].
    eexists. split; [reflexivity|]. split; [field; exact Hnz|].
    intros Hpos. split; intros H.
    + apply Qle_shift_div_l; [exact Hpos|].
      rewrite Qmult_1_l. apply (Qplus_le_l _ _ (- demand)).
      rewrite Qplus_opp_r. exact H.
    + assert (H1 : 1 * demand <= cap / demand * demand)
        by (apply Qmult_le_compat_r; [exact H | apply Qlt_le_weak; exact Hpos]).
      assert (E1 : cap / demand * demand == cap) by (field; exact Hnz).
      rewrite E1, Qmult_1_l in H1.
      apply (Qplus_le_l _ _ demand). ring_simplify. exact H1.
Qed.

Lemma flat_map_single_rel {A B : Type} (f : A -> list B) (R : A -> B -> Prop)
    (l : list A) :
  (forall x, In x l -> exists b, f x = [b] /\ R x b) ->
  Forall2 R l (flat_map f l).
Proof.
  induction l as [|a l IH]; intros H; simpl; [constructor|].
  destruct (H a (or_introl eq_refl)) as [b [-> Hb]]. simpl.
  constructor; [exact Hb|]. apply IH. intros x Hx. apply H. now right.
Qed.

Lemma Forall2_in_right {A B : Type} (R : A -> B -> Prop) (l : list A) (l' : list B) :
  Forall2 R l l' -> forall b, In b l' -> exists a, In a l /\ R a b.
Proof.
  induction 1 as [|a b l l' Hab _ IH]; intros b0 Hin; [destruct Hin|].
  destruct Hin as [<-|Hin].
  - exists a. split; [now left | exact Hab].
  - destruct (IH b0 Hin) as [a0 [Ha0 Hr]]. exists a0. split; [now right | exact Hr].
Qed.

Lemma Forall2_map_eq {A B C : Type} (R : A -> B -> Prop) (g : B -> C) (h : A -> C)
    (l : list A) (l' : list B) :
  Forall2 R l l' -> (forall a b, R a b -> g b = h a) -> map g l' = map h l.
Proof.
  induction 1 as [|a b l l' Hab _ IH]; intros H; simpl; [reflexivity|].
  rewrite (H a b Hab), (IH H). reflexivity.
Qed.

(** The rows of the two balances, one per demand row of the range. *)
Lemma conversion_balance_rows (feed_demand : list FeedDemand)
    (conversion_capacity : list CapacityRow)
    (conv_scenarios : option (list CapacityRow)) (start_year end_year : Z) :
  Forall2
    (fun r b =>
       exists c,
         c == capacity_in (fd_year r) conversion_capacity
              + capacity_in (fd_year r) (scenario_capacity conv_scenarios) /\
         b = mkConversionBalance (fd_year r) (feed_tu r) c
               (column_div c (feed_tu r)) (c - feed_tu r))
    (filter (fun r => between start_year end_year (fd_year r)) feed_demand)
    (compute_conversion_balance feed_demand conversion_capacity conv_scenarios
       start_year end_year).
Proof.
  unfold compute_conversion_balance. cbv zeta.
  apply flat_map_single_rel. intros r Hr. apply filter_In in Hr.
  destruct Hr as [_ Hr]. apply between_iff in Hr.
  destruct (merged_capacity_single conversion_capacity conv_scenarios
              start_year end_year (fd_year r) Hr) as [c [-> Hc]].
  eexists. split; [reflexivity|]. exists c. split; [exact Hc | reflexivity].
Qed.

Lemma enrichment_balance_rows (swu_demand : list SwuDemand)
    (enrichment_capacity : list CapacityRow)
    (enr_scenarios : option (list CapacityRow)) (start_year end_year : Z) :
  Forall2
    (fun r b =>
       exists c,
         c == capacity_in (sd_year r) enrichment_capacity
              + capacity_in (sd_year r) (scenario_capacity enr_scenarios) /\
         b = mkEnrichmentBalance (sd_year r) (sd_swu_demand_swu r) c
               (column_div c (sd_swu_demand_swu r)) (c - sd_swu_demand_swu r))
    (filter (fun r => between start_year end_year (sd_year r)) swu_demand)
    (compute_enrichment_balance swu_demand enrichment_capacity enr_scenarios
       start_year end_year).
Proof.
  unfold compute_enrichment_balance. cbv zeta.
  apply flat_map_single_rel. intros r Hr. apply filter_In in Hr.
  destruct Hr as [_ Hr]. apply between_iff in Hr.
  destruct (merged_capacity_single enrichment_capacity enr_scenarios
              start_year end_year (sd_year r) Hr) as [c [-> Hc]].
  eexists. split; [reflexivity|]. exists c. split; [exact Hc | reflexivity].
Qed.

(** X17.  Both balances keep the demand panel: the output has one row per
    demand row whose year is in the range, in the same order, with that
    row's year and demand; no demand row of the range is lost or repeated,
    whether or not a capacity exists for its year. *)
Theorem balance_keeps_demand_rows
    (feed_demand : list FeedDemand) (swu_demand : list SwuDemand)
    (capacity_base : list CapacityRow) (scenarios : option (list CapacityRow))
    (start_year end_year : Z) :
  map (fun b => (cb_year b, uf6_demand_tu b))
    (compute_conversion_balance feed_demand capacity_base scenarios
       start_year end_year)
  = map (fun r => (fd_year r, feed_tu r))
      (filter (fun r => between start_year end_year (fd_year r)) feed_demand)
  /\
  map (fun b => (eb_year b, swu_demand_swu b))
    (compute_enrichment_balance swu_demand capacity_base scenarios
       start_year end_year)
  = map (fun r => (sd_year r, sd_swu_demand_swu r))
      (filter (fun r => between start_year end_year (sd_year r)) swu_demand).
Proof.
  split.
  - apply (Forall2_map_eq _ _ _ _ _
             (conversion_balance_rows feed_demand capacity_base scenarios
                start_year end_year)).
    intros r b [c [_ ->]]. reflexivity.
  - apply (Forall2_map_eq _ _ _ _ _
             (enrichment_balance_rows swu_demand capacity_base scenarios
                start_year end_year)).
    intros r b [c [_ ->]]. reflexivity.
Qed.

(** X18.  Scenario capacity is additional capacity: the capacity of every
    balance row equals the sum of the baseline capacity rows of its year plus
    the sum of the scenario capacity rows of its year, which is 0 for a year
    without any capacity row. *)
Theorem balance_capacity_adds
    (feed_demand : list FeedDemand) (swu_demand : list SwuDemand)
    (capacity_base : list CapacityRow) (scenarios : option (list CapacityRow))
    (start_year end_year : Z) :
  (forall b,
      In b (compute_conversion_balance feed_demand capacity_base scenarios
              start_year end_year) ->
      conv_capacity_tu b
      == capacity_in (cb_year b) capacity_base
         + capacity_in (cb_year b) (scenario_capacity scenarios)) /\
  (forall b,
      In b (compute_enrichment_balance swu_demand capacity_base scenarios
              start_year end_year) ->
      swu_capacity_swu b
      == capacity_in (eb_year b) capacity_base
         + capacity_in (eb_year b) (scenario_capacity scenarios)).
Proof.
  split; intros b Hb.
  - destruct (Forall2_in_right _ _ _
                (conversion_balance_rows feed_demand capacity_base scenarios
                   start_year end_year) b Hb) as [r [_ [c [Hc ->]]]].
    exact Hc.
  - destruct (Forall2_in_right _ _ _
                (enrichment_balance_rows swu_demand capacity_base scenarios
                   start_year end_year) b Hb) as [r [_ [c [Hc ->]]]].
    exact Hc.
Qed.

Lemma balance_capacity_adds_witness :
  conv_capacity_tu (mkConversionBalance 2021 100 120 (Some 1.20) 20)
  == capacity_in 2021 example_capacity
     + capacity_in 2021 (scenario_capacity example_capacity_scenarios).
Proof.
  apply (proj1 (balance_capacity_adds example_feed_demand [] example_capacity
                  example_capacity_scenarios 2020 2023)
           (mkConversionBalance 2021 100 120 (Some 1.20) 20)).
  left. reflexivity.
Defined.

(** X19.  Ratio and spare of a balance row: the spare is capacity minus
    demand; with a non-zero demand the ratio times the demand gives back the
    capacity, and for a positive demand the spare is non-negative exactly
    when the ratio is at least 1; with a zero demand the ratio is not a
    finite number. *)
Theorem balance_ratio_and_spare
    (feed_demand : list FeedDemand) (swu_demand : list SwuDemand)
    (capacity_base : list CapacityRow) (scenarios : option (list CapacityRow))
    (start_year end_year : Z) :
  (forall b,
      In b (compute_conversion_balance feed_demand capacity_base scenarios
              start_year end_year) ->
      balanced (uf6_demand_tu b) (conv_capacity_tu b) (conv_balance_ratio b)
        (conv_spare_tu b)) /\
  (forall b,
      In b (compute_enrichment_balance swu_demand capacity_base scenarios
              start_year end_year) ->
      balanced (swu_demand_swu b) (swu_capacity_swu b) (swu_balance_ratio b)
        (swu_spare_swu b)).
Proof.
  split; intros b Hb.
  - destruct (Forall2_in_right _ _ _
                (conversion_balance_rows feed_demand capacity_base scenarios
                   start_year end_year) b Hb) as [r [_ [c [_ ->]]]].
    apply column_div_balanced.
  - destruct (Forall2_in_right _ _ _
                (enrichment_balance_rows swu_demand capacity_base scenarios
                   start_year end_year) b Hb) as [r [_ [c [_ ->]]]].
    apply column_div_balanced.
Qed.

Lemma balance_ratio_and_spare_witness :
  balanced 100 120 (Some 1.20) 20.
Proof.
  apply (proj1 (balance_ratio_and_spare example_feed_demand [] example_capacity
                  example_capacity_scenarios 2020 2023)
           (mkConversionBalance 2021 100 120 (Some 1.20) 20)).
  left. reflexivity.
Defined.

End FuelCycleBalancesFacts.


(** * The feed and SWU demand panel *)

Module FuelCycleDemandFacts.
Import FuelCycle FuelCycleDemand FeedDemandVocabulary PanelVocabulary.
Local Open Scope R_scope.

Lemma fold_left_Rplus (l : list R) (a : R) :
  fold_left Rplus l a = a + fold_left Rplus l 0.
Proof.
  revert a. induction l as [|x l IH]; intros a; simpl.
  - lra.
  - rewrite (IH (a + x)), (IH (0 + x)). lra.
Qed.

Lemma Rsum_cons (x : R) (l : list R) : sum (x :: l) = x + sum l.
Proof. unfold sum. simpl. rewrite fold_left_Rplus. lra. Qed.

Lemma Rsum_nil : sum [] = 0.
Proof. reflexivity. Qed.

Lemma yearly_rows (reactor_demand : list ReactorDemand) :
  yearly reactor_demand = map (year_row reactor_demand) (demand_years reactor_demand).
Proof. reflexivity. Qed.

Lemma compute_is_feed_list (reactor_demand : list ReactorDemand)
    (u s : option PriceSeries) (policy : string) (default_tails feed_assay : R) :
  compute_feed_and_swu_demand reactor_demand u s policy default_tails feed_assay
  = feed_list u s policy default_tails feed_assay
      (map (year_row reactor_demand) (demand_years reactor_demand)).
Proof. destruct reactor_demand; reflexivity. Qed.

Section OneCall.
Variables (u s : option PriceSeries) (policy : string)
          (default_tails feed_assay : R).

Lemma feed_list_inv (rows : list YearlyRow) :
  forall out,
    feed_list u s policy default_tails feed_assay rows = inr out ->
    Forall2 (fun row r => feed_row u s policy default_tails feed_assay row = inr r)
      rows out.
Proof.
  induction rows as [|row rows IH]; intros out; simpl.
  - intros [= <-]. constructor.
  - destruct (feed_row u s policy default_tails feed_assay row) as [e|r] eqn:Er;
      [discriminate|]. simpl.
    destruct (feed_list u s policy default_tails feed_assay rows) as [e|more];
      [discriminate|]. simpl.
    intros [= <-]. constructor; [exact Er | apply IH; reflexivity].
Qed.

Lemma feed_list_returns (rows : list YearlyRow) :
  (forall row, In row rows ->
     exists r, feed_row u s policy default_tails feed_assay row = inr r) ->
  exists out, feed_list u s policy default_tails feed_assay rows = inr out.
Proof.
  induction rows as [|row rows IH]; intros H; simpl.
  - eexists. reflexivity.
  - destruct (H row (or_introl eq_refl)) as [r ->]. simpl.
    destruct IH as [more ->]; [intros x Hx; apply H; now right|].
    simpl. eexists. reflexivity.
Qed.

Lemma feed_list_raises (rows : list YearlyRow) (row : YearlyRow) :
  In row rows ->
  (exists e, feed_row u s policy default_tails feed_assay row = inl e) ->
  exists e, feed_list u s policy default_tails feed_assay rows = inl e.
Proof.
  intros Hin [e He]. induction rows as [|a rows IH]; [destruct Hin|].
  simpl. destruct Hin as [->|Hin].
  - rewrite He. simpl. eexists. reflexivity.
  - destruct (feed_row u s policy default_tails feed_assay a) as [e'|r];
      simpl; [eexists; reflexivity|].
    destruct (IH Hin) as [e' ->]. simpl. eexists. reflexivity.
Qed.

(** What a returned row of one year holds. *)
Lemma feed_row_inv (row : YearlyRow) (r : FeedSwuRow) :
  feed_row u s policy default_tails feed_assay row = inr r ->
  year r = y_year row /\
  product_tu r = y_product_tu row /\
  (exists prices,
      priced policy (price_get u (y_year row)) (price_get s (y_year row))
      = inr prices /\
      match prices with
      | Some (pu, ps) =>
          optimize_tails_assay (Some pu) (Some ps) (y_product_assay row)
            feed_assay default_bounds default_grid_points
      | None => ret (fallback_or_default (fallback_tails row) default_tails)
      end = inr (tails_assay_used r)) /\
  feed_and_swu_for_product (y_product_tu row)
    (mkEnrichmentParams feed_assay (y_product_assay row) (tails_assay_used r))
  = inr (feed_tu r, swu_demand_swu r).
Proof.
  unfold feed_row. cbv zeta.
  destruct (priced policy _ _) as [e|prices] eqn:Ep; [discriminate|]. simpl.
  destruct (match prices with Some _ => _ | None => _ end) as [e|tails] eqn:Et;
    [discriminate|]. simpl.
  destruct (feed_and_swu_for_product _ _) as [e|[f w]] eqn:Ef; [discriminate|].
  simpl. intros [= <-]. simpl.
  repeat split; try reflexivity; [|exact Ef].
  exists prices. split; [reflexivity | exact Et].
Qed.

End OneCall.

(** The rows of a returned panel, one per year of the demand table. *)
Lemma compute_rows (reactor_demand : list ReactorDemand)
    (u s : option PriceSeries) (policy : string) (default_tails feed_assay : R)
    (out : list FeedSwuRow) :
  compute_feed_and_swu_demand reactor_demand u s policy default_tails feed_assay
  = inr out ->
  Forall2
    (fun y r =>
       feed_row u s policy default_tails feed_assay (year_row reactor_demand y)
       = inr r)
    (demand_years reactor_demand) out.
Proof.
  rewrite compute_is_feed_list. intros H. apply feed_list_inv in H.
  revert out H. generalize (demand_years reactor_demand) as keys.
  induction keys as [|y keys IH]; intros out H; inversion H; subst; constructor.
  - assumption.
  - apply IH. assumption.
Qed.

(** A returned row and the year of the demand table it comes from. *)
Lemma compute_row (reactor_demand : list ReactorDemand)
    (u s : option PriceSeries) (policy : string) (default_tails feed_assay : R)
    (out : list FeedSwuRow) (r : FeedSwuRow) :
  compute_feed_and_swu_demand reactor_demand u s policy default_tails feed_assay
  = inr out ->
  In r out ->
  In (year r) (demand_years reactor_demand) /\
  feed_row u s policy default_tails feed_assay
    (year_row reactor_demand (year r)) = inr r.
Proof.
  intros H Hr. apply compute_rows in H.
  destruct (FuelCycleBalancesFacts.Forall2_in_right _ _ _ H r Hr) as [y [Hy Hrow]].
  assert (E : year r = y).
  { apply feed_row_inv in Hrow. destruct Hrow as [E _]. exact E. }
  rewrite E. split; assumption.
Qed.

Lemma compute_years (reactor_demand : list ReactorDemand)
    (u s : option PriceSeries) (policy : string) (default_tails feed_assay : R)
    (out : list FeedSwuRow) :
  compute_feed_and_swu_demand reactor_demand u s policy default_tails feed_assay
  = inr out ->
  map year out = demand_years reactor_demand.
Proof.
  intros H. apply compute_rows in H.
  rewrite (FuelCycleBalancesFacts.Forall2_map_eq _ year (fun y => y) _ _ H).
  - apply map_id.
  - intros y r Hrow. apply feed_row_inv in Hrow. destruct Hrow as [E _]. exact E.
Qed.

Lemma Forall2_in_left {A B : Type} (P : A -> B -> Prop) (l : list A) (l' : list B) :
  Forall2 P l l' -> forall a, In a l -> exists b, In b l' /\ P a b.
Proof.
  induction 1 as [|a b l l' Hab _ IH]; intros a0 Hin; [destruct Hin|].
  destruct Hin as [<-|Hin].
  - exists b. split; [now left | exact Hab].
  - destruct (IH a0 Hin) as [b0 [Hb0 Hr]]. exists b0. split; [now right | exact Hr].
Qed.

(** X20.  The shape of the feed and SWU panel: a returned panel has one row
    per year present in the reactor demand table, in ascending order, and the
    product of a row is the sum of the total demand of the table's rows of
    that year. *)
Theorem feed_demand_panel (reactor_demand : list ReactorDemand)
    (u s : option PriceSeries) (policy : string) (default_tails feed_assay : R)
    (out : list FeedSwuRow) :
  compute_feed_and_swu_demand reactor_demand u s policy default_tails feed_assay
  = inr out ->
  ascending (map year out) /\
  (forall y, In y (map year out) <-> exists d, In d reactor_demand /\ rd_year d = y) /\
  (forall r, In r out ->
     product_tu r = sum (map total_tu (rows_of_year reactor_demand (year r)))).
Proof.
  intros H. rewrite (compute_years _ _ _ _ _ _ _ H). split; [|split].
  - apply PanelFacts.group_keys_ascending.
  - intros y. unfold demand_years. rewrite PanelFacts.in_group_keys, in_map_iff.
    split; intros [d [H1 H2]]; exists d; split; assumption.
  - intros r Hr. destruct (compute_row _ _ _ _ _ _ _ _ H Hr) as [_ Hrow].
    apply feed_row_inv in Hrow. destruct Hrow as [_ [Hp _]]. exact Hp.
Qed.

(** X21.  Mass balance of every year: in a returned panel the enrichment of
    each year divides by no zero, the feed is the product times
    (xp - xt) / (xf - xt), and feed times the feed assay equals product times
    xp plus tails mass times xt, where xp is the mean product assay of the
    year's rows and xt the tails assay recorded in the row. *)
Theorem yearly_mass_balance (reactor_demand : list ReactorDemand)
    (u s : option PriceSeries) (policy : string) (default_tails feed_assay : R)
    (out : list FeedSwuRow) (r : FeedSwuRow) :
  compute_feed_and_swu_demand reactor_demand u s policy default_tails feed_assay
  = inr out ->
  In r out ->
  let xp := year_product_assay reactor_demand (year r) in
  let xt := tails_assay_used r in
  enrichable feed_assay xp xt /\
  feed_tu r = (xp - xt) / (feed_assay - xt) * product_tu r /\
  feed_tu r * feed_assay = product_tu r * xp + (feed_tu r - product_tu r) * xt.
Proof.
  intros H Hr xp xt. destruct (compute_row _ _ _ _ _ _ _ _ H Hr) as [_ Hrow].
  apply feed_row_inv in Hrow. destruct Hrow as [_ [Hp [_ Hfs]]].
  apply FuelCycleFacts.feed_and_swu_inv in Hfs. simpl in Hfs.
  destruct Hfs as [Hd [Hxp [Hxt [Hxf [Hf _]]]]].
  fold xp in Hxp, Hf. fold xt in Hd, Hxt, Hf.
  assert (Ef : feed_tu r = (xp - xt) / (feed_assay - xt) * product_tu r).
  { rewrite Hp. exact Hf. }
  split; [|split].
  - unfold enrichable. repeat split; try assumption. lra.
  - exact Ef.
  - rewrite Ef. field. exact Hd.
Qed.

Lemma priced_fixed (policy : string) (cu cs : cell) :
  policy <> "optimize"%string -> priced policy cu cs = inr None.
Proof.
  intros Hp. unfold priced. apply String.eqb_neq in Hp. rewrite Hp. reflexivity.
Qed.

Lemma feed_row_fallback (u s : option PriceSeries) (policy : string)
    (default_tails feed_assay : R) (row : YearlyRow) :
  priced policy (price_get u (y_year row)) (price_get s (y_year row)) = inr None ->
  feed_row u s policy default_tails feed_assay row
  = bind (feed_and_swu_for_product (y_product_tu row)
            (mkEnrichmentParams feed_assay (y_product_assay row)
               (fallback_or_default (fallback_tails row) default_tails)))
      (fun fs => ret (mkFeedSwuRow (y_year row) (y_product_tu row) (fst fs) (snd fs)
                        (fallback_or_default (fallback_tails row) default_tails))).
Proof. intros Hp. unfold feed_row. cbv zeta. rewrite Hp. reflexivity. Qed.

Lemma feed_row_fallback_returns (u s : option PriceSeries) (policy : string)
    (default_tails feed_assay : R) (row : YearlyRow) :
  priced policy (price_get u (y_year row)) (price_get s (y_year row)) = inr None ->
  enrichable feed_assay (y_product_assay row)
    (fallback_or_default (fallback_tails row) default_tails) ->
  exists r, feed_row u s policy default_tails feed_assay row = inr r.
Proof.
  intros Hp [H1 [H2 [H3 H4]]]. rewrite (feed_row_fallback _ _ _ _ _ _ Hp).
  destruct (FuelCycleFacts.feed_and_swu_defined (y_product_tu row)
              (mkEnrichmentParams feed_assay (y_product_assay row)
                 (fallback_or_default (fallback_tails row) default_tails)))
    as [f [w ->]]; try assumption.
  simpl. eexists. reflexivity.
Qed.

Lemma optimize_default_bounds (pu ps xp xf tails : R) :
  optimize_tails_assay (Some pu) (Some ps) xp xf default_bounds default_grid_points
  = inr tails ->
  0.001 <= tails <= 0.003.
Proof.
  apply FuelCycleFacts.grid_search_within_ordered_bounds.
  - unfold default_grid_points. lia.
  - lra.
Qed.

Lemma feed_row_optimized_returns (u s : option PriceSeries) (policy : string)
    (default_tails feed_assay : R) (row : YearlyRow) (pu ps : R) :
  priced policy (price_get u (y_year row)) (price_get s (y_year row))
  = inr (Some (pu, ps)) ->
  y_product_assay row <> 0 -> feed_assay <> 0 ->
  ~ 0.001 <= feed_assay <= 0.003 ->
  exists r, feed_row u s policy default_tails feed_assay row = inr r.
Proof.
  intros Hp Hxp Hxf Hout. unfold feed_row. cbv zeta. rewrite Hp. cbn [bind].
  destruct (FuelCycleMore.optimize_returns pu ps (y_product_assay row) feed_assay
              default_bounds default_grid_points) as [g [tails [_ Ht]]];
    try assumption; [unfold default_grid_points; lia|].
  rewrite Ht. cbn [bind]. pose proof (optimize_default_bounds _ _ _ _ _ Ht) as Hb.
  destruct (FuelCycleFacts.feed_and_swu_defined (y_product_tu row)
              (mkEnrichmentParams feed_assay (y_product_assay row) tails))
    as [f [w ->]]; simpl; try assumption; try lra.
  eexists. reflexivity.
Qed.

Lemma feed_list_fixed (u s u' s' : option PriceSeries) (policy : string)
    (default_tails feed_assay : R) (rows : list YearlyRow) :
  policy <> "optimize"%string ->
  feed_list u s policy default_tails feed_assay rows
  = feed_list u' s' policy default_tails feed_assay rows.
Proof.
  intros Hp. induction rows as [|row rows IH]; simpl; [reflexivity|].
  rewrite IH.
  rewrite (feed_row_fallback u s) by (apply priced_fixed; exact Hp).
  rewrite (feed_row_fallback u' s') by (apply priced_fixed; exact Hp).
  reflexivity.
Qed.

Lemma fixed_policy_returns (reactor_demand : list ReactorDemand)
    (u s : option PriceSeries) (policy : string) (default_tails feed_assay : R) :
  policy <> "optimize"%string ->
  (forall y, In y (demand_years reactor_demand) ->
     enrichable feed_assay (year_product_assay reactor_demand y)
       (year_fixed_tails reactor_demand default_tails y)) ->
  exists out,
    compute_feed_and_swu_demand reactor_demand u s policy default_tails feed_assay
    = inr out.
Proof.
  intros Hp Hall. rewrite compute_is_feed_list. apply feed_list_returns.
  intros row Hrow. apply in_map_iff in Hrow. destruct Hrow as [y [<- Hy]].
  apply feed_row_fallback_returns; [apply priced_fixed; exact Hp|].
  exact (Hall y Hy).
Qed.

(** X22.  A policy other than "optimize" never reads the prices: the call
    gives the same result, returned panel or raised exception, for any two
    pairs of price series; the tails assay of each returned row is the mean
    of the year's tails assays that are numbers, or the default when none is;
    and the call returns exactly when at these assays no year divides by
    zero. *)
Theorem fixed_policy_ignores_prices (reactor_demand : list ReactorDemand)
    (u s u' s' : option PriceSeries) (policy : string)
    (default_tails feed_assay : R) :
  policy <> "optimize"%string ->
  compute_feed_and_swu_demand reactor_demand u s policy default_tails feed_assay
  = compute_feed_and_swu_demand reactor_demand u' s' policy default_tails feed_assay
  /\
  (forall out r,
     compute_feed_and_swu_demand reactor_demand u s policy default_tails feed_assay
     = inr out ->
     In r out ->
     tails_assay_used r = year_fixed_tails reactor_demand default_tails (year r))
  /\
  ((exists out,
      compute_feed_and_swu_demand reactor_demand u s policy default_tails feed_assay
      = inr out)
   <->
   (forall y, In y (demand_years reactor_demand) ->
      enrichable feed_assay (year_product_assay reactor_demand y)
        (year_fixed_tails reactor_demand default_tails y))).
Proof.
  intros Hp. split; [|split].
  - rewrite !compute_is_feed_list. apply feed_list_fixed. exact Hp.
  - intros out r H Hr. destruct (compute_row _ _ _ _ _ _ _ _ H Hr) as [_ Hrow].
    apply feed_row_inv in Hrow.
    destruct Hrow as [_ [_ [[prices [Hpr Ht]] _]]].
    rewrite priced_fixed in Hpr by exact Hp. injection Hpr as <-.
    injection Ht as <-. reflexivity.
  - split.
    + intros [out H] y Hy. apply compute_rows in H.
      destruct (Forall2_in_left _ _ _ H y Hy) as [r [_ Hrow]].
      rewrite feed_row_fallback in Hrow by (apply priced_fixed; exact Hp).
      destruct (feed_and_swu_for_product _ _) as [e|[f w]] eqn:Ef; [discriminate|].
      apply FuelCycleFacts.feed_and_swu_inv in Ef. simpl in Ef.
      destruct Ef as [Hd [Hxp [Hxt [Hxf _]]]].
      unfold enrichable. repeat split; try assumption.
      intros E. apply Hd. unfold year_fixed_tails in E.
      rewrite E. unfold year_row, rows_of_year. simpl. lra.
    + intros Hall. rewrite compute_is_feed_list. apply feed_list_returns.
      intros row Hrow. apply in_map_iff in Hrow. destruct Hrow as [y [<- Hy]].
      apply feed_row_fallback_returns; [apply priced_fixed; exact Hp|].
      exact (Hall y Hy).
Qed.

(** X23.  Under the policy "optimize" the tails assay of a year whose
    uranium and SWU prices are both numbers is the optimizer's, which lies
    within the default bounds 0.001 and 0.003; a year whose uranium price or
    SWU price is absent or NaN takes the mean of its tails assays, or the
    default. *)
Theorem optimized_tails_within_bounds (reactor_demand : list ReactorDemand)
    (u s : option PriceSeries) (default_tails feed_assay : R)
    (out : list FeedSwuRow) (r : FeedSwuRow) :
  compute_feed_and_swu_demand reactor_demand u s "optimize" default_tails feed_assay
  = inr out ->
  In r out ->
  (forall pu ps,
     price_get u (year r) = Scalar (Some pu) ->
     price_get s (year r) = Scalar (Some ps) ->
     0.001 <= tails_assay_used r <= 0.003) /\
  (price_get u (year r) = Scalar None \/ price_get s (year r) = Scalar None ->
   tails_assay_used r = year_fixed_tails reactor_demand default_tails (year r)).
Proof.
  intros H Hr. destruct (compute_row _ _ _ _ _ _ _ _ H Hr) as [_ Hrow].
  apply feed_row_inv in Hrow.
  destruct Hrow as [_ [_ [[prices [Hpr Ht]] _]]].
  change (y_year (year_row reactor_demand (year r))) with (year r) in Hpr.
  split.
  - intros pu ps Hu Hs. rewrite Hu, Hs in Hpr. injection Hpr as <-.
    exact (optimize_default_bounds _ _ _ _ _ Ht).
  - intros Hnone.
    assert (E : prices = None).
    { unfold priced in Hpr. simpl in Hpr.
      destruct Hnone as [Hu|Hs].
      - rewrite Hu in Hpr. now injection Hpr as <-.
      - rewrite Hs in Hpr.
        destruct (price_get u (year r)) as [[pu|]|]; [| |discriminate];
          now injection Hpr as <-. }
    subst prices. injection Ht as <-. reflexivity.
Qed.

Lemma price_get_duplicated (series : option PriceSeries) (y : Z) :
  (2 <= label_count series y)%nat -> price_get series y = SubSeries.
Proof.
  destruct series as [rows|]; simpl; [|lia].
  destruct (filter _ rows) as [|a [|b l]]; simpl; try lia. reflexivity.
Qed.

(** X24.  Under the policy "optimize" a price label that occurs twice makes
    the call raise: when a year of the demand table labels two or more rows
    of the uranium price series, or has a uranium price that is a number and
    labels two or more rows of the SWU price series, no panel is returned. *)
Theorem duplicated_price_label_raises (reactor_demand : list ReactorDemand)
    (u s : option PriceSeries) (default_tails feed_assay : R) (y : Z) :
  In y (demand_years reactor_demand) ->
  (2 <= label_count u y)%nat \/
  ((exists pu, price_get u y = Scalar (Some pu)) /\ (2 <= label_count s y)%nat) ->
  exists e,
    compute_feed_and_swu_demand reactor_demand u s "optimize" default_tails
      feed_assay = inl e.
Proof.
  intros Hy Hdup. rewrite compute_is_feed_list.
  apply (feed_list_raises _ _ _ _ _ _ (year_row reactor_demand y)).
  - apply in_map. exact Hy.
  - unfold feed_row. cbv zeta.
    change (y_year (year_row reactor_demand y)) with y.
    destruct Hdup as [Hu|[[pu Hu] Hs]].
    + rewrite (price_get_duplicated _ _ Hu). simpl. eexists. reflexivity.
    + rewrite Hu, (price_get_duplicated _ _ Hs). simpl. eexists. reflexivity.
Qed.


Lemma Rsum_map_plus {A : Type} (f g : A -> R) (l : list A) :
  sum (map (fun x => f x + g x) l) = sum (map f l) + sum (map g l).
Proof.
  induction l as [|a l IH]; simpl.
  - rewrite Rsum_nil. lra.
  - rewrite !Rsum_cons, IH. lra.
Qed.

Lemma Rsum_map_zero {A : Type} (f : A -> R) (l : list A) :
  (forall x, In x l -> f x = 0) -> sum (map f l) = 0.
Proof.
  induction l as [|a l IH]; intros H; simpl; [reflexivity|].
  rewrite Rsum_cons, (H a (or_introl eq_refl)), IH; [lra|].
  intros x Hx. apply H. now right.
Qed.

(** Over distinct keys, the amounts booked under one key add up to the
    amount when the key is among them. *)
Lemma Rsum_one_key (k : Z) (t : R) (keys : list Z) :
  NoDup keys -> In k keys ->
  sum (map (fun y => if (k =? y)%Z then t else 0) keys) = t.
Proof.
  induction 1 as [|a keys Hnotin Hnd IH]; intros Hin; [destruct Hin|].
  simpl. rewrite Rsum_cons. destruct Hin as [->|Hin].
  - rewrite Z.eqb_refl. rewrite Rsum_map_zero; [lra|].
    intros y Hy. destruct (Z.eqb_spec k y) as [->|_]; [contradiction|reflexivity].
  - destruct (Z.eqb_spec k a) as [->|_]; [contradiction|].
    rewrite (IH Hin). lra.
Qed.

(** Grouping by year loses nothing: the group sums over distinct keys that
    cover the table add up to the sum of the column. *)
Lemma group_sums_total (reactor_demand : list ReactorDemand) (keys : list Z) :
  NoDup keys ->
  (forall d, In d reactor_demand -> In (rd_year d) keys) ->
  sum (map (fun y => sum (map total_tu (rows_of_year reactor_demand y))) keys)
  = sum (map total_tu reactor_demand).
Proof.
  intros Hnd. induction reactor_demand as [|d rest IH]; intros Hcover.
  - simpl. apply Rsum_map_zero. intros y _. reflexivity.
  - rewrite (map_ext _
               (fun y => (if (rd_year d =? y)%Z then total_tu d else 0)
                         + sum (map total_tu (rows_of_year rest y)))).
    + rewrite Rsum_map_plus, (Rsum_one_key _ _ _ Hnd (Hcover d (or_introl eq_refl))).
      rewrite IH by (intros x Hx; apply Hcover; now right).
      simpl. rewrite Rsum_cons. reflexivity.
    + intros y. unfold rows_of_year. simpl.
      destruct (rd_year d =? y)%Z; simpl; [rewrite Rsum_cons; reflexivity | lra].
Qed.

(** X25.  Aggregation conserves the product: the products of a returned
    panel add up to the total demand of all rows of the reactor demand
    table. *)
Theorem feed_demand_conserves_product (reactor_demand : list ReactorDemand)
    (u s : option PriceSeries) (policy : string) (default_tails feed_assay : R)
    (out : list FeedSwuRow) :
  compute_feed_and_swu_demand reactor_demand u s policy default_tails feed_assay
  = inr out ->
  sum (map product_tu out) = sum (map total_tu reactor_demand).
Proof.
  intros H. apply compute_rows in H.
  rewrite (FuelCycleBalancesFacts.Forall2_map_eq _ product_tu
             (fun y => sum (map total_tu (rows_of_year reactor_demand y))) _ _ H).
  - apply group_sums_total.
    + apply PanelFacts.ascending_NoDup, PanelFacts.group_keys_ascending.
    + intros d Hd. unfold demand_years. apply PanelFacts.in_group_keys.
      apply in_map. exact Hd.
  - intros y r Hrow. apply feed_row_inv in Hrow.
    destruct Hrow as [_ [Hp _]]. exact Hp.
Qed.

(** The example call returns a panel of two rows, under either policy. *)
Lemma example_demand_years : demand_years example_reactor_demand = [2030; 2031]%Z.
Proof. reflexivity. Qed.

Lemma example_call_returns (policy : string) :
  policy = "optimize"%string \/ policy = "fixed"%string ->
  exists r1 r2,
    compute_feed_and_swu_demand example_reactor_demand
      (Some example_u_price) (Some example_swu_price) policy
      DEFAULT_TAILS_ASSAY NATURAL_U235_ASSAY = inr [r1; r2].
Proof.
  intros Hpol.
  assert (Hret : exists out,
             compute_feed_and_swu_demand example_reactor_demand
               (Some example_u_price) (Some example_swu_price) policy
               DEFAULT_TAILS_ASSAY NATURAL_U235_ASSAY = inr out).
  { rewrite compute_is_feed_list, example_demand_years.
    apply feed_list_returns. intros row [<-|[<-|[]]].
    - destruct Hpol as [->| ->].
      + apply (feed_row_optimized_returns _ _ _ _ _ _ 80 120);
          [reflexivity | | | ];
          unfold NATURAL_U235_ASSAY; simpl; unfold year_product_assay, mean, sum;
          simpl; lra.
      + apply feed_row_fallback_returns; [reflexivity|].
        unfold enrichable, NATURAL_U235_ASSAY, DEFAULT_TAILS_ASSAY.
        repeat split; simpl; unfold year_product_assay, mean, sum; simpl; lra.
    - apply feed_row_fallback_returns;
        [destruct Hpol as [->| ->]; reflexivity|].
      unfold enrichable, NATURAL_U235_ASSAY, DEFAULT_TAILS_ASSAY.
      repeat split; simpl;
        unfold year_product_assay, nanmean, mean, sum; simpl;
        unfold mean, sum; simpl; lra. }
  destruct Hret as [out H]. pose proof (compute_years _ _ _ _ _ _ _ H) as Hy.
  rewrite example_demand_years in Hy.
  destruct out as [|r1 [|r2 [|r3 out]]]; try discriminate Hy.
  exists r1, r2. exact H.
Qed.


Lemma example_panel_row :
  exists out r,
    compute_feed_and_swu_demand example_reactor_demand
      (Some example_u_price) (Some example_swu_price) "optimize"
      DEFAULT_TAILS_ASSAY NATURAL_U235_ASSAY = inr out /\
    In r out /\ year r = 2031%Z.
Proof.
  destruct (example_call_returns "optimize" (or_introl eq_refl)) as [r1 [r2 H]].
  exists [r1; r2], r2. split; [exact H|]. split; [right; now left|].
  pose proof (compute_years _ _ _ _ _ _ _ H) as Hy.
  rewrite example_demand_years in Hy. now injection Hy.
Qed.


Lemma feed_demand_panel_witness :
  exists out,
    compute_feed_and_swu_demand example_reactor_demand
      (Some example_u_price) (Some example_swu_price) "optimize"
      DEFAULT_TAILS_ASSAY NATURAL_U235_ASSAY = inr out /\
    ascending (map year out) /\
    (forall y, In y (map year out)
               <-> exists d, In d example_reactor_demand /\ rd_year d = y) /\
    (forall r, In r out ->
       product_tu r
       = sum (map total_tu (rows_of_year example_reactor_demand (year r)))).
Proof.
  destruct (example_call_returns "optimize" (or_introl eq_refl)) as [r1 [r2 H]].
  exists [r1; r2]. split; [exact H|].
  exact (feed_demand_panel _ _ _ _ _ _ _ H).
Defined.

Lemma yearly_mass_balance_witness :
  exists out r,
    compute_feed_and_swu_demand example_reactor_demand
      (Some example_u_price) (Some example_swu_price) "optimize"
      DEFAULT_TAILS_ASSAY NATURAL_U235_ASSAY = inr out /\
    In r out /\
    feed_tu r * NATURAL_U235_ASSAY
    = product_tu r * year_product_assay example_reactor_demand (year r)
      + (feed_tu r - product_tu r) * tails_assay_used r.
Proof.
  destruct example_panel_row as [out [r [H [Hr _]]]].
  exists out, r. split; [exact H|]. split; [exact Hr|].
  exact (proj2 (proj2 (yearly_mass_balance _ _ _ _ _ _ _ _ H Hr))).
Defined.

Lemma fixed_policy_ignores_prices_witness :
  "fixed"%string <> "optimize"%string /\
  compute_feed_and_swu_demand example_reactor_demand
    (Some example_u_price) (Some example_swu_price) "fixed"
    DEFAULT_TAILS_ASSAY NATURAL_U235_ASSAY
  = compute_feed_and_swu_demand example_reactor_demand None None "fixed"
      DEFAULT_TAILS_ASSAY NATURAL_U235_ASSAY.
Proof.
  assert (Hp : "fixed"%string <> "optimize"%string) by discriminate.
  split; [exact Hp|].
  exact (proj1 (fixed_policy_ignores_prices example_reactor_demand
                  (Some example_u_price) (Some example_swu_price) None None
                  "fixed" DEFAULT_TAILS_ASSAY NATURAL_U235_ASSAY Hp)).
Defined.

Lemma optimized_tails_within_bounds_witness :
  exists out r,
    compute_feed_and_swu_demand example_reactor_demand
      (Some example_u_price) (Some example_swu_price) "optimize"
      DEFAULT_TAILS_ASSAY NATURAL_U235_ASSAY = inr out /\
    In r out /\
    year r = 2031%Z /\
    tails_assay_used r
    = year_fixed_tails example_reactor_demand DEFAULT_TAILS_ASSAY (year r).
Proof.
  destruct example_panel_row as [out [r [H [Hr Hy]]]].
  exists out, r. split; [exact H|]. split; [exact Hr|]. split; [exact Hy|].
  apply (proj2 (optimized_tails_within_bounds _ _ _ _ _ _ _ H Hr)).
  left. rewrite Hy. reflexivity.
Defined.

Lemma duplicated_price_label_raises_witness :
  In 2031%Z (demand_years example_reactor_demand) /\
  (2 <= label_count (Some example_swu_price) 2031)%nat /\
  exists e,
    compute_feed_and_swu_demand example_reactor_demand
      (Some example_swu_price) None "optimize"
      DEFAULT_TAILS_ASSAY NATURAL_U235_ASSAY = inl e.
Proof.
  assert (Hy : In 2031%Z (demand_years example_reactor_demand)).
  { rewrite example_demand_years. right. now left. }
  assert (Hd : (2 <= label_count (Some example_swu_price) 2031)%nat).
  { simpl. lia. }
  split; [exact Hy|]. split; [exact Hd|].
  exact (duplicated_price_label_raises example_reactor_demand
           (Some example_swu_price) None DEFAULT_TAILS_ASSAY NATURAL_U235_ASSAY
           2031 Hy (or_introl Hd)).
Defined.

Lemma feed_demand_conserves_product_witness :
  exists out,
    compute_feed_and_swu_demand example_reactor_demand
      (Some example_u_price) (Some example_swu_price) "optimize"
      DEFAULT_TAILS_ASSAY NATURAL_U235_ASSAY = inr out /\
    sum (map product_tu out) = sum (map total_tu example_reactor_demand).
Proof.
  destruct (example_call_returns "optimize" (or_introl eq_refl)) as [r1 [r2 H]].
  exists [r1; r2]. split; [exact H|].
  exact (feed_demand_conserves_product _ _ _ _ _ _ _ H).
Defined.

End FuelCycleDemandFacts.


(** * The supply and demand panel *)

Module BalancesFacts.
Import FuelCycleBalances Balances BalanceVocabulary SdPanelVocabulary PanelVocabulary.
Local Open Scope Q_scope.

(** ** The left merge *)

Lemma in_merge_left {A B : Type} (left_year : A -> Z) (right_year : B -> Z)
    (join : A -> option B -> A) (left : list A) (right : list B) (c : A) :
  In c (merge_left left_year right_year join left right) <->
  exists a, In a left /\
    ((exists b, In b right /\ right_year b = left_year a /\ c = join a (Some b)) \/
     ((forall b, In b right -> right_year b <> left_year a) /\ c = join a None)).
Proof.
  unfold merge_left. rewrite in_flat_map. split.
  - intros [a [Ha Hc]]. exists a. split; [exact Ha|].
    destruct (filter _ right) as [|b0 l] eqn:Ef.
    + right. destruct Hc as [<-|[]]. split; [|reflexivity].
      intros b Hb E.
      assert (Hin : In b (filter (fun b => (right_year b =? left_year a)%Z) right)).
      { apply filter_In. split; [exact Hb | now apply Z.eqb_eq]. }
      rewrite Ef in Hin. destruct Hin.
    + left. apply in_map_iff in Hc. destruct Hc as [b [<- Hb]].
      rewrite <- Ef in Hb. apply filter_In in Hb. destruct Hb as [Hb E].
      exists b. repeat split; [exact Hb | now apply Z.eqb_eq].
  - intros [a [Ha H]]. exists a. split; [exact Ha|].
    destruct H as [[b [Hb [E ->]]]|[Hnone ->]].
    + assert (Hin : In b (filter (fun b => (right_year b =? left_year a)%Z) right)).
      { apply filter_In. split; [exact Hb | now apply Z.eqb_eq]. }
      destruct (filter _ right) as [|b0 l]; [destruct Hin|].
      apply (in_map (fun b => join a (Some b))). exact Hin.
    + destruct (filter _ right) as [|b0 l] eqn:Ef; [now left|].
      exfalso.
      assert (Hin : In b0 (filter (fun b => (right_year b =? left_year a)%Z) right))
        by (rewrite Ef; now left).
      apply filter_In in Hin. destruct Hin as [Hin E].
      apply (Hnone b0 Hin). now apply Z.eqb_eq.
Qed.

Lemma filter_find_distinct {B : Type} (right_year : B -> Z) (right : list B) (y : Z) :
  NoDup (map right_year right) ->
  filter (fun b => (right_year b =? y)%Z) right
  = match find (fun b => (right_year b =? y)%Z) right with
    | Some b => [b]
    | None => []
    end.
Proof.
  induction right as [|b right IH]; intros Hnd; simpl; [reflexivity|].
  inversion Hnd as [|? ? Hnotin Hnd']; subst.
  destruct (Z.eqb_spec (right_year b) y) as [E|_].
  - f_equal. destruct (filter _ right) as [|b' l] eqn:Ef; [reflexivity|].
    exfalso. apply Hnotin.
    assert (Hin : In b' (filter (fun b0 => (right_year b0 =? y)%Z) right))
      by (rewrite Ef; now left).
    apply filter_In in Hin. destruct Hin as [Hin E'].
    apply Z.eqb_eq in E'. rewrite E, <- E'. apply in_map. exact Hin.
  - apply IH. exact Hnd'.
Qed.

(** Against a table with one row per year, the merge keeps the rows of the
    left table, each with the row of its year if there is one. *)
Lemma merge_left_distinct {A B : Type} (left_year : A -> Z) (right_year : B -> Z)
    (join : A -> option B -> A) (left : list A) (right : list B) :
  NoDup (map right_year right) ->
  merge_left left_year right_year join left right
  = map (fun a => join a (find (fun b => (right_year b =? left_year a)%Z) right))
      left.
Proof.
  intros Hnd. unfold merge_left. induction left as [|a left IH]; [reflexivity|].
  cbn [flat_map]. rewrite IH, (filter_find_distinct _ _ _ Hnd). cbn [map].
  destruct (find _ right); reflexivity.
Qed.

Lemma merge_left_Forall {A B : Type} (left_year : A -> Z) (right_year : B -> Z)
    (join : A -> option B -> A) (P Q : A -> Prop) (left : list A) (right : list B) :
  (forall a b, P a -> In b right -> right_year b = left_year a ->
               Q (join a (Some b))) ->
  (forall a, P a -> (forall b, In b right -> right_year b <> left_year a) ->
             Q (join a None)) ->
  Forall P left ->
  Forall Q (merge_left left_year right_year join left right).
Proof.
  intros Hsome Hnone Hall. apply Forall_forall. intros c Hc.
  apply in_merge_left in Hc. destruct Hc as [a [Ha H]].
  pose proof (proj1 (Forall_forall P left) Hall a Ha) as HP.
  destruct H as [[b [Hb [E ->]]]|[Hn ->]].
  - apply (Hsome a b HP Hb E).
  - apply (Hnone a HP Hn).
Qed.

(** ** The sort *)

Lemma insert_row_perm (r : SdRow) (l : list SdRow) :
  Permutation (insert_row r l) (r :: l).
Proof.
  induction l as [|h t IH]; simpl; [reflexivity|].
  destruct (year r <=? year h)%Z; [reflexivity|].
  rewrite IH. apply perm_swap.
Qed.

Lemma sort_values_year_perm (l : list SdRow) : Permutation (sort_values_year l) l.
Proof.
  induction l as [|r l IH]; simpl; [reflexivity|].
  rewrite insert_row_perm. now constructor.
Qed.

Lemma insert_row_nondescending (r : SdRow) (l : list SdRow) :
  nondescending (map year l) -> nondescending (map year (insert_row r l)).
Proof.
  induction l as [|h t IH]; intros H; simpl.
  - split; [intros y []|exact I].
  - destruct H as [Hh Ht]. destruct (Z.leb_spec (year r) (year h)) as [Hle|Hgt]; simpl.
    + split; [|split; assumption].
      intros y [<-|Hy]; [exact Hle|]. specialize (Hh y Hy). lia.
    + split; [|apply IH; exact Ht].
      intros y Hy. apply in_map_iff in Hy. destruct Hy as [x [<- Hx]].
      apply (Permutation_in _ (insert_row_perm r t)) in Hx.
      destruct Hx as [<-|Hx]; [lia|]. apply Hh. apply in_map. exact Hx.
Qed.

Lemma sort_values_year_nondescending (l : list SdRow) :
  nondescending (map year (sort_values_year l)).
Proof.
  induction l as [|r l IH]; simpl; [exact I|].
  apply insert_row_nondescending. exact IH.
Qed.

Lemma sort_values_year_sorted (l : list SdRow) :
  ascending (map year l) -> sort_values_year l = l.
Proof.
  induction l as [|r l IH]; intros H; simpl; [reflexivity|].
  destruct H as [Hr Hl]. rewrite (IH Hl).
  destruct l as [|h t]; [reflexivity|]. simpl.
  destruct (Z.leb_spec (year r) (year h)) as [_|Hgt]; [reflexivity|].
  specialize (Hr (year h) (or_introl eq_refl)). lia.
Qed.

(** ** The computed columns *)

Lemma in_fill_rows (rows : list Merged) :
  forall last r,
    In r (fill_rows last rows) ->
    exists m inventory, In m rows /\ r = panel_row m inventory.
Proof.
  induction rows as [|m rows IH]; intros last r Hr; [destruct Hr|].
  simpl in Hr. destruct Hr as [<-|Hr].
  - eexists. eexists. split; [now left | reflexivity].
  - destruct (IH _ _ Hr) as [m' [inv [Hm ->]]].
    exists m', inv. split; [now right | reflexivity].
Qed.

Lemma fill_rows_keys (rows : list Merged) :
  forall last,
    map (fun r => (year r, feed_tu r)) (fill_rows last rows)
    = map (fun m => (m_year m, FuelCycleBalances.feed_tu (m_feed m))) rows.
Proof.
  induction rows as [|m rows IH]; intros last; simpl; [reflexivity|].
  rewrite IH. reflexivity.
Qed.


(** ** The merges of [build_sd_panel] *)

Section Tables.
Variables (feed_demand : list FeedDemand)
          (primary_supply : list PrimarySupply.PrimarySupplyRow)
          (secondary_supply : list SecondarySupplyPanel.SecondarySupplyRow).

Lemma supplied_after_supply_merges :
  Forall (supplied feed_demand primary_supply secondary_supply)
    (merge_secondary (merge_primary (from_feed feed_demand) primary_supply)
       secondary_supply).
Proof.
  unfold merge_secondary.
  apply merge_left_Forall
    with (P := fun m =>
                 In (m_feed m) feed_demand /\
                 partner PrimarySupply.year primary_supply (m_year m) (m_primary m)).
  - intros m b [Hf Hp] Hb E. repeat split; assumption.
  - intros m [Hf Hp] Hn. repeat split; assumption.
  - unfold merge_primary.
    apply merge_left_Forall with (P := fun m => In (m_feed m) feed_demand).
    + intros m b Hf Hb E. repeat split; assumption.
    + intros m Hf Hn. split; assumption.
    + apply Forall_forall. intros m Hm. unfold from_feed in Hm.
      apply in_map_iff in Hm. destruct Hm as [f [<- Hf]]. exact Hf.
Qed.

Lemma supplied_after_inventories (df : list Merged)
    (inventories : option (list SecondarySupply.InventoryRow)) :
  Forall (supplied feed_demand primary_supply secondary_supply) df ->
  Forall (supplied feed_demand primary_supply secondary_supply)
    (merge_inventories df inventories).
Proof.
  intros H. unfold merge_inventories.
  destruct inventories as [[|i inv]|].
  - apply Forall_forall. intros m Hm. apply in_map_iff in Hm.
    destruct Hm as [m0 [<- Hm0]]. exact (proj1 (Forall_forall _ _) H m0 Hm0).
  - apply merge_left_Forall
      with (P := supplied feed_demand primary_supply secondary_supply);
      [intros m b Hm _ _; exact Hm | intros m Hm _; exact Hm | exact H].
  - apply Forall_forall. intros m Hm. apply in_map_iff in Hm.
    destruct Hm as [m0 [<- Hm0]]. exact (proj1 (Forall_forall _ _) H m0 Hm0).
Qed.

Lemma supplied_after_conv (df : list Merged)
    (conv_balance : option (list ConversionBalance)) :
  Forall (supplied feed_demand primary_supply secondary_supply) df ->
  Forall (supplied feed_demand primary_supply secondary_supply)
    (merge_conv df conv_balance).
Proof.
  intros H. unfold merge_conv.
  destruct conv_balance as [[|c conv]|]; try exact H.
  apply merge_left_Forall
    with (P := supplied feed_demand primary_supply secondary_supply);
    [intros m b Hm _ _; exact Hm | intros m Hm _; exact Hm | exact H].
Qed.

Lemma supplied_after_enr (df : list Merged)
    (enr_balance : option (list EnrichmentBalance)) :
  Forall (supplied feed_demand primary_supply secondary_supply) df ->
  Forall (supplied feed_demand primary_supply secondary_supply)
    (merge_enr df enr_balance).
Proof.
  intros H. unfold merge_enr.
  destruct enr_balance as [[|c enr]|]; try exact H.
  apply merge_left_Forall
    with (P := supplied feed_demand primary_supply secondary_supply);
    [intros m b Hm _ _; exact Hm | intros m Hm _; exact Hm | exact H].
Qed.

(** Every row of the panel is the row of a merged row that comes from the
    feed demand and has its partners from the supply tables. *)
Lemma panel_row_origin
    (inventories : option (list SecondarySupply.InventoryRow))
    (conv_balance : option (list ConversionBalance))
    (enr_balance : option (list EnrichmentBalance)) (r : SdRow) :
  In r (build_sd_panel feed_demand primary_supply secondary_supply inventories
          conv_balance enr_balance) ->
  exists m inventory,
    supplied feed_demand primary_supply secondary_supply m /\
    r = panel_row m inventory.
Proof.
  unfold build_sd_panel. cbv zeta. intros Hr.
  apply (Permutation_in _ (sort_values_year_perm _)) in Hr.
  apply in_fill_rows in Hr. destruct Hr as [m [inv [Hm ->]]].
  exists m, inv. split; [|reflexivity].
  refine (proj1 (Forall_forall _ _) _ m Hm).
  apply supplied_after_enr, supplied_after_conv, supplied_after_inventories,
    supplied_after_supply_merges.
Qed.

End Tables.

Lemma partner_supply_cell {B : Type} (right_year : B -> Z) (value : B -> Q)
    (right : list B) (y : Z) (cell : option B) :
  partner right_year right y cell ->
  supply_cell right_year value right y (fillna (option_map value cell)).
Proof.
  destruct cell as [b|]; simpl.
  - intros [Hb E]. left. exists b. repeat split; assumption.
  - intros Hn. right. split; [exact Hn | reflexivity].
Qed.

(** X26.  The supply columns of the panel: every row carries the year and
    feed of a feed demand row; its primary and its secondary supply are those
    of a row of that year in the supply table, and zero when the table has no
    row of that year; the total supply is their sum, the balance is total
    supply minus feed, and the balance ratio, not a finite number for a zero
    feed, times the feed gives the total supply. *)
Theorem sd_panel_supply_columns (feed_demand : list FeedDemand)
    (primary_supply : list PrimarySupply.PrimarySupplyRow)
    (secondary_supply : list SecondarySupplyPanel.SecondarySupplyRow)
    (inventories : option (list SecondarySupply.InventoryRow))
    (conv_balance : option (list ConversionBalance))
    (enr_balance : option (list EnrichmentBalance)) (r : SdRow) :
  In r (build_sd_panel feed_demand primary_supply secondary_supply inventories
          conv_balance enr_balance) ->
  (exists f, In f feed_demand /\ fd_year f = year r
             /\ FuelCycleBalances.feed_tu f = feed_tu r) /\
  supply_cell PrimarySupply.year PrimarySupply.primary_supply_tu
    primary_supply (year r) (primary_supply_tu r) /\
  supply_cell SecondarySupplyPanel.year SecondarySupplyPanel.secondary_supply_tu
    secondary_supply (year r) (secondary_supply_tu r) /\
  total_supply_tu r = primary_supply_tu r + secondary_supply_tu r /\
  balanced (feed_tu r) (total_supply_tu r) (balance_ratio r) (balance_tu r).
Proof.
  intros Hr. apply panel_row_origin in Hr.
  destruct Hr as [m [inv [[Hf [Hp Hs]] ->]]].
  split; [|split; [|split; [|split]]].
  - exists (m_feed m). repeat split. exact Hf.
  - apply partner_supply_cell. exact Hp.
  - apply partner_supply_cell. exact Hs.
  - reflexivity.
  - apply FuelCycleBalancesFacts.column_div_balanced.
Qed.

Lemma sd_panel_supply_columns_witness :
  supply_cell PrimarySupply.year PrimarySupply.primary_supply_tu
    example_primary_supply 2022 0.
Proof.
  apply (proj1 (proj2 (sd_panel_supply_columns example_feed example_primary_supply
                         example_secondary_supply example_inventories None None
                         (mkSdRow 2022 0 0 0 None None 300 None None 0 0 None None)
                         (or_intror (or_intror (or_introl eq_refl)))))).
Defined.


(** ** Tables with one row per year *)

Lemma merge_left_feed {B : Type} (right_year : B -> Z)
    (join : Merged -> option B -> Merged) (df : list Merged) (right : list B) :
  NoDup (map right_year right) ->
  (forall m cell, m_feed (join m cell) = m_feed m) ->
  map m_feed (merge_left m_year right_year join df right) = map m_feed df.
Proof.
  intros Hnd Hjoin. rewrite (merge_left_distinct _ _ _ _ _ Hnd), map_map.
  apply map_ext. intros m. apply Hjoin.
Qed.

(** Merged with tables of one row per year, the frame keeps the rows of the
    feed demand, one for one and in their order. *)
Lemma merged_feed_rows (feed_demand : list FeedDemand)
    (primary_supply : list PrimarySupply.PrimarySupplyRow)
    (secondary_supply : list SecondarySupplyPanel.SecondarySupplyRow)
    (inventories : option (list SecondarySupply.InventoryRow))
    (conv_balance : option (list ConversionBalance))
    (enr_balance : option (list EnrichmentBalance)) :
  NoDup (map PrimarySupply.year primary_supply) ->
  NoDup (map SecondarySupplyPanel.year secondary_supply) ->
  NoDup (years_of SecondarySupply.year inventories) ->
  NoDup (years_of cb_year conv_balance) ->
  NoDup (years_of eb_year enr_balance) ->
  map m_feed
    (merge_enr
       (merge_conv
          (merge_inventories
             (merge_secondary (merge_primary (from_feed feed_demand) primary_supply)
                secondary_supply)
             inventories)
          conv_balance)
       enr_balance)
  = feed_demand.
Proof.
  intros Hp Hs Hi Hc He.
  assert (E5 : forall df, map m_feed (merge_enr df enr_balance) = map m_feed df).
  { intros df. unfold merge_enr. destruct enr_balance as [[|e enr]|]; try reflexivity.
    apply merge_left_feed; [exact He | reflexivity]. }
  assert (E4 : forall df, map m_feed (merge_conv df conv_balance) = map m_feed df).
  { intros df. unfold merge_conv. destruct conv_balance as [[|c conv]|]; try reflexivity.
    apply merge_left_feed; [exact Hc | reflexivity]. }
  assert (E3 : forall df, map m_feed (merge_inventories df inventories) = map m_feed df).
  { intros df. unfold merge_inventories.
    destruct inventories as [[|i inv]|];
      try (rewrite map_map; apply map_ext; reflexivity).
    apply merge_left_feed; [exact Hi | reflexivity]. }
  rewrite E5, E4, E3. unfold merge_secondary, merge_primary.
  rewrite merge_left_feed by (assumption || reflexivity).
  rewrite merge_left_feed by (assumption || reflexivity).
  unfold from_feed. rewrite map_map. apply map_id.
Qed.

Lemma panel_keys_before_sort (df : list Merged) (last : option Q) :
  map (fun r => (year r, feed_tu r)) (fill_rows last df)
  = map (fun f => (fd_year f, FuelCycleBalances.feed_tu f)) (map m_feed df).
Proof. rewrite fill_rows_keys, map_map. reflexivity. Qed.

(** X27.  The rows of the panel: they come in non-descending order of year;
    and when the supply, inventory and balance tables each have at most one
    row per year, the panel has exactly one row per row of the feed demand,
    with that row's year and feed (no row lost, none repeated). *)
Theorem sd_panel_rows (feed_demand : list FeedDemand)
    (primary_supply : list PrimarySupply.PrimarySupplyRow)
    (secondary_supply : list SecondarySupplyPanel.SecondarySupplyRow)
    (inventories : option (list SecondarySupply.InventoryRow))
    (conv_balance : option (list ConversionBalance))
    (enr_balance : option (list EnrichmentBalance)) :
  let panel :=
    build_sd_panel feed_demand primary_supply secondary_supply inventories
      conv_balance enr_balance in
  nondescending (map year panel) /\
  (NoDup (map PrimarySupply.year primary_supply) ->
   NoDup (map SecondarySupplyPanel.year secondary_supply) ->
   NoDup (years_of SecondarySupply.year inventories) ->
   NoDup (years_of cb_year conv_balance) ->
   NoDup (years_of eb_year enr_balance) ->
   Permutation (map (fun r => (year r, feed_tu r)) panel)
     (map (fun f => (fd_year f, FuelCycleBalances.feed_tu f)) feed_demand)).
Proof.
  intros panel. split.
  - apply sort_values_year_nondescending.
  - intros Hp Hs Hi Hc He. unfold panel, build_sd_panel. cbv zeta.
    rewrite (Permutation_map _ (sort_values_year_perm _)).
    rewrite panel_keys_before_sort, merged_feed_rows by assumption.
    reflexivity.
Qed.

Lemma sd_panel_rows_witness :
  Permutation
    (map (fun r => (year r, feed_tu r))
       (build_sd_panel example_feed example_primary_supply
          example_secondary_supply example_inventories None None))
    (map (fun f => (fd_year f, FuelCycleBalances.feed_tu f)) example_feed).
Proof.
  apply (proj2 (sd_panel_rows example_feed example_primary_supply
                  example_secondary_supply example_inventories None None)).
  - repeat constructor; simpl; intuition discriminate.
  - repeat constructor; simpl; intuition discriminate.
  - repeat constructor; simpl; intuition discriminate.
  - constructor.
  - constructor.
Defined.

Lemma find_distinct {B : Type} (right_year : B -> Z) (right : list B) (b : B) :
  NoDup (map right_year right) ->
  In b right ->
  find (fun x => (right_year x =? right_year b)%Z) right = Some b.
Proof.
  induction right as [|a right IH]; intros Hnd Hin; [destruct Hin|].
  inversion Hnd as [|? ? Hnotin Hnd']; subst. simpl.
  destruct Hin as [->|Hin]; [now rewrite Z.eqb_refl|].
  destruct (Z.eqb_spec (right_year a) (right_year b)) as [E|_].
  - exfalso. apply Hnotin. rewrite E. apply in_map. exact Hin.
  - apply IH; assumption.
Qed.

Lemma find_absent {B : Type} (right_year : B -> Z) (right : list B) (y : Z) :
  (forall b, In b right -> right_year b <> y) ->
  find (fun x => (right_year x =? y)%Z) right = None.
Proof.
  induction right as [|a right IH]; intros H; simpl; [reflexivity|].
  destruct (Z.eqb_spec (right_year a) y) as [E|_].
  - exfalso. apply (H a); [now left | exact E].
  - apply IH. intros b Hb. apply H. now right.
Qed.

(** The inventory cells after the merges, for an inventory table with rows
    and one row per year. *)
Lemma merged_inventory_cells (df : list Merged)
    (i : SecondarySupply.InventoryRow) (inv : list SecondarySupply.InventoryRow)
    (conv_balance : option (list ConversionBalance))
    (enr_balance : option (list EnrichmentBalance)) :
  NoDup (map SecondarySupply.year (i :: inv)) ->
  Forall (fun m => m_inventory m = inventory_at (Some (i :: inv)) (m_year m))
    (merge_enr (merge_conv (merge_inventories df (Some (i :: inv))) conv_balance)
       enr_balance).
Proof.
  intros Hnd.
  assert (H3 : Forall (fun m => m_inventory m
                                = inventory_at (Some (i :: inv)) (m_year m))
                 (merge_inventories df (Some (i :: inv)))).
  { unfold merge_inventories.
    apply merge_left_Forall with (P := fun _ => True).
    - intros m b _ Hb E. unfold inventory_at, m_year. cbn [m_inventory m_feed].
      fold (m_year m). rewrite <- E, (find_distinct _ _ _ Hnd Hb). reflexivity.
    - intros m _ Hn. unfold inventory_at, m_year. cbn [m_inventory m_feed].
      fold (m_year m). rewrite (find_absent _ _ _ Hn). reflexivity.
    - apply Forall_forall. intros; exact I. }
  assert (H4 : Forall (fun m => m_inventory m
                                = inventory_at (Some (i :: inv)) (m_year m))
                 (merge_conv (merge_inventories df (Some (i :: inv))) conv_balance)).
  { unfold merge_conv. destruct conv_balance as [[|c conv]|]; try exact H3.
    eapply merge_left_Forall; [| |exact H3].
    - intros m b Hm _ _. exact Hm.
    - intros m Hm _. exact Hm. }
  unfold merge_enr. destruct enr_balance as [[|e enr]|]; try exact H4.
  eapply merge_left_Forall; [| |exact H4].
  - intros m b Hm _ _. exact Hm.
  - intros m Hm _. exact Hm.
Qed.

(** The inventory cells when there is no inventory table with rows. *)
Lemma constant_inventory_cells (df : list Merged)
    (inventories : option (list SecondarySupply.InventoryRow))
    (conv_balance : option (list ConversionBalance))
    (enr_balance : option (list EnrichmentBalance)) :
  inventories = None \/ inventories = Some [] ->
  Forall (fun m => m_inventory m = Some 0)
    (merge_enr (merge_conv (merge_inventories df inventories) conv_balance)
       enr_balance).
Proof.
  intros Hinv.
  assert (H3 : Forall (fun m => m_inventory m = Some 0)
                 (merge_inventories df inventories)).
  { apply Forall_forall. intros m Hm.
    destruct Hinv as [-> | ->]; simpl in Hm; apply in_map_iff in Hm;
      destruct Hm as [m0 [<- _]]; reflexivity. }
  assert (H4 : Forall (fun m => m_inventory m = Some 0)
                 (merge_conv (merge_inventories df inventories) conv_balance)).
  { unfold merge_conv. destruct conv_balance as [[|c conv]|]; try exact H3.
    eapply merge_left_Forall; [| |exact H3].
    - intros m b Hm _ _. exact Hm.
    - intros m Hm _. exact Hm. }
  unfold merge_enr. destruct enr_balance as [[|e enr]|]; try exact H4.
  eapply merge_left_Forall; [| |exact H4].
  - intros m b Hm _ _. exact Hm.
  - intros m Hm _. exact Hm.
Qed.

Lemma carried_merged (inventories : option (list SecondarySupply.InventoryRow))
    (df : list Merged) :
  Forall (fun m => m_inventory m = inventory_at inventories (m_year m)) df ->
  forall last, carried inventories (fillna last) (fill_rows last df).
Proof.
  induction 1 as [|m df Hm _ IH]; intros last; simpl; [exact I|].
  split.
  - rewrite Hm. destruct (inventory_at inventories (m_year m)); reflexivity.
  - apply IH.
Qed.

Lemma carried_constant (inventories : option (list SecondarySupply.InventoryRow))
    (df : list Merged) :
  (forall y, inventory_at inventories y = None) ->
  Forall (fun m => m_inventory m = Some 0) df ->
  forall last, fillna last = 0 -> carried inventories 0 (fill_rows last df).
Proof.
  intros Hnone. induction 1 as [|m df Hm _ IH]; intros last Hlast; simpl; [exact I|].
  rewrite Hm, Hnone. simpl. split; [reflexivity|].
  apply (IH (Some 0)). reflexivity.
Qed.

(** X28.  The inventory column is filled forward: when the feed demand comes
    in ascending order of year and the supply, inventory and balance tables
    each have at most one row per year, the panel has the years of the feed
    demand in that order, and the inventory of a row is the one the inventory
    table records for its year, or, when it records none, the inventory of
    the row before; it is zero for the first rows without a record. *)
Theorem sd_panel_inventory_carried (feed_demand : list FeedDemand)
    (primary_supply : list PrimarySupply.PrimarySupplyRow)
    (secondary_supply : list SecondarySupplyPanel.SecondarySupplyRow)
    (inventories : option (list SecondarySupply.InventoryRow))
    (conv_balance : option (list ConversionBalance))
    (enr_balance : option (list EnrichmentBalance)) :
  ascending (map fd_year feed_demand) ->
  NoDup (map PrimarySupply.year primary_supply) ->
  NoDup (map SecondarySupplyPanel.year secondary_supply) ->
  NoDup (years_of SecondarySupply.year inventories) ->
  NoDup (years_of cb_year conv_balance) ->
  NoDup (years_of eb_year enr_balance) ->
  let panel :=
    build_sd_panel feed_demand primary_supply secondary_supply inventories
      conv_balance enr_balance in
  map year panel = map fd_year feed_demand /\
  carried inventories 0 panel.
Proof.
  intros Hasc Hp Hs Hi Hc He panel. unfold panel, build_sd_panel. cbv zeta.
  set (df := merge_enr _ enr_balance).
  assert (Hyears : map year (fill_rows None df) = map fd_year feed_demand).
  { pose proof (panel_keys_before_sort df None) as Hk.
    apply (f_equal (map fst)) in Hk. rewrite !map_map in Hk. simpl in Hk.
    transitivity (map (fun m => fd_year (m_feed m)) df); [exact Hk|].
    rewrite <- (map_map m_feed fd_year). unfold df.
    rewrite merged_feed_rows by assumption. reflexivity. }
  rewrite sort_values_year_sorted by (rewrite Hyears; exact Hasc).
  split; [exact Hyears|].
  destruct inventories as [[|i inv]|].
  - apply carried_constant; [reflexivity | | reflexivity].
    apply constant_inventory_cells. now right.
  - exact (carried_merged (Some (i :: inv)) df
             (merged_inventory_cells _ i inv conv_balance enr_balance Hi) None).
  - apply carried_constant; [reflexivity | | reflexivity].
    apply constant_inventory_cells. now left.
Qed.

Lemma sd_panel_inventory_carried_witness :
  carried example_inventories 0
    (build_sd_panel example_feed example_primary_supply
       example_secondary_supply example_inventories None None).
Proof.
  apply (sd_panel_inventory_carried example_feed example_primary_supply
           example_secondary_supply example_inventories None None).
  - simpl. repeat split; intros y Hy; simpl in Hy; intuition lia.
  - repeat constructor; simpl; intuition discriminate.
  - repeat constructor; simpl; intuition discriminate.
  - repeat constructor; simpl; intuition discriminate.
  - constructor.
  - constructor.
Defined.

End BalancesFacts.


(** * The panel over the tables of the builders *)

Module PanelPipelineFacts.
Import FuelCycleBalances Balances SdPanelVocabulary.
Local Open Scope Q_scope.

(** The rows [evolve_inventories] returns have distinct years. *)
Lemma evolve_inventories_keyed
    (initial_inventories : list SecondarySupply.InventoryRow)
    (primary_supply_year : list SecondarySupply.PrimarySupplyYear)
    (secondary_supply_year : list SecondarySupply.SecondarySupplyYear)
    (feed_demand_year : list SecondarySupply.FeedDemandYear)
    (inventory_scenarios : option (list SecondarySupply.InventoryScenario))
    (rows : list SecondarySupply.InventoryRow) :
  SecondarySupply.evolve_inventories initial_inventories primary_supply_year
    secondary_supply_year feed_demand_year inventory_scenarios = inr rows ->
  NoDup (map SecondarySupply.year rows).
Proof.
  unfold SecondarySupply.evolve_inventories.
  destruct initial_inventories as [|r0 rest]; [discriminate|].
  destruct (iloc_last _) as [seed|]; [|discriminate]. cbn [bind ret].
  destruct (int_of_float (column_max (map SecondarySupply.year (r0 :: rest))))
    as [e|last_known]; [discriminate|]. cbn [bind].
  destruct (int_of_float (column_max (map SecondarySupply.fd_year feed_demand_year)))
    as [e|end_year]; [discriminate|]. cbn [bind].
  intros H. apply SecondarySupplyFacts.evolve_loop_inv in H. destruct H as [-> _].
  rewrite SecondarySupplyFacts.scan_years. apply NoDup_range.
Qed.

Lemma NoDup_map_filter {A : Type} (key : A -> Z) (keep : A -> bool) (l : list A) :
  NoDup (map key l) -> NoDup (map key (filter keep l)).
Proof.
  induction l as [|a l IH]; intros H; simpl; [constructor|].
  inversion H as [|? ? Hnotin Hnd]; subst.
  destruct (keep a); simpl; [|apply IH; exact Hnd].
  constructor; [|apply IH; exact Hnd].
  intros Hin. apply Hnotin. apply in_map_iff in Hin.
  destruct Hin as [x [E Hx]]. apply filter_In in Hx. rewrite <- E.
  apply in_map. apply Hx.
Qed.

(** The balances have the years of their demand rows. *)
Lemma conversion_balance_keyed (feed_demand : list FeedDemand)
    (conversion_capacity : list CapacityRow)
    (conv_scenarios : option (list CapacityRow)) (start_year end_year : Z) :
  NoDup (map fd_year feed_demand) ->
  NoDup (map cb_year
           (compute_conversion_balance feed_demand conversion_capacity
              conv_scenarios start_year end_year)).
Proof.
  intros H.
  rewrite (FuelCycleBalancesFacts.Forall2_map_eq _ cb_year fd_year _ _
             (FuelCycleBalancesFacts.conversion_balance_rows feed_demand
                conversion_capacity conv_scenarios start_year end_year)).
  - apply NoDup_map_filter. exact H.
  - intros r b [c [_ ->]]. reflexivity.
Qed.

Lemma enrichment_balance_keyed (swu_demand : list SwuDemand)
    (enrichment_capacity : list CapacityRow)
    (enr_scenarios : option (list CapacityRow)) (start_year end_year : Z) :
  NoDup (map sd_year swu_demand) ->
  NoDup (map eb_year
           (compute_enrichment_balance swu_demand enrichment_capacity
              enr_scenarios start_year end_year)).
Proof.
  intros H.
  rewrite (FuelCycleBalancesFacts.Forall2_map_eq _ eb_year sd_year _ _
             (FuelCycleBalancesFacts.enrichment_balance_rows swu_demand
                enrichment_capacity enr_scenarios start_year end_year)).
  - apply NoDup_map_filter. exact H.
  - intros r b [c [_ ->]]. reflexivity.
Qed.

Lemma primary_supply_keyed
    (mines : list PrimarySupply.Mine)
    (mine_production : list PrimarySupply.MineProduction)
    (mine_scenarios : option (list PrimarySupply.MineProduction))
    (start_year end_year : Z) :
  NoDup (map PrimarySupply.year
           (snd (PrimarySupply.build_primary_supply mines mine_production
                   mine_scenarios start_year end_year))).
Proof.
  pose proof (SupplyPipelineFacts.primary_panel_keyed mines mine_production
                mine_scenarios start_year end_year) as H.
  unfold SecondaryPanelVocabulary.as_primary_supply_year in H.
  rewrite map_map in H. exact H.
Qed.

Lemma secondary_supply_keyed
    (secondary_supply_base : list SecondarySupplyPanel.SecondarySource)
    (secondary_scenarios : option (list SecondarySupplyPanel.SecondarySource))
    (start_year end_year : Z) :
  NoDup (map SecondarySupplyPanel.year
           (SecondarySupplyPanel.build_secondary_supply secondary_supply_base
              secondary_scenarios start_year end_year)).
Proof.
  apply PanelFacts.ascending_NoDup.
  apply SecondarySupplyPanelFacts.secondary_years_ascending.
Qed.

(** X29.  The builders hand the panel tables it merges one for one: with the
    aggregated output of build_primary_supply, the output of
    build_secondary_supply, the rows returned by evolve_inventories and the
    two capacity balances as its tables, and feed and SWU demand tables with
    one row per year, build_sd_panel has exactly one row per row of the feed
    demand, with that row's year and feed. *)
Theorem sd_panel_over_built_tables
    (feed_demand : list FeedDemand) (swu_demand : list SwuDemand)
    (mines : list PrimarySupply.Mine)
    (mine_production : list PrimarySupply.MineProduction)
    (mine_scenarios : option (list PrimarySupply.MineProduction))
    (secondary_supply_base : list SecondarySupplyPanel.SecondarySource)
    (secondary_scenarios : option (list SecondarySupplyPanel.SecondarySource))
    (initial_inventories : list SecondarySupply.InventoryRow)
    (primary_supply_year : list SecondarySupply.PrimarySupplyYear)
    (secondary_supply_year : list SecondarySupply.SecondarySupplyYear)
    (feed_demand_year : list SecondarySupply.FeedDemandYear)
    (inventory_scenarios : option (list SecondarySupply.InventoryScenario))
    (conversion_capacity enrichment_capacity : list CapacityRow)
    (conv_scenarios enr_scenarios : option (list CapacityRow))
    (start_year end_year : Z)
    (inventories : list SecondarySupply.InventoryRow) :
  NoDup (map fd_year feed_demand) ->
  NoDup (map sd_year swu_demand) ->
  SecondarySupply.evolve_inventories initial_inventories primary_supply_year
    secondary_supply_year feed_demand_year inventory_scenarios = inr inventories ->
  Permutation
    (map (fun r => (year r, feed_tu r))
       (build_sd_panel feed_demand
          (snd (PrimarySupply.build_primary_supply mines mine_production
                  mine_scenarios start_year end_year))
          (SecondarySupplyPanel.build_secondary_supply secondary_supply_base
             secondary_scenarios start_year end_year)
          (Some inventories)
          (Some (compute_conversion_balance feed_demand conversion_capacity
                   conv_scenarios start_year end_year))
          (Some (compute_enrichment_balance swu_demand enrichment_capacity
                   enr_scenarios start_year end_year))))
    (map (fun f => (fd_year f, FuelCycleBalances.feed_tu f)) feed_demand).
Proof.
  intros Hfeed Hswu Hinv. unfold build_sd_panel. cbv zeta.
  rewrite (Permutation_map _ (BalancesFacts.sort_values_year_perm _)).
  rewrite BalancesFacts.panel_keys_before_sort.
  rewrite BalancesFacts.merged_feed_rows; [reflexivity | | | | | ].
  - apply primary_supply_keyed.
  - apply secondary_supply_keyed.
  - exact (evolve_inventories_keyed _ _ _ _ _ _ Hinv).
  - apply conversion_balance_keyed. exact Hfeed.
  - apply enrichment_balance_keyed. exact Hswu.
Qed.


Lemma sd_panel_over_built_tables_witness :
  exists inventories,
    SecondarySupply.evolve_inventories InventoryVocabulary.example_initial
      InventoryVocabulary.example_primary InventoryVocabulary.example_secondary
      InventoryVocabulary.example_feed InventoryVocabulary.example_policy
    = inr inventories /\
    Permutation
      (map (fun r => (year r, feed_tu r))
         (build_sd_panel example_feed
            (snd (PrimarySupply.build_primary_supply
                    MineGridVocabulary.example_mines
                    MineGridVocabulary.example_production
                    MineGridVocabulary.example_scenarios 2020 2023))
            (SecondarySupplyPanel.build_secondary_supply
               SecondaryPanelVocabulary.example_base
               SecondaryPanelVocabulary.example_scenarios 2020 2023)
            (Some inventories)
            (Some (compute_conversion_balance example_feed
                     BalanceVocabulary.example_capacity
                     BalanceVocabulary.example_capacity_scenarios 2020 2023))
            (Some (compute_enrichment_balance example_swu_demand
                     BalanceVocabulary.example_capacity None 2020 2023))))
      (map (fun f => (fd_year f, FuelCycleBalances.feed_tu f)) example_feed).
Proof.
  assert (H : exists rows,
             SecondarySupply.evolve_inventories InventoryVocabulary.example_initial
               InventoryVocabulary.example_primary
               InventoryVocabulary.example_secondary
               InventoryVocabulary.example_feed InventoryVocabulary.example_policy
             = inr rows) by (eexists; vm_compute; reflexivity).
  destruct H as [rows H]. exists rows. split; [exact H|].
  apply (sd_panel_over_built_tables example_feed example_swu_demand
           MineGridVocabulary.example_mines MineGridVocabulary.example_production
           MineGridVocabulary.example_scenarios
           SecondaryPanelVocabulary.example_base
           SecondaryPanelVocabulary.example_scenarios
           InventoryVocabulary.example_initial InventoryVocabulary.example_primary
           InventoryVocabulary.example_secondary InventoryVocabulary.example_feed
           InventoryVocabulary.example_policy
           BalanceVocabulary.example_capacity BalanceVocabulary.example_capacity
           BalanceVocabulary.example_capacity_scenarios None 2020 2023 rows).
  - repeat constructor; simpl; intuition discriminate.
  - repeat constructor; simpl; intuition discriminate.
  - exact H.
Defined.

End PanelPipelineFacts.


(** * From reactor demand to feed demand *)

Module DemandPipelineFacts.
Import DemandPipelineVocabulary.

(** Every row of the reactor demand table has its year in the range of the
    call. *)
Lemma iterrows_within_range (gen : list Demand.Generation)
    (fp : list Demand.FuelParams) (start_year end_year : Z)
    (reactors : list Demand.Reactor) :
  forall rows,
    Demand.iterrows gen fp start_year end_year reactors = inr rows ->
    forall row, In row rows -> (start_year <= Demand.year row <= end_year)%Z.
Proof.
  induction reactors as [|r rest IH]; intros rows; simpl.
  - intros [= <-] row [].
  - destruct (Demand.reactor_rows gen fp start_year end_year r) as [e|mine] eqn:Er;
      [discriminate|]. simpl.
    destruct (Demand.iterrows gen fp start_year end_year rest) as [e|more] eqn:Em;
      [discriminate|]. simpl.
    intros [= <-] row Hrow. apply in_app_or in Hrow.
    destruct Hrow as [Hrow|Hrow]; [|exact (IH more eq_refl row Hrow)].
    unfold Demand.reactor_rows in Er.
    destruct (int_of_float (Demand.commercial_operation_date r)) as [e|start];
      [discriminate|]. simpl in Er.
    destruct (DemandMore.year_loop_years gen fp r start
                (Demand.shutdown_year end_year r) _ _ _ mine eq_refl Er)
      as [Hyears _].
    assert (Hin : In (Demand.year row) (map Demand.year mine))
      by (apply in_map; exact Hrow).
    rewrite Hyears in Hin. apply in_range_iff in Hin. lia.
Qed.

Lemma reactor_demand_within_range
    (reactor_master : Demand.ReactorFrame)
    (reactor_generation : list Demand.Generation)
    (reactor_fuel_params : list Demand.FuelParams)
    (reactor_life_scenarios : option (list Demand.LifeScenario))
    (newbuild_projects : option (list Demand.NewbuildProject))
    (start_year end_year : Z) (scenario_name : string)
    (rows : list Demand.ReactorDemand) :
  Demand.compute_reactor_demand reactor_master reactor_generation
    reactor_fuel_params reactor_life_scenarios newbuild_projects
    start_year end_year scenario_name = inr rows ->
  forall row, In row rows -> (start_year <= Demand.year row <= end_year)%Z.
Proof.
  unfold Demand.compute_reactor_demand.
  destruct (Demand.fleet _ _ _ _) as [e|reactors]; [discriminate|]. simpl.
  destruct (Demand.has_shutdown_year_override reactors); [|discriminate].
  apply iterrows_within_range.
Qed.

(** X30.  From reactor demand to feed demand: when compute_reactor_demand
    returns its table and compute_feed_and_swu_demand returns a panel for
    that table, every year of the panel lies in [start_year, end_year] and
    is the year of a row of the table, and every year of the table has a row
    in the panel. *)
Theorem feed_panel_years_from_reactor_demand
    (reactor_master : Demand.ReactorFrame)
    (reactor_generation : list Demand.Generation)
    (reactor_fuel_params : list Demand.FuelParams)
    (reactor_life_scenarios : option (list Demand.LifeScenario))
    (newbuild_projects : option (list Demand.NewbuildProject))
    (start_year end_year : Z) (scenario_name : string)
    (rows : list Demand.ReactorDemand)
    (u s : option FuelCycleDemand.PriceSeries) (policy : string)
    (default_tails feed_assay : R) (out : list FuelCycleDemand.FeedSwuRow) :
  Demand.compute_reactor_demand reactor_master reactor_generation
    reactor_fuel_params reactor_life_scenarios newbuild_projects
    start_year end_year scenario_name = inr rows ->
  FuelCycleDemand.compute_feed_and_swu_demand (as_reactor_demand rows) u s policy
    default_tails feed_assay = inr out ->
  (forall r, In r out ->
     (start_year <= FuelCycleDemand.year r <= end_year)%Z /\
     exists row, In row rows /\ Demand.year row = FuelCycleDemand.year r) /\
  (forall row, In row rows ->
     exists r, In r out /\ FuelCycleDemand.year r = Demand.year row).
Proof.
  intros Hrows Hout.
  pose proof (FuelCycleDemandFacts.compute_years _ _ _ _ _ _ _ Hout) as Hyears.
  assert (Hkeys : forall y,
             In y (map FuelCycleDemand.year out)
             <-> exists row, In row rows /\ Demand.year row = y).
  { intros y. rewrite Hyears. unfold FeedDemandVocabulary.demand_years.
    rewrite PanelFacts.in_group_keys. unfold as_reactor_demand.
    rewrite map_map. simpl. rewrite in_map_iff.
    split; intros [row [H1 H2]]; exists row; split; assumption. }
  split.
  - intros r Hr.
    destruct (proj1 (Hkeys (FuelCycleDemand.year r)) (in_map _ _ _ Hr))
      as [row [Hrow Hy]].
    split; [|exists row; split; assumption].
    rewrite <- Hy.
    exact (reactor_demand_within_range _ _ _ _ _ _ _ _ _ Hrows row Hrow).
  - intros row Hrow.
    assert (Hin : In (Demand.year row) (map FuelCycleDemand.year out)).
    { apply Hkeys. exists row. split; [exact Hrow | reflexivity]. }
    apply in_map_iff in Hin. destruct Hin as [r [E Hr]].
    exists r. split; assumption.
Qed.


Lemma example_table_returned :
  Demand.compute_reactor_demand DemandVocabulary.example_master []
    DemandVocabulary.example_fuel_params DemandVocabulary.example_life
    DemandVocabulary.example_newbuilds 2020 2023 "base" = inr example_table.
Proof. vm_compute. reflexivity. Qed.

Lemma example_table_feed_returns :
  exists out,
    FuelCycleDemand.compute_feed_and_swu_demand (as_reactor_demand example_table)
      None None "fixed" FuelCycle.DEFAULT_TAILS_ASSAY FuelCycle.NATURAL_U235_ASSAY
    = inr out.
Proof.
  apply FuelCycleDemandFacts.fixed_policy_returns; [discriminate|].
  intros y Hy.
  change (FeedDemandVocabulary.demand_years (as_reactor_demand example_table))
    with [2020; 2021; 2022; 2023]%Z in Hy.
  unfold FeedDemandVocabulary.enrichable, FuelCycle.NATURAL_U235_ASSAY,
    FuelCycle.DEFAULT_TAILS_ASSAY.
  destruct Hy as [<-|[<-|[<-|[<-|[]]]]];
    unfold FeedDemandVocabulary.year_product_assay,
      FeedDemandVocabulary.year_fixed_tails, FuelCycleDemand.nanmean,
      FuelCycleDemand.mean, FuelCycleDemand.sum; simpl;
    unfold FuelCycleDemand.mean, FuelCycleDemand.sum, Q2R; simpl;
    repeat split; lra.
Qed.

Lemma feed_panel_years_from_reactor_demand_witness :
  exists out,
    FuelCycleDemand.compute_feed_and_swu_demand (as_reactor_demand example_table)
      None None "fixed" FuelCycle.DEFAULT_TAILS_ASSAY FuelCycle.NATURAL_U235_ASSAY
    = inr out /\
    (forall r, In r out ->
       (2020 <= FuelCycleDemand.year r <= 2023)%Z /\
       exists row, In row example_table /\ Demand.year row = FuelCycleDemand.year r) /\
    (forall row, In row example_table ->
       exists r, In r out /\ FuelCycleDemand.year r = Demand.year row).
Proof.
  destruct example_table_feed_returns as [out Hout].
  exists out. split; [exact Hout|].
  exact (feed_panel_years_from_reactor_demand _ _ _ _ _ _ _ _ _ _ _ _ _ _ _
           example_table_returned Hout).
Defined.

End DemandPipelineFacts.
